(** * PN532 driver (nfc/clf/pn532.py): a shallow embedding and its properties

    The driver is Python 2 code.  Byte strings and bytearrays are lists of
    integers in [0, 256); Python integers are [Z]; text strings are
    [string]; the binary digit strings of the receive path are [list ascii].
    Calls into the chip go through the base layer (pn53x), which pn532.py
    imports and does not define: they are recorded in a trace and answered
    by an arbitrary chip, so every statement holds for every chip
    behaviour. *)

From Stdlib Require Import ZArith String Ascii Bool Lia List Permutation.
Import ListNotations.
Open Scope Z_scope.

(** ** Python values and errors *)

Module Py.

(** The exceptions the driver and its callees can raise. *)
Inductive exn : Type :=
| IndexError
| TypeError
| ValueError
| AssertionError
| RuntimeError
| NotImplementedError (info : string)
| TimeoutError
| TransmissionError (info : string)
| ChipsetError (data : list Z).

Inductive result (A : Type) : Type :=
| Ok (a : A)
| Raise (e : exn).
Arguments Ok {A} a.
Arguments Raise {A} e.

Definition is_ok {A} (r : result A) : bool :=
  match r with Ok _ => true | Raise _ => false end.

(** An element of a bytearray. *)
Definition is_byte (z : Z) : Prop := 0 <= z < 256.

(** [len(x)] *)
Definition len {A} (l : list A) : Z := Z.of_nat (length l).

(** [chr(i)]: a one-character string, [ValueError] outside range(256). *)
Definition chr (i : Z) : result (list Z) :=
  if (0 <=? i) && (i <? 256) then Ok [i] else Raise ValueError.

(** [bytearray(ints)]: [ValueError] when an item is outside range(256). *)
Definition bytearray (ints : list Z) : result (list Z) :=
  if forallb (fun i => (0 <=? i) && (i <? 256)) ints then Ok ints
  else Raise ValueError.

(** [x[i]] for [0 <= i]. *)
Definition getitem {A} (l : list A) (i : nat) : result A :=
  match nth_error l i with Some x => Ok x | None => Raise IndexError end.

(** [x[i:j]] for [0 <= i] and [0 <= j]; a slice never raises, it is cut at
    the end of the sequence. *)
Definition slice {A} (l : list A) (i j : nat) : list A :=
  firstn (j - i) (skipn i l).

(** [x[0:-2]] *)
Definition drop_last2 {A} (l : list A) : list A :=
  firstn (length l - 2) l.

(** [x[-2:]] *)
Definition last2 {A} (l : list A) : list A :=
  skipn (length l - 2) l.

(** [range(start, stop, step)] for [0 < step]. *)
Definition range (start stop step : Z) : list Z :=
  map (fun k => start + step * Z.of_nat k)
      (seq 0 (Z.to_nat ((stop - start + step - 1) / step))).

(** [t.index(x)]: position of the first item equal to [x]. *)
Fixpoint index (x : Z) (t : list Z) : option nat :=
  match t with
  | [] => None
  | y :: t' => if y =? x then Some O
               else match index x t' with
                    | Some i => Some (S i)
                    | None => None
                    end
  end.

(** [x in t] for a collection of strings: comparison by value. *)
Definition contains (t : list string) (x : string) : bool :=
  existsb (String.eqb x) t.

(** [enumerate(t)] *)
Definition enumerate {A} (t : list A) : list (nat * A) :=
  combine (seq 0 (length t)) t.

(** What can stand after [in] in a [for] statement: the driver iterates
    over sequences and, in [in_auto_poll], over an integer. *)
Inductive value : Type :=
| Int (i : Z)
| Seq (items : list Z).

(** [iter(v)]: an integer is not iterable. *)
Definition iter (v : value) : result (list Z) :=
  match v with
  | Int _ => Raise TypeError
  | Seq items => Ok items
  end.

End Py.
Import Py.

(** ** The chip seen from the driver *)

(** One call into the base layer. *)
Inductive event : Type :=
| Command (cmd_code : Z) (cmd_data : list Z) (timeout : option Z)
| WriteFrame (frame : list Z)
| WriteRegister (regs : list (string * Z))
| ReadRegister (regs : list string)
| InDataExchange (data : list Z) (timeout : Z)
| Sleep (microseconds : Z).

(** The world: what was sent so far, and the chip, which answers the last
    call of a history with reply bytes or with an exception. *)
Record world : Type := World {
  trace : list event;
  chip : list event -> result (list Z)
}.

Definition M (A : Type) : Type := world -> result A * world.

Definition ret {A} (a : A) : M A := fun w => (Ok a, w).

Definition raise {A} (e : exn) : M A := fun w => (Raise e, w).

Definition bind {A B} (c : M A) (k : A -> M B) : M B :=
  fun w => match c w with
           | (Ok a, w') => k a w'
           | (Raise e, w') => (Raise e, w')
           end.

Definition lift {A} (r : result A) : M A := fun w => (r, w).

Notation "x <- c ;; k" := (bind c (fun x => k))
  (at level 61, c at next level, right associativity).
Notation "c ;;; k" := (bind c (fun _ => k))
  (at level 61, right associativity).

(** A call that the chip answers. *)
Definition request (e : event) : M (list Z) :=
  fun w => let t := (trace w ++ [e])%list in
           (chip w t, World t (chip w)).

(** [time.sleep]: recorded, never fails. *)
Definition sleep (microseconds : Z) : M unit :=
  fun w => (Ok tt, World (trace w ++ [Sleep microseconds])%list (chip w)).

(** Binding in [result], for the pure steps. *)
Definition rbind {A B} (r : result A) (k : A -> result B) : result B :=
  match r with Ok a => k a | Raise e => Raise e end.

Notation "x <~ c ;; k" := (rbind c (fun x => k))
  (at level 61, c at next level, right associativity).
Notation "' pat <~ c ;; k" := (rbind c (fun x => match x with pat => k end))
  (at level 61, pat pattern, c at next level, right associativity).

(** [[f(x) for x in xs]] where [f] can raise. *)
Fixpoint comprehension {A B} (f : A -> result B) (xs : list A) : result (list B) :=
  match xs with
  | [] => Ok []
  | x :: xs' => y <~ f x ;; ys <~ comprehension f xs' ;; Ok (y :: ys)
  end.

Definition list_eqb (a b : list Z) : bool :=
  if list_eq_dec Z.eq_dec a b then true else false.

(** ** The base layer (pn53x), inherited by the driver's classes

    What the driver takes from its base classes and pn532.py does not
    define: the 16-bit checksum, the acknowledge frame, the text of
    [str(self)], and the generic listen routine. *)
Class Pn53x : Type := {
  target : Type;
  crc_16 : list Z -> Z;
  ACK : list Z;
  str_self : string;
  _listen_dep : target -> Z -> M (option target)
}.

Section BaseLayer.
Context `{Pn53x}.

(** Modelled from the spec: [Chipset.command] of the base layer, which sends
    an opcode and a payload and blocks for the reply bytes or raises. *)
Definition command (cmd_code : Z) (cmd_data : list Z) (timeout : option Z)
  : M (list Z) :=
  request (Command cmd_code cmd_data timeout).

(** Modelled from the spec: [Chipset.write_frame] of the base layer, for
    raw acknowledgment frames. *)
Definition write_frame (frame : list Z) : M unit :=
  request (WriteFrame frame) ;;; ret tt.

(** Modelled from the spec: [Chipset.write_register] of the base layer: one
    request for all the (register, value) pairs, no return value. *)
Definition write_register (regs : list (string * Z)) : M unit :=
  request (WriteRegister regs) ;;; ret tt.

(** Modelled from the spec: [Chipset.read_register] of the base layer with
    several registers: one request, one byte per register in the same
    order. *)
Definition read_registers (regs : list string) : M (list Z) :=
  request (ReadRegister regs).

(** Modelled from the spec: [Chipset.read_register] of the base layer with
    one register, which the driver uses as an integer. *)
Definition read_register (reg : string) : M Z :=
  data <- request (ReadRegister [reg]) ;; lift (getitem data 0).

(** Modelled from the spec: [Chipset.read_register] of the base layer as
    the driver calls it with a computed list of registers: with
    one register the result is an integer (lines 168, 193 and 320 use it
    so), with another number of registers it is the sequence of their
    bytes. *)
Definition read_register_value (regs : list string) : M value :=
  match regs with
  | [reg] => v <- read_register reg ;; ret (Int v)
  | _ => data <- read_registers regs ;; ret (Seq data)
  end.

(** Modelled from the spec: [Chipset.in_data_exchange] of the base layer,
    the generic exchange primitive; the driver takes the first item of
    what it returns, the reply data. *)
Definition in_data_exchange (data : list Z) (timeout : Z) : M (list Z) :=
  request (InDataExchange data timeout).

(** Modelled from the spec: [Chipset.chipset_error] of the base layer,
    which raises a chipset error that carries the reply. *)
Definition chipset_error {A} (data : list Z) : M A :=
  raise (ChipsetError data).

(** The two bytes of the checksum, low byte first. *)
Definition crc_bytes (data : list Z) : list Z :=
  [Z.land (crc_16 data) 255; Z.land (Z.shiftr (crc_16 data) 8) 255].

(** Modelled from the spec: [add_crc_b] of the base layer, which appends
    the 16-bit checksum to the bytes. *)
Definition add_crc_b (data : list Z) : list Z :=
  data ++ crc_bytes data.

(** Modelled from the spec: [check_crc_b] of the base layer, which takes the
    trailing two bytes as the checksum over the preceding bytes. *)
Definition check_crc_b (data : list Z) : bool :=
  list_eqb (last2 data) (crc_bytes (drop_last2 data)).

End BaseLayer.

(** ** class Chipset *)

Module Chipset.
Section Chipset.
Context `{Pn53x}.

(** [Chipset.set_serial_baudrate] *)
Definition br : list Z :=
  [9600; 19200; 38400; 57600; 115200; 230400; 460800; 921600; 1288000].

Definition set_serial_baudrate (baudrate : Z) : M unit :=
  match index baudrate br with
  | None => raise ValueError
  | Some i =>
      payload <- lift (chr (Z.of_nat i)) ;;
      command 0x10 payload (Some 100) ;;;
      write_frame ACK
  end.

(** [Chipset.power_down_wakeup_src] *)
Definition power_down_wakeup_src : list string :=
  ["INT0"; "INT1"; "rfu"; "RF"; "HSU"; "SPI"; "GPIO"; "I2C"]%string.

(** The loop of [power_down] that builds [wakeup_set]. *)
Definition wakeup_set (wakeup_enable : list string) : Z :=
  fold_left
    (fun wakeup_set '(i, src) =>
       if contains wakeup_enable src
       then Z.lor wakeup_set (Z.shiftl 1 (Z.of_nat i))
       else wakeup_set)
    (enumerate power_down_wakeup_src) 0.

(** [Chipset.power_down] *)
Definition power_down (wakeup_enable : list string) (generate_irq : bool)
  : M unit :=
  cmd_data <- lift (bytearray [wakeup_set wakeup_enable; Z.b2z generate_irq]) ;;
  data <- command 0x16 cmd_data (Some 100) ;;
  status <- lift (getitem data 0) ;;
  if negb (status =? 0) then chipset_error data else ret tt.

(** [data.pop(0)] *)
Definition pop0 (data : list Z) : result (Z * list Z) :=
  match data with
  | [] => Raise IndexError
  | x :: data' => Ok (x, data')
  end.

(** The body of the loop of [in_auto_poll]: the entry read and the buffer
    left.  In [data[:data.pop(0)]] the length is popped first and the
    slice is taken from what remains; the slice removes nothing. *)
Definition in_auto_poll_entry (data : list Z)
  : result ((Z * list Z) * list Z) :=
  '(tg_type, data) <~ pop0 data ;;
  '(n, data) <~ pop0 data ;;
  Ok ((tg_type, firstn (Z.to_nat n) data), data).

Fixpoint in_auto_poll_loop (items : list Z) (data : list Z)
         (targets : list (Z * list Z)) : result (list (Z * list Z)) :=
  match items with
  | [] => Ok targets
  | _ :: items' =>
      '(tg, data) <~ in_auto_poll_entry data ;;
      in_auto_poll_loop items' data (targets ++ [tg])
  end.

(** The decoding of the reply: [for i in data.pop(0)] iterates over what
    [pop] returned, an integer. *)
Definition in_auto_poll_decode (data : list Z) : result (list (Z * list Z)) :=
  '(n, data) <~ pop0 data ;;
  items <~ iter (Int n) ;;
  in_auto_poll_loop items data [].

(** [Chipset.in_auto_poll] *)
Definition in_auto_poll (poll_nr period : Z) (types : list Z)
  : M (list (Z * list Z)) :=
  if negb (len types <=? 15) then raise AssertionError else
  let timeout := poll_nr * len types * period * 150 + 100 in
  a <- lift (chr poll_nr) ;;
  b <- lift (chr period) ;;
  c <- lift (bytearray types) ;;
  data <- command 0x60 (a ++ b ++ c) (Some timeout) ;;
  lift (in_auto_poll_decode data).

(** [Chipset.tg_init_as_target]; [mode] is an [int] by its type here. *)
Definition tg_init_as_target (mode : Z)
           (mifare_params felica_params nfcid3t : list Z)
           (general_bytes historical_bytes : list Z) (timeout : option Z)
  : M (list Z) :=
  if negb (Z.land mode 0xF8 =? 0) then raise AssertionError else
  if negb (len mifare_params =? 6) then raise AssertionError else
  if negb (len felica_params =? 18) then raise AssertionError else
  if negb (len nfcid3t =? 10) then raise AssertionError else
  m <- lift (chr mode) ;;
  g <- lift (chr (len general_bytes)) ;;
  h <- lift (chr (len historical_bytes)) ;;
  command 0x8c (m ++ mifare_params ++ felica_params ++ nfcid3t ++
                g ++ general_bytes ++ h ++ historical_bytes) timeout.

(** [Chipset.CMD] *)
Definition CMD : list (Z * string) :=
  [(0x00, "Diagnose"); (0x02, "GetFirmwareVersion");
   (0x04, "GetGeneralStatus"); (0x06, "ReadRegister");
   (0x08, "WriteRegister"); (0x0C, "ReadGPIO"); (0x0E, "WriteGPIO");
   (0x10, "SetSerialBaudrate"); (0x12, "SetParameters");
   (0x14, "SAMConfiguration"); (0x16, "PowerDown");
   (0x32, "RFConfiguration"); (0x58, "RFRegulationTest");
   (0x56, "InJumpForDEP"); (0x46, "InJumpForPSL");
   (0x4A, "InListPassiveTarget"); (0x50, "InATR"); (0x4E, "InPSL");
   (0x40, "InDataExchange"); (0x42, "InCommunicateThru");
   (0x44, "InDeselect"); (0x52, "InRelease"); (0x54, "InSelect");
   (0x60, "InAutoPoll");
   (0x8C, "TgInitAsTarget"); (0x92, "TgSetGeneralBytes");
   (0x86, "TgGetData"); (0x8E, "TgSetData"); (0x94, "TgSetMetaData");
   (0x88, "TgGetInitiatorCommand"); (0x90, "TgResponseToInitiator");
   (0x8A, "TgGetTargetStatus")]%string.

(** [CMD[code]] *)
Fixpoint cmd_name (table : list (Z * string)) (code : Z) : option string :=
  match table with
  | [] => None
  | (c, name) :: table' => if c =? code then Some name else cmd_name table' code
  end.

(** [Chipset._read_register], [Chipset._write_register] *)
Definition _read_register (data : list Z) : M (list Z) :=
  command 0x06 data (Some 250).

Definition _write_register (data : list Z) : M unit :=
  command 0x08 data (Some 250) ;;; ret tt.

(** [t.index(x)] for a tuple of strings. *)
Fixpoint str_index (x : string) (t : list string) : option nat :=
  match t with
  | [] => None
  | y :: t' => if String.eqb y x then Some O
               else match str_index x t' with
                    | Some i => Some (S i)
                    | None => None
                    end
  end.

(** [Chipset.sam_configuration] *)
Definition sam_modes : list string :=
  ["normal"; "virtual"; "wired"; "dual"]%string.

Definition sam_configuration (mode : string) (timeout : Z) (irq : bool)
  : M unit :=
  match str_index mode sam_modes with
  | None => raise ValueError
  | Some i =>
      let mode := Z.of_nat i + 1 in
      cmd_data <- lift (bytearray [mode; timeout; Z.b2z irq]) ;;
      command 0x14 cmd_data (Some 100) ;;;
      ret tt
  end.

End Chipset.
End Chipset.

(** ** class Device *)

Module Device.
Section Device.
Context `{Pn53x}.

(** ["{:08b}".format(octet)] for an octet of a bytearray: eight binary
    digits, the most significant first. *)
Definition bit_char (b : bool) : ascii := if b then "1"%char else "0"%char.

Definition format_08b (octet : Z) : list ascii :=
  map (fun i => bit_char (Z.testbit octet (Z.of_nat i)))
      [7; 6; 5; 4; 3; 2; 1; 0]%nat.

(** [int(s, 2)]; the empty string and other digits are a [ValueError]. *)
Definition digit2 (c : ascii) : result Z :=
  if Ascii.eqb c "0" then Ok 0
  else if Ascii.eqb c "1" then Ok 1
  else Raise ValueError.

Fixpoint int2_from (acc : Z) (s : list ascii) : result Z :=
  match s with
  | [] => Ok acc
  | c :: s' => d <~ digit2 c ;; int2_from (2 * acc + d) s'
  end.

Definition int2 (s : list ascii) : result Z :=
  match s with
  | [] => Raise ValueError
  | _ => int2_from 0 s
  end.

(** Lines 323-324: the bytes read from the FIFO are written as binary
    digits, each octet reversed, and every ninth digit is dropped on the
    way back to integers. *)
Definition tt1_unpack (data : list Z) : result (list Z) :=
  let data := flat_map (fun octet => rev (format_08b octet)) data in
  comprehension
    (fun i => int2 (rev (slice data (Z.to_nat i) (Z.to_nat (i + 8)))))
    (range 0 (len data - 8) 9).

(** Lines 303-313: the register writes of one command; [data] carries its
    checksum already. *)
Definition tt1_register_write (data : list Z) (cmd_code : Z)
  : list (string * Z) :=
  let register_write :=
    [("CIU_FIFOData", cmd_code); ("CIU_BitFraming", 0x07);
     ("CIU_Command", 0x04); ("CIU_BitFraming", 0x00);
     ("CIU_ManualRCV", 0x30)]%string in
  let register_write :=
    fold_left
      (fun register_write i =>
         register_write ++
         [("CIU_FIFOData", nth (Z.to_nat i) data 0);
          ("CIU_Command", 0x04); ("CIU_Command", 0x07)]%string)
      (range 1 (len data) 1) register_write in
  register_write ++ [("CIU_Command", 0x08)]%string.

(** Lines 302-327: the commands sent through the registers of the CIU.
    Line 322 reads as many octets as the fill level says; with a fill
    level of one this is a one-register read, whose integer line 323
    cannot iterate over. *)
Definition tt1_bitbang (data : list Z) : M (list Z) :=
  let data := add_crc_b data in
  cmd_code <- lift (getitem data 0) ;;
  write_register (tt1_register_write data cmd_code) ;;;
  (if cmd_code =? 0x54 then sleep 6000 else ret tt) ;;;
  (if cmd_code =? 0x1B then sleep 3000 else ret tt) ;;;
  write_register [("CIU_ManualRCV", 0x20)]%string ;;;
  fifo_level <- read_register "CIU_FIFOLevel" ;;
  if fifo_level =? 0 then raise TimeoutError else
  data <- read_register_value
            (repeat "CIU_FIFOData"%string (Z.to_nat fifo_level)) ;;
  data <- lift (iter data) ;;
  data <- lift (tt1_unpack data) ;;
  if negb (check_crc_b data)
  then raise (TransmissionError "crc_b check error")
  else ret (drop_last2 data).

(** The loop of the segment read, lines 286-288; [self] is the method
    called for each block. *)
Fixpoint tt1_rseg_loop (self : list Z -> Z -> M (list Z))
         (blocks : list Z) (data : list Z) (timeout : Z) (rsp : list Z)
  : M (list Z) :=
  match blocks with
  | [] => ret rsp
  | block :: blocks' =>
      c <- lift (chr block) ;;
      r <- self ([0x02] ++ c ++ skipn 2 data) timeout ;;
      tt1_rseg_loop self blocks' data timeout (rsp ++ slice r 1 9)
  end.

(** The body of [_tt1_send_cmd_recv_rsp], with the method it calls on
    itself as [self]. *)
Definition tt1_body (self : list Z -> Z -> M (list Z))
           (data : list Z) (timeout : Z) : M (list Z) :=
  cmd_code <- lift (getitem data 0) ;;
  if existsb (Z.eqb cmd_code) [0x00; 0x01; 0x1A; 0x53; 0x72]
  then in_data_exchange data timeout
  else if cmd_code =? 0x10
  then
    let rsp := slice data 1 2 in
    adds <- lift (getitem data 1) ;;
    let first := Z.shiftr adds 4 * 16 in
    tt1_rseg_loop self (range first (first + 16) 1) data timeout rsp
  else tt1_bitbang data.

(** The method with a bound on the depth of its calls on itself; beyond
    the bound Python raises [RuntimeError].  The method calls itself for
    the blocks of a segment only, and a block read is sent through the
    registers, so two levels are all there are: with that bound the
    method satisfies its own equation ([tt1_send_cmd_recv_rsp_unfold]). *)
Fixpoint tt1_calls (depth : nat) (data : list Z) (timeout : Z) : M (list Z) :=
  match depth with
  | O => raise RuntimeError
  | S depth' => tt1_body (tt1_calls depth') data timeout
  end.

(** [Device._tt1_send_cmd_recv_rsp] *)
Definition _tt1_send_cmd_recv_rsp : list Z -> Z -> M (list Z) :=
  tt1_calls 2.

(** [Device.listen_tta], [listen_ttb], [listen_ttf], [listen_dep] *)
Definition listen_tta (tg : target) (timeout : Z) : M (option target) :=
  raise (NotImplementedError
           (str_self ++ " does not support listen as Type A Target")).

Definition listen_ttb (tg : target) (timeout : Z) : M (option target) :=
  raise (NotImplementedError
           (str_self ++ " does not support listen as Type B Target")).

Definition listen_ttf (tg : target) (timeout : Z) : M (option target) :=
  raise (NotImplementedError
           (str_self ++ " does not support listen as Type F Target")).

Definition listen_dep (tg : target) (timeout : Z) : M (option target) :=
  _listen_dep tg timeout.

(** [Device._init_as_target] *)
Definition _init_as_target (mode : Z) (tta_params ttf_params : list Z)
           (timeout : option Z) : M (list Z) :=
  let nfcid3t := slice ttf_params 0 8 ++ [0x00; 0x00] in
  Chipset.tg_init_as_target mode tta_params ttf_params nfcid3t [] [] timeout.

(** The target object of [old_sense_dep]: the attributes it reads and
    writes. *)
Record dep_target : Type := DepTarget {
  bitrate : Z;
  atr_req : list Z;
  atr_res : list Z
}.

(** [x[i] = v] on a bytearray, for an index inside it. *)
Fixpoint setitem (l : list Z) (i : nat) (v : Z) : list Z :=
  match l, i with
  | [], _ => []
  | _ :: l', O => v :: l'
  | x :: l', S i' => x :: setitem l' i' v
  end.

(** Lines 254-261 of [old_sense_dep]: what is made of the reply [data] of
    the exchange; [self_bitrate] is [self.target.bitrate]. *)
Definition old_sense_dep_reply (self_bitrate : Z) (tg : dep_target)
           (data : list Z) : result dep_target :=
  let br := bitrate tg in
  let res := if br =? 106 then skipn 2 data else skipn 1 data in
  res <~ (if br =? 106
          then b <~ getitem res 16 ;;
               if Z.land b 0x30 =? 0x30
               then Ok (setitem res 16 (Z.lor (Z.land b 0xCF) 0x20))
               else Ok res
          else Ok res) ;;
  let rate := if negb (bitrate tg =? self_bitrate)
              then self_bitrate else bitrate tg in
  Ok (DepTarget rate (atr_req tg) res).

End Device.
End Device.

(** ** The receive FIFO while parity checking is off

    With [CIU_ManualRCV] set to ParityDisable the chip stores what it
    receives as it comes: for every byte of the reply its eight data bits,
    least significant first, and the parity bit, one after the other, filling
    each octet of the FIFO from its least significant bit (the comment at
    lines 296-301 of the driver). *)

Definition bits_lsb (octet : Z) : list bool :=
  map (fun i => Z.testbit octet (Z.of_nat i)) (seq 0 8).

Fixpoint value_lsb (bits : list bool) : Z :=
  match bits with
  | [] => 0
  | b :: bits' => Z.b2z b + 2 * value_lsb bits'
  end.

(** The bits on the wire: each byte of the frame with its parity bit. *)
Definition wire_bits (frame : list (Z * bool)) : list bool :=
  flat_map (fun '(octet, parity) => bits_lsb octet ++ [parity]) frame.

(** The bits cut into octets; a last partial octet has zeros above. *)
Fixpoint fifo_octets (fuel : nat) (bits : list bool) : list Z :=
  match fuel with
  | O => []
  | S fuel' =>
      match bits with
      | [] => []
      | _ => value_lsb (firstn 8 bits) :: fifo_octets fuel' (skipn 8 bits)
      end
  end.

Definition fifo_pack (frame : list (Z * bool)) : list Z :=
  fifo_octets (length (wire_bits frame)) (wire_bits frame).

(** One bit of the FIFO inverted; [pos] counts the bits in the order they
    were received. *)
Fixpoint flip_bit (fifo : list Z) (pos : nat) : list Z :=
  match fifo with
  | [] => []
  | octet :: fifo' =>
      if (pos <? 8)%nat
      then Z.lxor octet (Z.shiftl 1 (Z.of_nat pos)) :: fifo'
      else octet :: flip_bit fifo' (pos - 8)
  end.

(** Where bit [k] of the 16-bit checksum of a reply with [n] data bytes
    lies in the FIFO. *)
Definition crc_bit_pos (n k : nat) : nat := 9 * (n + k / 8) + k mod 8.

(** Where the parity bit of byte [j] of a reply lies in the FIFO. *)
Definition parity_bit_pos (j : nat) : nat := 9 * j + 8.

(** Consecutive runs of nine bits; a partial last run is dropped. *)
Fixpoint runs9 (fuel : nat) (bits : list bool) : list (list bool) :=
  match fuel with
  | O => []
  | S fuel' =>
      if (9 <=? length bits)%nat
      then firstn 9 bits :: runs9 fuel' (skipn 9 bits)
      else []
  end.

(** A binary number, most significant digit first. *)
Definition value_msb (bits : list bool) : Z :=
  fold_left (fun acc b => 2 * acc + Z.b2z b) bits 0.

(** Lines 323-324 step by step: each octet is written as its eight binary
    digits in reversed order, lowest bit first (line 323 reverses the
    digits of every octet), the digits are concatenated and regrouped into
    runs of nine, each run is reversed and the low eight bits of the
    reversed run, read as a binary number, are one byte. *)
Definition regroup_unpack (fifo : list Z) : list Z :=
  let bits := flat_map bits_lsb fifo in
  map (fun run => Z.land (value_msb (rev run)) 255) (runs9 (length bits) bits).

(** The eight binary digits of an octet in natural order, highest bit
    first. *)
Definition bits_msb (octet : Z) : list bool := rev (bits_lsb octet).

(** Modelled from the spec: the reconstruction as the description words
    it, with each octet expanded to its 8-bit binary string in natural
    order; the other steps are those of [regroup_unpack]. *)
Definition natural_unpack (fifo : list Z) : list Z :=
  let bits := flat_map bits_msb fifo in
  map (fun run => Z.land (value_msb (rev run)) 255) (runs9 (length bits) bits).

(** An octet with its eight bits in reversed order. *)
Definition reverse_bits (octet : Z) : Z := value_msb (bits_lsb octet).

(** The bit-reversed packing: the received bits fill each octet of the
    FIFO from its most significant bit. *)
Definition fifo_pack_reversed (frame : list (Z * bool)) : list Z :=
  map reverse_bits (fifo_pack frame).

(** The reconstruction on bits: for every full run of nine bits the
    value of its first eight, the first bit being the lowest. *)
Definition unpack_bits (bits : list bool) : list Z :=
  map (fun k => value_lsb (slice bits (9 * k) (9 * k + 8)))
      (seq 0 (length bits / 9)).

(** One bit of a list inverted. *)
Fixpoint flip_nth (pos : nat) (bits : list bool) {struct bits} : list bool :=
  match bits with
  | [] => []
  | b :: bits' =>
      match pos with
      | O => negb b :: bits'
      | S pos' => b :: flip_nth pos' bits'
      end
  end.

(** ** A base layer and chips to run the driver on *)

(** The CRC_B of ISO/IEC 14443-3, as one possible 16-bit checksum. *)
Definition crc_b_iso (data : list Z) : Z :=
  let step reg octet :=
    fold_left
      (fun reg pos =>
         let bit := Z.land (Z.lxor reg (Z.shiftr octet pos)) 1 in
         let reg := Z.shiftr reg 1 in
         if bit =? 1 then Z.lxor reg 0x8408 else reg)
      [0; 1; 2; 3; 4; 5; 6; 7] reg in
  Z.land (Z.lnot (fold_left step data 0xFFFF)) 0xFFFF.

Definition iso_base : Pn53x :=
  {| target := unit;
     crc_16 := crc_b_iso;
     ACK := [0x00; 0x00; 0xFF; 0x00; 0xFF; 0x00];
     str_self := "PN532";
     _listen_dep := fun _ _ => ret None |}.

(** A chip that accepts every command and whose FIFO holds [fifo] after
    each transmission. *)
Definition fifo_chip (fifo : list Z) : list event -> result (list Z) :=
  fun history =>
    match last history (Sleep 0) with
    | ReadRegister [reg] =>
        if String.eqb reg "CIU_FIFOLevel" then Ok [len fifo] else Ok fifo
    | ReadRegister _ => Ok fifo
    | Command _ _ _ => Ok [0]
    | _ => Ok []
    end.

(** A chip that answers every command with [reply]. *)
Definition reply_chip (reply : list Z) : list event -> result (list Z) :=
  fun _ => Ok reply.

(** ** The course of one transmission through the registers *)

(** The pauses after the two write commands, lines 315-318. *)
Definition tt1_sleeps (cmd_code : Z) : list event :=
  (if cmd_code =? 0x54 then [Sleep 6000] else []) ++
  (if cmd_code =? 0x1B then [Sleep 3000] else []).

(** The history when the chip has been given the command: the register
    writes that transmit it, the pause, the write that enables parity. *)
Definition tt1_sent `{Pn53x} (w : world) (data : list Z) : list event :=
  trace w ++
  [WriteRegister (Device.tt1_register_write (add_crc_b data) (hd 0 data))] ++
  tt1_sleeps (hd 0 data) ++
  [WriteRegister [("CIU_ManualRCV", 0x20)]%string].

(** What the method has in [data] after line 322, when the chip reports
    [level] octets and answers the read of the FIFO with [reply]: the
    integer of a one-register read is not a sequence. *)
Definition fifo_sequence (level : Z) (reply : list Z) : result (list Z) :=
  if level =? 1 then v <~ getitem reply 0 ;; iter (Int v)
  else iter (Seq reply).

(** The chip of [w] goes through one transmission of [data]: it accepts
    the register writes, reports [level] octets in its FIFO and, asked for
    them, returns [fifo]. *)
Definition delivers `{Pn53x} (w : world) (data : list Z) (level : Z)
           (fifo : list Z) : Prop :=
  is_ok (chip w (trace w ++
                 [WriteRegister (Device.tt1_register_write (add_crc_b data)
                                                           (hd 0 data))]))
  = true
  /\ is_ok (chip w (tt1_sent w data)) = true
  /\ (exists more,
         chip w (tt1_sent w data ++ [ReadRegister ["CIU_FIFOLevel"%string]])
         = Ok (level :: more))
  /\ chip w (tt1_sent w data ++
             [ReadRegister ["CIU_FIFOLevel"%string];
              ReadRegister (repeat "CIU_FIFOData"%string (Z.to_nat level))])
     = Ok fifo.

(** What the chip was asked to do in a trace: the bytes that a register
    write puts into the FIFO, and the frames so transmitted. *)
Definition fifo_written (regs : list (string * Z)) : list Z :=
  map snd (filter (fun '(reg, _) => String.eqb reg "CIU_FIFOData") regs).

Definition transmitted (t : list event) : list (list Z) :=
  flat_map (fun e => match e with
                     | WriteRegister regs =>
                         match fifo_written regs with
                         | [] => []
                         | frame => [frame]
                         end
                     | _ => []
                     end) t.

(** The calls that go to the registers of the CIU, as opposed to the
    commands that the firmware carries out. *)
Definition register_access (e : event) : bool :=
  match e with
  | WriteRegister _ | ReadRegister _ | Sleep _ => true
  | Command _ _ _ | WriteFrame _ | InDataExchange _ _ => false
  end.

(** The receive commands among register writes. *)
Definition receive_commands (regs : list (string * Z)) : nat :=
  length (filter (fun '(reg, v) => String.eqb reg "CIU_Command" && (v =? 0x08))
                 regs).

(** The blocks of a segment read one after the other through the registers,
    with the reply of each. *)
Fixpoint read_blocks `{Pn53x} (blocks : list Z) (tail : list Z)
  : M (list (list Z)) :=
  match blocks with
  | [] => ret []
  | block :: blocks' =>
      r <- Device.tt1_bitbang (0x02 :: block :: tail) ;;
      rs <- read_blocks blocks' tail ;;
      ret (r :: rs)
  end.

(** ** What a call adds to the trace *)

(** The events of [w'] that [w] did not have yet. *)
Definition new_events (w w' : world) : list event :=
  skipn (length (trace w)) (trace w').

(** The opcodes of the commands in a trace. *)
Definition opcodes (t : list event) : list Z :=
  flat_map (fun e => match e with
                     | Command cmd_code _ _ => [cmd_code]
                     | _ => []
                     end) t.

(** The calls of a trace that the chip answers: all but the pauses. *)
Definition requests (t : list event) : list event :=
  filter (fun e => match e with Sleep _ => false | _ => true end) t.

(** The number of bits set in a byte. *)
Definition popcount (z : Z) : nat :=
  length (filter (fun i => Z.testbit z (Z.of_nat i)) (seq 0 8)).

(** The seven wakeup sources that the chip documents. *)
Definition documented_wakeup_src : list string :=
  ["INT0"; "INT1"; "RF"; "HSU"; "SPI"; "GPIO"; "I2C"]%string.

(** * Properties *)

(** ** Python sequences *)

Section PyFacts.

Lemma index_nth_error (x : Z) (t : list Z) (i : nat) :
  index x t = Some i -> nth_error t i = Some x.
Proof.
  revert i. induction t as [|y t IH]; intros i; simpl; [discriminate|].
  destruct (Z.eqb_spec y x) as [->|Hne].
  - intros [= <-]. reflexivity.
  - destruct (index x t) as [j|]; [|discriminate].
    intros [= <-]. simpl. now apply IH.
Qed.

Lemma index_none (x : Z) (t : list Z) :
  index x t = None -> ~ In x t.
Proof.
  induction t as [|y t IH]; simpl; [tauto|].
  destruct (Z.eqb_spec y x) as [->|Hne]; [discriminate|].
  destruct (index x t); [discriminate|].
  intros _ [E|E]; [congruence | now apply IH].
Qed.

Lemma contains_In (t : list string) (x : string) :
  contains t x = true <-> In x t.
Proof.
  unfold contains. rewrite existsb_exists. split.
  - intros (y & Hy & E). apply String.eqb_eq in E. now subst.
  - intros Hx. exists x. split; [assumption | apply String.eqb_refl].
Qed.

Lemma contains_ext (a b : list string) (x : string) :
  (forall s, In s a <-> In s b) -> contains a x = contains b x.
Proof.
  intros E. destruct (contains a x) eqn:Ha, (contains b x) eqn:Hb;
    try reflexivity.
  - apply contains_In, E, contains_In in Ha. congruence.
  - apply contains_In, E, contains_In in Hb. congruence.
Qed.

Lemma chr_byte (i : Z) : is_byte i -> chr i = Ok [i].
Proof.
  unfold is_byte, chr. intros [Hl Hu].
  apply Z.leb_le in Hl. apply Z.ltb_lt in Hu. now rewrite Hl, Hu.
Qed.

End PyFacts.

(** ** Chipset.set_serial_baudrate *)

Section SerialBaudrate.
Context `{Pn53x}.
Import Chipset.

(** C6: the rate's 0-based position in the table of nine rates is the one
    payload byte of command 0x10 (921600 gives 7); a rate that is not in
    the table raises [ValueError] and the chip has seen nothing. *)
Theorem set_serial_baudrate_index (baudrate : Z) (w : world) :
  br = [9600; 19200; 38400; 57600; 115200; 230400; 460800; 921600; 1288000]
  /\ index 921600 br = Some 7%nat
  /\ match index baudrate br with
     | Some i =>
         nth_error br i = Some baudrate /\
         exists rest,
           trace (snd (set_serial_baudrate baudrate w)) =
           trace w ++ Command 0x10 [Z.of_nat i] (Some 100) :: rest
     | None =>
         ~ In baudrate br /\
         set_serial_baudrate baudrate w = (Raise ValueError, w)
     end.
Proof.
  split; [reflexivity|]. split; [reflexivity|].
  unfold set_serial_baudrate.
  destruct (index baudrate br) as [i|] eqn:E.
  - pose proof (index_nth_error _ _ _ E) as Hn. split; [exact Hn|].
    assert (Hi : (i < 9)%nat).
    { change 9%nat with (length br). apply nth_error_Some. congruence. }
    rewrite chr_byte by (unfold is_byte; lia).
    unfold bind, lift, command, write_frame, request, ret; simpl.
    destruct (chip w _) as [reply|e]; simpl.
    + unfold bind; simpl.
      destruct (chip w _); simpl; rewrite <- app_assoc; simpl; eauto.
    + exists []. reflexivity.
  - split; [now apply index_none | reflexivity].
Qed.

End SerialBaudrate.

(** ** Chipset.power_down *)

Section PowerDown.
Import Chipset.

Lemma testbit_set (acc : Z) (i j : nat) :
  Z.testbit (Z.lor acc (Z.shiftl 1 (Z.of_nat i))) (Z.of_nat j) =
  Z.testbit acc (Z.of_nat j) || (i =? j)%nat.
Proof.
  rewrite Z.lor_spec, Z.shiftl_1_l, Z.pow2_bits_eqb by lia.
  f_equal. destruct (Nat.eqb_spec i j), (Z.eqb_spec (Z.of_nat i) (Z.of_nat j));
    try reflexivity; lia.
Qed.

(** The loop over [enumerate], started at position [k] with [acc]. *)
Lemma wakeup_loop_testbit (we srcs : list string) (k : nat) (acc : Z) (j : nat) :
  Z.testbit
    (fold_left
       (fun wakeup_set '(i, src) =>
          if contains we src
          then Z.lor wakeup_set (Z.shiftl 1 (Z.of_nat i))
          else wakeup_set)
       (combine (seq k (length srcs)) srcs) acc) (Z.of_nat j) =
  Z.testbit acc (Z.of_nat j) ||
  ((k <=? j)%nat &&
   match nth_error srcs (j - k) with
   | Some src => contains we src
   | None => false
   end).
Proof.
  revert k acc. induction srcs as [|src srcs IH]; intros k acc; simpl.
  - destruct (j - k)%nat; simpl; now rewrite andb_false_r, orb_false_r.
  - rewrite IH.
    destruct (Nat.leb_spec (S k) j) as [Hlt|Hge]; simpl.
    + replace (j - k)%nat with (S (j - S k)) by lia. simpl.
      destruct (Nat.leb_spec k j); [|lia]. simpl.
      destruct (contains we src); [|reflexivity].
      rewrite testbit_set. destruct (Nat.eqb_spec k j); [lia|].
      now rewrite orb_false_r.
    + rewrite orb_false_r.
      destruct (Nat.leb_spec k j) as [Hle|Hgt]; simpl.
      * assert (j = k) by lia. subst j. rewrite Nat.sub_diag. simpl.
        destruct (contains we src); [|now rewrite orb_false_r].
        now rewrite testbit_set, Nat.eqb_refl.
      * destruct (contains we src); [|now rewrite orb_false_r].
        rewrite testbit_set. destruct (Nat.eqb_spec k j); [lia|].
        reflexivity.
Qed.

(** Bit [j] of the mask is set exactly when the name at position [j] of
    the static list is among the enabled sources. *)
Lemma wakeup_set_testbit (we : list string) (j : nat) :
  Z.testbit (wakeup_set we) (Z.of_nat j) =
  match nth_error power_down_wakeup_src j with
  | Some src => contains we src
  | None => false
  end.
Proof.
  unfold wakeup_set, enumerate. rewrite wakeup_loop_testbit.
  rewrite Z.testbit_0_l, Nat.sub_0_r. reflexivity.
Qed.

Lemma wakeup_set_range (we : list string) : 0 <= wakeup_set we < 256.
Proof.
  assert (Hnn : 0 <= wakeup_set we).
  { apply Z.bits_iff_nonneg_ex. exists 8. intros m Hm.
    rewrite <- (Z2Nat.id m) by lia. rewrite wakeup_set_testbit.
    destruct (nth_error power_down_wakeup_src (Z.to_nat m)) eqn:E;
      [|reflexivity].
    assert (Z.to_nat m < length power_down_wakeup_src)%nat
      by (apply nth_error_Some; congruence).
    simpl in *. lia. }
  split; [assumption|].
  destruct (Z.eq_dec (wakeup_set we) 0) as [->|Hnz]; [lia|].
  change 256 with (2 ^ 8). apply Z.log2_lt_pow2; [lia|].
  destruct (Z.lt_ge_cases (Z.log2 (wakeup_set we)) 8) as [|Hge];
    [assumption|exfalso].
  pose proof (Z.bit_log2 (wakeup_set we) ltac:(lia)) as Hb.
  rewrite <- (Z2Nat.id (Z.log2 (wakeup_set we))) in Hb by lia.
  rewrite wakeup_set_testbit in Hb.
  destruct (nth_error power_down_wakeup_src _) eqn:E; [|discriminate].
  assert (Z.to_nat (Z.log2 (wakeup_set we)) < length power_down_wakeup_src)%nat
    by (apply nth_error_Some; congruence).
  simpl in *. lia.
Qed.

Lemma wakeup_set_ext (a b : list string) :
  (forall s, In s a <-> In s b) -> wakeup_set a = wakeup_set b.
Proof.
  intros E. apply Z.bits_inj'. intros n Hn.
  rewrite <- (Z2Nat.id n) by lia. rewrite !wakeup_set_testbit.
  destruct (nth_error power_down_wakeup_src (Z.to_nat n));
    [now apply contains_ext | reflexivity].
Qed.

Lemma popcount_wakeup_set (we : list string) :
  popcount (wakeup_set we) =
  length (filter (contains we) power_down_wakeup_src).
Proof.
  unfold popcount. cbn [seq filter].
  rewrite !wakeup_set_testbit.
  cbn [nth_error power_down_wakeup_src filter].
  repeat match goal with
         | |- context [contains we ?s] => destruct (contains we s)
         end; reflexivity.
Qed.

(** What [power_down] sends: command 0x16 with the mask and the flag. *)
Lemma power_down_sends (we : list string) (generate_irq : bool) (w : world) :
  exists rest,
    trace (snd (power_down we generate_irq w)) =
    trace w ++ Command 0x16 [wakeup_set we; Z.b2z generate_irq] (Some 100)
            :: rest.
Proof.
  unfold power_down, bytearray. cbn [forallb].
  pose proof (wakeup_set_range we) as [Hl Hu].
  apply Z.leb_le in Hl. apply Z.ltb_lt in Hu. rewrite Hl, Hu.
  replace ((0 <=? Z.b2z generate_irq) && (Z.b2z generate_irq <? 256))
    with true by now destruct generate_irq.
  unfold bind, lift, command, request, getitem, chipset_error, raise, ret;
    simpl.
  destruct (chip w _) as [[|status data]|e]; simpl;
    try (exists []; reflexivity).
  destruct (negb (status =? 0)); exists []; reflexivity.
Qed.

Lemma NoDup_power_down_wakeup_src : NoDup power_down_wakeup_src.
Proof.
  unfold power_down_wakeup_src.
  repeat (constructor; [simpl; intuition discriminate|]). constructor.
Qed.

(** C8: for a subset of the eight names, presented as a list without
    repetition, bit [j] of the mask that [power_down] sends is set exactly
    when the name at position [j] of the static list is a member, the
    bits set are as many as the members, and the mask is the same however
    the members are ordered. *)
Theorem power_down_wakeup_mask
        (wakeup_enable : list string) (generate_irq : bool) (w : world) :
  NoDup wakeup_enable ->
  incl wakeup_enable power_down_wakeup_src ->
  (exists rest,
      trace (snd (power_down wakeup_enable generate_irq w)) =
      trace w ++ Command 0x16 [wakeup_set wakeup_enable; Z.b2z generate_irq]
                         (Some 100) :: rest)
  /\ (forall j : nat,
         Z.testbit (wakeup_set wakeup_enable) (Z.of_nat j) =
         match nth_error power_down_wakeup_src j with
         | Some src => contains wakeup_enable src
         | None => false
         end)
  /\ popcount (wakeup_set wakeup_enable) = length wakeup_enable
  /\ (forall presented,
         Permutation wakeup_enable presented ->
         wakeup_set presented = wakeup_set wakeup_enable).
Proof.
  intros Hnd Hincl. split; [apply power_down_sends|].
  split; [intros j; apply wakeup_set_testbit|]. split.
  - rewrite popcount_wakeup_set. apply Permutation_length.
    apply NoDup_Permutation;
      [apply NoDup_filter, NoDup_power_down_wakeup_src | assumption |].
    intros s. rewrite filter_In, contains_In. split; [tauto|].
    intros Hs. split; [now apply Hincl | assumption].
  - intros presented Hp. apply wakeup_set_ext. intros s. split.
    + apply Permutation_in. now symmetry.
    + now apply Permutation_in.
Qed.

(** C10: bit 2 of the mask that [power_down] sends is set exactly when
    the name "rfu" is among the enabled sources, so it is clear for every
    collection of the seven documented names. *)
Theorem power_down_rfu_bit
        (wakeup_enable : list string) (generate_irq : bool) (w : world) :
  Forall (fun src => In src documented_wakeup_src) wakeup_enable ->
  (exists rest,
      trace (snd (power_down wakeup_enable generate_irq w)) =
      trace w ++ Command 0x16 [wakeup_set wakeup_enable; Z.b2z generate_irq]
                         (Some 100) :: rest)
  /\ nth_error power_down_wakeup_src 2 = Some "rfu"%string
  /\ Z.testbit (wakeup_set wakeup_enable) 2 = contains wakeup_enable "rfu"
  /\ Z.testbit (wakeup_set wakeup_enable) 2 = false.
Proof.
  intros Hdoc. split; [apply power_down_sends|]. split; [reflexivity|].
  assert (E : Z.testbit (wakeup_set wakeup_enable) 2 =
              contains wakeup_enable "rfu").
  { change 2 with (Z.of_nat 2). now rewrite wakeup_set_testbit. }
  split; [exact E|]. rewrite E.
  destruct (contains wakeup_enable "rfu") eqn:C; [|reflexivity].
  apply contains_In in C. rewrite Forall_forall in Hdoc.
  apply Hdoc in C. simpl in C. intuition discriminate.
Qed.

(** Bit 2 is set as soon as the name "rfu" is enabled. *)
Lemma power_down_rfu_enabled (we : list string) :
  In "rfu"%string we -> Z.testbit (wakeup_set we) 2 = true.
Proof.
  intros Hin. change 2 with (Z.of_nat 2). rewrite wakeup_set_testbit.
  simpl. now apply contains_In.
Qed.

End PowerDown.

(** The sources that [Device.close] leaves enabled. *)
Lemma power_down_wakeup_mask_witness :
  popcount (Chipset.wakeup_set ["I2C"; "SPI"; "HSU"]%string) = 3%nat
  /\ Chipset.wakeup_set ["HSU"; "I2C"; "SPI"]%string =
     Chipset.wakeup_set ["I2C"; "SPI"; "HSU"]%string.
Proof.
  assert (Hnd : NoDup ["I2C"; "SPI"; "HSU"]%string).
  { repeat (constructor; [simpl; intuition discriminate|]). constructor. }
  assert (Hincl : incl ["I2C"; "SPI"; "HSU"]%string
                       Chipset.power_down_wakeup_src).
  { intros s Hs. simpl in *. intuition. }
  destruct (power_down_wakeup_mask ["I2C"; "SPI"; "HSU"]%string false
              (World [] (reply_chip [0])) Hnd Hincl) as (_ & _ & Hc & Hp).
  split; [exact Hc|]. apply Hp.
  apply Permutation_sym, (Permutation_cons_append ["I2C"; "SPI"]%string "HSU"%string).
Defined.

(** The same sources and the reserved bit. *)
Lemma power_down_rfu_bit_witness :
  Z.testbit (Chipset.wakeup_set ["I2C"; "SPI"; "HSU"]%string) 2 = false.
Proof.
  apply (power_down_rfu_bit ["I2C"; "SPI"; "HSU"]%string false
           (World [] (reply_chip [0]))).
  repeat constructor; simpl; tauto.
Defined.

(** ** Chipset.tg_init_as_target *)

Section TgInitAsTarget.
Import Chipset.

(** C7: a mode with a bit of 0b11111000 set, a first block that is not 6
    bytes long, a second block that is not 18 bytes long or an identifier
    that is not 10 bytes long fails the assertions: the call raises
    [AssertionError] and the chip has seen nothing. *)
Theorem tg_init_as_target_rejects
        (mode : Z) (mifare_params felica_params nfcid3t : list Z)
        (general_bytes historical_bytes : list Z) (timeout : option Z)
        (w : world) :
  Z.land mode 0xF8 <> 0 \/ length mifare_params <> 6%nat \/
  length felica_params <> 18%nat \/ length nfcid3t <> 10%nat ->
  tg_init_as_target mode mifare_params felica_params nfcid3t
                    general_bytes historical_bytes timeout w =
  (Raise AssertionError, w).
Proof.
  intros Hbad. unfold tg_init_as_target, len.
  destruct (Z.eqb_spec (Z.land mode 0xF8) 0) as [Hm|Hm]; [|reflexivity].
  destruct (Z.eqb_spec (Z.of_nat (length mifare_params)) 6) as [Ha|Ha];
    [|reflexivity].
  destruct (Z.eqb_spec (Z.of_nat (length felica_params)) 18) as [Hf|Hf];
    [|reflexivity].
  destruct (Z.eqb_spec (Z.of_nat (length nfcid3t)) 10) as [Hn|Hn];
    [|reflexivity].
  exfalso. lia.
Qed.

(** Blocks of the right lengths and a mode within three bits are sent:
    the checks reject nothing else. *)
Lemma tg_init_as_target_sends
      (mode : Z) (mifare_params felica_params nfcid3t : list Z)
      (timeout : option Z) (w : world) :
  0 <= mode < 8 -> length mifare_params = 6%nat ->
  length felica_params = 18%nat -> length nfcid3t = 10%nat ->
  trace (snd (tg_init_as_target mode mifare_params felica_params nfcid3t
                                [] [] timeout w)) =
  trace w ++ [Command 0x8c (mode :: mifare_params ++ felica_params ++
                            nfcid3t ++ [0; 0]) timeout].
Proof.
  intros Hm Ha Hf Hn. unfold tg_init_as_target, len.
  rewrite Ha, Hf, Hn. simpl negb.
  replace (Z.land mode 0xF8) with 0.
  - simpl. rewrite chr_byte by (unfold is_byte; lia).
    unfold bind, lift, command, request; simpl.
    reflexivity.
  - assert (mode = 0 \/ mode = 1 \/ mode = 2 \/ mode = 3 \/ mode = 4 \/
            mode = 5 \/ mode = 6 \/ mode = 7) as Hcases by lia.
    intuition (subst; reflexivity).
Qed.

End TgInitAsTarget.

(** Blocks one byte short or long, a mode with bit 3 set, a short
    identifier. *)
Lemma tg_init_as_target_rejects_witness :
  Chipset.tg_init_as_target 1 [1; 2; 3; 4; 5] (repeat 0 18) (repeat 0 10)
                            [] [] None (World [] (reply_chip [0])) =
  (Raise AssertionError, World [] (reply_chip [0]))
  /\ Chipset.tg_init_as_target 1 (repeat 0 7) (repeat 0 18) (repeat 0 10)
                               [] [] None (World [] (reply_chip [0])) =
     (Raise AssertionError, World [] (reply_chip [0]))
  /\ Chipset.tg_init_as_target 1 (repeat 0 6) (repeat 0 17) (repeat 0 10)
                               [] [] None (World [] (reply_chip [0])) =
     (Raise AssertionError, World [] (reply_chip [0]))
  /\ Chipset.tg_init_as_target 1 (repeat 0 6) (repeat 0 19) (repeat 0 10)
                               [] [] None (World [] (reply_chip [0])) =
     (Raise AssertionError, World [] (reply_chip [0]))
  /\ Chipset.tg_init_as_target 8 (repeat 0 6) (repeat 0 18) (repeat 0 10)
                               [] [] None (World [] (reply_chip [0])) =
     (Raise AssertionError, World [] (reply_chip [0]))
  /\ Chipset.tg_init_as_target 1 (repeat 0 6) (repeat 0 18) (repeat 0 9)
                               [] [] None (World [] (reply_chip [0])) =
     (Raise AssertionError, World [] (reply_chip [0])).
Proof.
  split; [apply tg_init_as_target_rejects; right; left; simpl; lia|].
  split; [apply tg_init_as_target_rejects; right; left; simpl; lia|].
  split; [apply tg_init_as_target_rejects; right; right; left; simpl; lia|].
  split; [apply tg_init_as_target_rejects; right; right; left; simpl; lia|].
  split; [apply tg_init_as_target_rejects; left; simpl; lia|].
  apply tg_init_as_target_rejects; right; right; right; simpl; lia.
Defined.

(** ** Device.listen_tta, listen_ttb, listen_ttf, listen_dep *)

Section Listen.
Context `{Pn53x}.
Import Device.

(** C9: listening as a Type A, Type B or Type F target raises
    [NotImplementedError] at once and the chip has seen nothing; listening
    as a DEP target is the base layer's listen routine run with the
    caller's target and timeout. *)
Theorem listen_passive_unsupported (tg : target) (timeout : Z) (w : world) :
  (exists info, listen_tta tg timeout w = (Raise (NotImplementedError info), w))
  /\ (exists info, listen_ttb tg timeout w = (Raise (NotImplementedError info), w))
  /\ (exists info, listen_ttf tg timeout w = (Raise (NotImplementedError info), w))
  /\ listen_dep tg timeout w = _listen_dep tg timeout w.
Proof.
  unfold listen_tta, listen_ttb, listen_ttf, listen_dep, raise.
  repeat split; eexists; reflexivity.
Qed.

End Listen.

(** ** Chipset.in_auto_poll *)

Section InAutoPoll.
Import Chipset.

(** Whatever the reply, the decoding stops at the [for] statement. *)
Lemma in_auto_poll_decode_raises (data : list Z) :
  in_auto_poll_decode data =
  match data with [] => Raise IndexError | _ :: _ => Raise TypeError end.
Proof. destruct data; reflexivity. Qed.

(** One pass of the loop body leaves the data of the entry in the buffer
    and takes fewer bytes than declared when the buffer is short. *)
Lemma in_auto_poll_entry_keeps (tg_type n : Z) (data : list Z) :
  in_auto_poll_entry (tg_type :: n :: data) =
  Ok ((tg_type, firstn (Z.to_nat n) data), data).
Proof. reflexivity. Qed.

(** C4, as the code behaves: [in_auto_poll] returns no list of targets for
    any arguments and any chip; a reply with one well-formed entry raises
    [TypeError], because the loop iterates over the entry count itself. *)
Theorem in_auto_poll_never_returns :
  (forall poll_nr period types w,
      is_ok (fst (in_auto_poll poll_nr period types w)) = false)
  /\ (forall n data, in_auto_poll_decode (n :: data) = Raise TypeError)
  /\ fst (in_auto_poll 1 1 [0x10]
            (World [] (reply_chip [1; 0x10; 2; 0xAA; 0xBB]))) =
     Raise TypeError.
Proof.
  split; [|split; reflexivity].
  intros poll_nr period types w. unfold in_auto_poll.
  destruct (negb (len types <=? 15)); [reflexivity|].
  unfold bind, lift. 
  destruct (chr poll_nr); [|reflexivity].
  destruct (chr period); [|reflexivity].
  destruct (bytearray types); [|reflexivity].
  unfold command, request; simpl.
  destruct (chip w _) as [reply|e]; [|reflexivity].
  simpl. rewrite in_auto_poll_decode_raises. now destruct reply.
Qed.

End InAutoPoll.

(** ** Device._tt1_send_cmd_recv_rsp: the register writes *)

Section RegisterWrites.
Import Device.

Lemma range_step1 (a b : Z) :
  range a b 1 = map (fun k => a + Z.of_nat k) (seq 0 (Z.to_nat (b - a))).
Proof.
  unfold range. replace (b - a + 1 - 1) with (b - a) by lia.
  rewrite Z.div_1_r. apply map_ext. intros k. lia.
Qed.

Lemma fold_left_append {A B} (g : B -> list A) (l : list B) (init : list A) :
  fold_left (fun acc i => acc ++ g i) l init = init ++ flat_map g l.
Proof.
  revert init. induction l as [|i l IH]; intros init; simpl.
  - now rewrite app_nil_r.
  - now rewrite IH, app_assoc.
Qed.

Lemma flat_map_indices {A} (g : Z -> list A) (l : list Z) (k : nat) (pre : list Z) :
  length pre = k ->
  flat_map (fun i => g (nth i (pre ++ l) 0)) (seq k (length l)) =
  flat_map g l.
Proof.
  revert k pre. induction l as [|x l IH]; intros k pre Hk; simpl;
    [reflexivity|].
  rewrite app_nth2 by lia. rewrite Hk, Nat.sub_diag. simpl. f_equal.
  replace (pre ++ x :: l) with ((pre ++ [x]) ++ l)
    by now rewrite <- app_assoc.
  apply IH. rewrite length_app. simpl. lia.
Qed.

(** The register writes of a frame, byte by byte. *)
Lemma tt1_register_write_bytes (cmd_code : Z) (rest : list Z) :
  tt1_register_write (cmd_code :: rest) cmd_code =
  [("CIU_FIFOData", cmd_code); ("CIU_BitFraming", 0x07);
   ("CIU_Command", 0x04); ("CIU_BitFraming", 0x00);
   ("CIU_ManualRCV", 0x30)]%string ++
  flat_map (fun octet => [("CIU_FIFOData", octet); ("CIU_Command", 0x04);
                          ("CIU_Command", 0x07)]%string) rest ++
  [("CIU_Command", 0x08)]%string.
Proof.
  unfold tt1_register_write. rewrite range_step1, fold_left_append.
  rewrite <- app_assoc. f_equal. f_equal.
  unfold len. cbn [length].
  replace (Z.to_nat (Z.of_nat (S (length rest)) - 1)) with (length rest)
    by lia.
  rewrite flat_map_concat_map, map_map, <- flat_map_concat_map.
  rewrite <- (flat_map_indices _ rest 1 [cmd_code] eq_refl).
  rewrite <- seq_shift. generalize (seq 0 (length rest)). intros ks.
  induction ks as [|k ks IH]; [reflexivity|].
  cbn [flat_map map]. rewrite IH.
  replace (Z.to_nat (1 + Z.of_nat k)) with (S k) by lia. reflexivity.
Qed.

Lemma fifo_written_register_write (cmd_code : Z) (rest : list Z) :
  fifo_written (tt1_register_write (cmd_code :: rest) cmd_code) =
  cmd_code :: rest.
Proof.
  rewrite tt1_register_write_bytes. unfold fifo_written.
  cbn [app filter String.eqb Ascii.eqb Bool.eqb map snd]. simpl. f_equal.
  induction rest as [|x rest IH]; simpl; [reflexivity|]. now rewrite IH.
Qed.

Lemma receive_commands_register_write (cmd_code : Z) (rest : list Z) :
  receive_commands (tt1_register_write (cmd_code :: rest) cmd_code) = 1%nat.
Proof.
  rewrite tt1_register_write_bytes. unfold receive_commands. simpl.
  induction rest as [|x rest IH]; simpl; [reflexivity|]. exact IH.
Qed.

End RegisterWrites.

(** ** Device._tt1_send_cmd_recv_rsp: one transmission *)

Section Bitbang.
Context `{Pn53x}.
Import Device.

(** A command that the firmware does not know and that is no segment read
    is sent through the registers. *)
Lemma tt1_dispatch_bypass (cmd_code : Z) (args : list Z) (timeout : Z)
      (w : world) :
  ~ In cmd_code [0x00; 0x01; 0x1A; 0x53; 0x72; 0x10] ->
  _tt1_send_cmd_recv_rsp (cmd_code :: args) timeout w =
  tt1_bitbang (cmd_code :: args) w.
Proof.
  intros Hc. unfold _tt1_send_cmd_recv_rsp. cbn [tt1_calls].
  unfold tt1_body at 1. unfold bind at 1. cbn [lift getitem nth_error].
  cbn [existsb].
  repeat match goal with
         | |- context [?a =? ?b] =>
             destruct (Z.eqb_spec a b);
             [exfalso; apply Hc; simpl; intuition congruence|]
         end.
  reflexivity.
Qed.

(** One transmission, step by step: what the chip answers decides where
    it stops. *)
Lemma tt1_bitbang_cases (cmd_code : Z) (args : list Z) (w : world) :
  let data := cmd_code :: args in
  let t1 := trace w ++
            [WriteRegister (tt1_register_write (add_crc_b data) cmd_code)] in
  let t2 := tt1_sent w data in
  let t3 := t2 ++ [ReadRegister ["CIU_FIFOLevel"%string]] in
  tt1_bitbang data w =
  match chip w t1 with
  | Raise e => (Raise e, World t1 (chip w))
  | Ok _ =>
      match chip w t2 with
      | Raise e => (Raise e, World t2 (chip w))
      | Ok _ =>
          match chip w t3 with
          | Raise e => (Raise e, World t3 (chip w))
          | Ok [] => (Raise IndexError, World t3 (chip w))
          | Ok (level :: _) =>
              if level =? 0 then (Raise TimeoutError, World t3 (chip w))
              else
                let t4 := t3 ++ [ReadRegister (repeat "CIU_FIFOData"%string
                                                      (Z.to_nat level))] in
                match chip w t4 with
                | Raise e => (Raise e, World t4 (chip w))
                | Ok fifo =>
                    (octets <~ fifo_sequence level fifo ;;
                     d <~ tt1_unpack octets ;;
                     if negb (check_crc_b d)
                     then Raise (TransmissionError "crc_b check error")
                     else Ok (drop_last2 d),
                     World t4 (chip w))
                end
          end
      end
  end.
Proof.
  intros data t1 t2 t3. unfold tt1_bitbang.
  change (add_crc_b (cmd_code :: args)) with (add_crc_b data).
  change (getitem (add_crc_b data) 0) with (@Ok Z cmd_code).
  unfold bind at 1. cbn [lift].
  unfold bind at 1. unfold write_register at 1. unfold bind at 1.
  unfold request at 1. cbn [fst snd trace chip]. fold t1.
  destruct (chip w t1) as [r1|e1]; cbn [ret]; [|reflexivity].
  assert (Ht2 : t2 = t1 ++ tt1_sleeps cmd_code ++
                     [WriteRegister [("CIU_ManualRCV", 0x20)]%string]).
  { unfold t2, tt1_sent, t1. now rewrite <- app_assoc. }
  set (k := bind (write_register [("CIU_ManualRCV", 0x20)]%string) _).
  assert (Hk : forall t,
             ((if cmd_code =? 0x54 then sleep 6000 else ret tt) ;;;
              (if cmd_code =? 0x1B then sleep 3000 else ret tt) ;;; k)
               (World t (chip w)) =
             k (World (t ++ tt1_sleeps cmd_code) (chip w))).
  { intros t. unfold tt1_sleeps, bind, sleep, ret.
    destruct (cmd_code =? 0x54), (cmd_code =? 0x1B); cbn [trace chip app];
      rewrite <- ?app_assoc, ?app_nil_r; reflexivity. }
  rewrite Hk. unfold k. clear Hk k.
  unfold bind at 1. unfold write_register at 1. unfold bind at 1.
  unfold request at 1. cbn [fst snd trace chip].
  rewrite <- app_assoc, <- Ht2.
  destruct (chip w t2) as [r2|e2]; cbn [ret]; [|reflexivity].
  unfold bind at 1. unfold read_register at 1. unfold bind at 1.
  unfold request at 1. cbn [fst snd trace chip]. fold t3.
  destruct (chip w t3) as [[|level more]|e3]; cbn [lift getitem nth_error];
    try reflexivity.
  destruct (level =? 0); [reflexivity|].
  unfold fifo_sequence.
  destruct (Z.eqb_spec level 1) as [->|Hlevel].
  - change (Z.to_nat 1) with 1%nat. cbn [repeat read_register_value].
    unfold bind at 1. unfold bind at 1. unfold read_register at 1.
    unfold bind at 1. unfold request at 1. cbn [fst snd trace chip].
    destruct (chip w (t3 ++ _)) as [[|octet more']|e4];
      cbn [lift getitem nth_error rbind ret iter]; reflexivity.
  - assert (Hregs : forall reg : string,
               repeat "CIU_FIFOData"%string (Z.to_nat level) <> [reg]).
    { intros reg Hr. apply (f_equal (@length string)) in Hr.
      rewrite repeat_length in Hr. cbn [length] in Hr. lia. }
    assert (Hread : read_register_value
                      (repeat "CIU_FIFOData"%string (Z.to_nat level)) =
                    (data <- read_registers
                               (repeat "CIU_FIFOData"%string (Z.to_nat level)) ;;
                     ret (Seq data))).
    { destruct (repeat "CIU_FIFOData"%string (Z.to_nat level))
        as [|reg [|reg' regs]]; try reflexivity.
      now destruct (Hregs reg). }
    rewrite Hread.
    unfold bind at 1. unfold bind at 1. unfold read_registers at 1.
    unfold request at 1. cbn [fst snd trace chip].
    destruct (chip w (t3 ++ _)) as [fifo|e4]; [|reflexivity].
    unfold bind, lift, rbind, raise, ret, iter.
    destruct (tt1_unpack fifo) as [d|e5]; [|reflexivity].
    destruct (negb (check_crc_b d)); reflexivity.
Qed.

(** Two octets or more come back as the sequence they are; a single one
    comes back as an integer and stops the method. *)
Lemma fifo_sequence_several (level : Z) (reply : list Z) :
  level <> 1 -> fifo_sequence level reply = Ok reply.
Proof.
  intros Hl. unfold fifo_sequence.
  now destruct (Z.eqb_spec level 1).
Qed.

Lemma fifo_sequence_ok (level : Z) (reply octets : list Z) :
  fifo_sequence level reply = Ok octets -> level <> 1 /\ octets = reply.
Proof.
  unfold fifo_sequence. destruct (Z.eqb_spec level 1) as [->|Hl].
  - destruct (getitem reply 0); discriminate.
  - cbn [iter]. intros [= <-]. now split.
Qed.

(** A chip that goes through the transmission: the reply is what the
    FIFO holds, unpacked and checked, or a timeout when it holds
    nothing. *)
Lemma tt1_bitbang_run (cmd_code : Z) (args : list Z) (w : world)
      (level : Z) (fifo : list Z) :
  let data := cmd_code :: args in
  let t3 := tt1_sent w data ++ [ReadRegister ["CIU_FIFOLevel"%string]] in
  delivers w data level fifo -> level <> 1 ->
  tt1_bitbang data w =
  if level =? 0 then (Raise TimeoutError, World t3 (chip w))
  else (d <~ tt1_unpack fifo ;;
        if negb (check_crc_b d)
        then Raise (TransmissionError "crc_b check error")
        else Ok (drop_last2 d),
        World (t3 ++ [ReadRegister (repeat "CIU_FIFOData"%string
                                           (Z.to_nat level))])
              (chip w)).
Proof.
  intros data t3 (H1 & H2 & (more & H3) & H4) Hl. subst data t3.
  rewrite tt1_bitbang_cases. cbv zeta. cbn [hd] in H1.
  destruct (chip w (trace w ++ _)); [|discriminate].
  destruct (chip w (tt1_sent w (cmd_code :: args))); [|discriminate].
  rewrite H3.
  destruct (level =? 0); [reflexivity|].
  rewrite <- app_assoc. cbn [app]. rewrite H4.
  rewrite (fifo_sequence_several level fifo Hl). reflexivity.
Qed.

Lemma tt1_sleeps_quiet (cmd_code : Z) :
  forallb register_access (tt1_sleeps cmd_code) = true
  /\ transmitted (tt1_sleeps cmd_code) = [].
Proof.
  unfold tt1_sleeps.
  destruct (cmd_code =? 0x54), (cmd_code =? 0x1B); split; reflexivity.
Qed.

(** What one transmission adds to the trace: the write of the frame,
    then, when the chip accepts it, the pause and the parity write, then
    reads; the chip is asked for nothing but register accesses and the
    frame is the only thing put into the FIFO. *)
Lemma tt1_bitbang_trace (cmd_code : Z) (args : list Z) (w : world) :
  let data := cmd_code :: args in
  let first := WriteRegister (tt1_register_write (add_crc_b data) cmd_code) in
  exists rest,
    trace (snd (tt1_bitbang data w)) = trace w ++ first :: rest
    /\ chip (snd (tt1_bitbang data w)) = chip w
    /\ (is_ok (chip w (trace w ++ [first])) = true ->
        exists rest',
          rest = tt1_sleeps cmd_code ++
                 WriteRegister [("CIU_ManualRCV", 0x20)]%string :: rest')
    /\ forallb register_access rest = true
    /\ transmitted rest = [].
Proof.
  intros data first. subst data. rewrite tt1_bitbang_cases. cbv zeta.
  fold first. unfold tt1_sent. cbn [hd]. fold first.
  destruct (tt1_sleeps_quiet cmd_code) as [Hq Ht].
  assert (Hrest : forall more,
             forallb register_access more = true ->
             transmitted more = [] ->
             forallb register_access
               (tt1_sleeps cmd_code ++
                WriteRegister [("CIU_ManualRCV", 0x20)]%string :: more) = true
             /\ transmitted
                  (tt1_sleeps cmd_code ++
                   WriteRegister [("CIU_ManualRCV", 0x20)]%string :: more) = []).
  { intros more Hm Htm. split.
    - rewrite forallb_app, Hq. exact Hm.
    - unfold transmitted in *. rewrite flat_map_app, Ht. exact Htm. }
  destruct (chip w (trace w ++ [first])) as [r1|e1].
  2:{ exists []. cbn [snd trace chip is_ok].
      repeat split; try reflexivity. discriminate. }
  destruct (chip w _) as [r2|e2].
  2:{ exists (tt1_sleeps cmd_code ++
              [WriteRegister [("CIU_ManualRCV", 0x20)]%string]).
      cbn [snd trace chip]. split; [reflexivity|]. split; [reflexivity|].
      split; [intros _; eexists; reflexivity|].
      now apply Hrest. }
  set (W := WriteRegister [("CIU_ManualRCV", 0x20)]%string).
  set (R := ReadRegister ["CIU_FIFOLevel"%string]).
  assert (Hlevel : (trace w ++ [first] ++ tt1_sleeps cmd_code ++ [W]) ++ [R]
                   = trace w ++ first :: tt1_sleeps cmd_code ++ W :: [R]).
  { rewrite <- !app_assoc. reflexivity. }
  assert (Hdone : exists rest,
             trace w ++ first :: tt1_sleeps cmd_code ++ W :: [R] =
             trace w ++ first :: rest
             /\ (is_ok (@Ok (list Z) r1) = true ->
                 exists rest', rest = tt1_sleeps cmd_code ++ W :: rest')
             /\ forallb register_access rest = true
             /\ transmitted rest = []).
  { eexists. split; [reflexivity|]. split; [intros _; eexists; reflexivity|].
    now apply Hrest. }
  destruct (chip w _) as [[|level more]|e3]; cbn [snd trace chip];
    try (rewrite Hlevel; destruct Hdone as (rest & ? & ? & ? & ?);
         exists rest; repeat split; assumption).
  destruct (level =? 0); cbn [snd trace chip];
    try (rewrite Hlevel; destruct Hdone as (rest & ? & ? & ? & ?);
         exists rest; repeat split; assumption).
  set (R' := ReadRegister _).
  assert (Hall : exists rest,
             trace w ++ first :: tt1_sleeps cmd_code ++ W :: [R; R'] =
             trace w ++ first :: rest
             /\ (is_ok (@Ok (list Z) r1) = true ->
                 exists rest', rest = tt1_sleeps cmd_code ++ W :: rest')
             /\ forallb register_access rest = true
             /\ transmitted rest = []).
  { eexists. split; [reflexivity|]. split; [intros _; eexists; reflexivity|].
    now apply Hrest. }
  assert (Hfifo : ((trace w ++ [first] ++ tt1_sleeps cmd_code ++ [W]) ++ [R])
                    ++ [R']
                  = trace w ++ first :: tt1_sleeps cmd_code ++ W :: [R; R']).
  { rewrite <- !app_assoc. reflexivity. }
  destruct (chip w _) as [fifo|e4]; cbn [snd trace chip];
    rewrite Hfifo; destruct Hall as (rest & ? & ? & ? & ?);
    exists rest; repeat split; assumption.
Qed.

End Bitbang.

Section Bypass.
Context `{Pn53x}.
Import Device.

(** C2: a command that the firmware does not carry out and that is no
    segment read gets its checksum appended and is sent by one batch of
    register writes: the first byte into the FIFO, bit framing 7, Transmit,
    bit framing 0, parity off, then for every further byte of command and
    checksum a FIFO write, Transmit and NoCmdChange, and one Receive at
    the end; when the chip accepts the batch, the next write (after the
    pause of a write command) turns parity on again. *)
Theorem tt1_bypass_register_writes
        (cmd_code : Z) (args : list Z) (timeout : Z) (w : world) :
  ~ In cmd_code [0x00; 0x01; 0x1A; 0x53; 0x72; 0x10] ->
  let writes :=
    [("CIU_FIFOData", cmd_code); ("CIU_BitFraming", 0x07);
     ("CIU_Command", 0x04); ("CIU_BitFraming", 0x00);
     ("CIU_ManualRCV", 0x30)]%string ++
    flat_map (fun octet => [("CIU_FIFOData", octet); ("CIU_Command", 0x04);
                            ("CIU_Command", 0x07)]%string)
             (args ++ crc_bytes (cmd_code :: args)) ++
    [("CIU_Command", 0x08)]%string in
  fifo_written writes = add_crc_b (cmd_code :: args)
  /\ receive_commands writes = 1%nat
  /\ exists rest,
      trace (snd (_tt1_send_cmd_recv_rsp (cmd_code :: args) timeout w)) =
      trace w ++ WriteRegister writes :: rest
      /\ (is_ok (chip w (trace w ++ [WriteRegister writes])) = true ->
          exists rest',
            rest = tt1_sleeps cmd_code ++
                   WriteRegister [("CIU_ManualRCV", 0x20)]%string :: rest').
Proof.
  intros Hc writes.
  assert (Hw : writes = tt1_register_write (add_crc_b (cmd_code :: args))
                                           cmd_code).
  { unfold add_crc_b. cbn [app]. now rewrite tt1_register_write_bytes. }
  split.
  { rewrite Hw. unfold add_crc_b. cbn [app].
    apply fifo_written_register_write. }
  split.
  { rewrite Hw. unfold add_crc_b. cbn [app].
    apply receive_commands_register_write. }
  rewrite tt1_dispatch_bypass by assumption. rewrite Hw.
  destruct (tt1_bitbang_trace cmd_code args w) as (rest & Ht & _ & Hr & _).
  exists rest. split; assumption.
Qed.

End Bypass.

(** WRITE-NE8 with two argument bytes and the ISO checksum. *)
Lemma tt1_bypass_register_writes_witness :
  exists rest,
    trace (snd (@Device._tt1_send_cmd_recv_rsp iso_base [0x1B; 0x05; 0x77] 1
                  (World [] (fifo_chip [])))) =
    WriteRegister
      [("CIU_FIFOData", 0x1B); ("CIU_BitFraming", 0x07); ("CIU_Command", 0x04);
       ("CIU_BitFraming", 0x00); ("CIU_ManualRCV", 0x30);
       ("CIU_FIFOData", 0x05); ("CIU_Command", 0x04); ("CIU_Command", 0x07);
       ("CIU_FIFOData", 0x77); ("CIU_Command", 0x04); ("CIU_Command", 0x07);
       ("CIU_FIFOData", 127); ("CIU_Command", 0x04); ("CIU_Command", 0x07);
       ("CIU_FIFOData", 19); ("CIU_Command", 0x04); ("CIU_Command", 0x07);
       ("CIU_Command", 0x08)]%string
    :: Sleep 3000 :: WriteRegister [("CIU_ManualRCV", 0x20)]%string :: rest.
Proof.
  assert (Hc : ~ In 0x1B [0x00; 0x01; 0x1A; 0x53; 0x72; 0x10]).
  { simpl. intuition discriminate. }
  destruct (@tt1_bypass_register_writes iso_base 0x1B [0x05; 0x77] 1
              (World [] (fifo_chip [])) Hc) as (_ & _ & rest & Ht & Hr).
  destruct (Hr eq_refl) as (rest' & Hrest).
  exists rest'. rewrite Ht, Hrest. reflexivity.
Defined.

(** ** Device._tt1_send_cmd_recv_rsp: the segment read *)

Section SegmentRead.
Context `{Pn53x}.
Import Device.

(** A block read is sent through the registers, at any depth of calls. *)
Lemma tt1_calls_block (depth : nat) (block : Z) (tail : list Z) (timeout : Z)
      (w : world) :
  tt1_calls (S depth) (0x02 :: block :: tail) timeout w =
  tt1_bitbang (0x02 :: block :: tail) w.
Proof. reflexivity. Qed.

(** The loop calls [self] for block reads only. *)
Lemma tt1_rseg_loop_self (self1 self2 : list Z -> Z -> M (list Z))
      (blocks data : list Z) (timeout : Z) :
  (forall block tail w,
      self1 (0x02 :: block :: tail) timeout w =
      self2 (0x02 :: block :: tail) timeout w) ->
  forall rsp w,
    tt1_rseg_loop self1 blocks data timeout rsp w =
    tt1_rseg_loop self2 blocks data timeout rsp w.
Proof.
  intros Hself. induction blocks as [|block blocks IH]; intros rsp w;
    [reflexivity|].
  cbn [tt1_rseg_loop]. unfold bind at 1 3. unfold lift, chr.
  destruct ((0 <=? block) && (block <? 256)); [|reflexivity].
  cbn [app]. unfold bind. rewrite Hself.
  destruct (self2 _ timeout w) as [[r|e] w1]; [apply IH | reflexivity].
Qed.

(** The method satisfies the equation that defines it in the driver: two
    levels of calls are enough for every command. *)
Lemma tt1_send_cmd_recv_rsp_unfold (data : list Z) (timeout : Z) (w : world) :
  _tt1_send_cmd_recv_rsp data timeout w =
  tt1_body _tt1_send_cmd_recv_rsp data timeout w.
Proof.
  unfold _tt1_send_cmd_recv_rsp. cbn [tt1_calls]. unfold tt1_body at 1 3.
  unfold bind at 1 3. unfold lift.
  destruct (getitem data 0) as [cmd_code|e]; [|reflexivity].
  destruct (existsb _ _); [reflexivity|].
  destruct (cmd_code =? 0x10); [|reflexivity].
  unfold bind at 1 2.
  destruct (getitem data 1) as [adds|e]; [|reflexivity].
  apply tt1_rseg_loop_self. intros block tail w'. reflexivity.
Qed.

(** The loop with its accumulator is the blocks read in turn and the
    replies cut to the bytes 1 to 8 and joined. *)
Lemma tt1_rseg_loop_blocks (depth : nat) (blocks data : list Z) (timeout : Z) :
  Forall is_byte blocks ->
  forall rsp w,
    tt1_rseg_loop (tt1_calls (S depth)) blocks data timeout rsp w =
    (replies <- read_blocks blocks (skipn 2 data) ;;
     ret (rsp ++ flat_map (fun r => slice r 1 9) replies)) w.
Proof.
  induction 1 as [|block blocks Hb Hbs IH]; intros rsp w.
  - unfold bind, ret. cbn. now rewrite app_nil_r.
  - cbn [tt1_rseg_loop read_blocks]. rewrite (chr_byte _ Hb).
    unfold bind, lift. cbn [app]. rewrite tt1_calls_block.
    destruct (tt1_bitbang _ w) as [[r|e] w1]; [|reflexivity].
    rewrite IH. unfold bind.
    destruct (read_blocks blocks _ w1) as [[rs|e] w2]; [|reflexivity].
    unfold ret. cbn [flat_map]. now rewrite app_assoc.
Qed.

Lemma transmitted_app (a b : list event) :
  transmitted (a ++ b) = transmitted a ++ transmitted b.
Proof. unfold transmitted. apply flat_map_app. Qed.

(** What the block reads add to the trace: register accesses only, and
    one frame transmitted for each block read that was started, in the
    order of the blocks; they all are when the reads succeed. *)
Lemma read_blocks_trace (blocks tail : list Z) (w : world) :
  exists new sent,
    trace (snd (read_blocks blocks tail w)) = trace w ++ new
    /\ chip (snd (read_blocks blocks tail w)) = chip w
    /\ forallb register_access new = true
    /\ transmitted new =
       map (fun block => add_crc_b (0x02 :: block :: tail))
           (firstn sent blocks)
    /\ forall replies,
        fst (read_blocks blocks tail w) = Ok replies ->
        sent = length blocks /\ length replies = length blocks.
Proof.
  revert w. induction blocks as [|block blocks IH]; intros w.
  - exists [], O. cbn. rewrite app_nil_r.
    do 4 (split; [reflexivity|]).
    intros replies [= <-]. split; reflexivity.
  - assert (Hrun : read_blocks (block :: blocks) tail w =
                   match tt1_bitbang (0x02 :: block :: tail) w with
                   | (Ok r, w1) =>
                       match read_blocks blocks tail w1 with
                       | (Ok rs, w2) => (Ok (r :: rs), w2)
                       | (Raise e, w2) => (Raise e, w2)
                       end
                   | (Raise e, w1) => (Raise e, w1)
                   end) by reflexivity.
    rewrite Hrun. clear Hrun.
    destruct (tt1_bitbang_trace 0x02 (block :: tail) w)
      as (rest & Ht & Hc & _ & Hra & Htr).
    cbv zeta in Ht, Hc.
    set (first := WriteRegister _) in Ht.
    assert (Hfirst : transmitted (first :: rest) =
                     [add_crc_b (0x02 :: block :: tail)]).
    { change (first :: rest) with ([first] ++ rest).
      rewrite transmitted_app, Htr, app_nil_r. unfold first, transmitted.
      cbn [flat_map]. unfold add_crc_b at 1. cbn [app].
      rewrite fifo_written_register_write. reflexivity. }
    destruct (tt1_bitbang (0x02 :: block :: tail) w) as [[r|e] w1];
      cbn [fst snd] in *.
    + destruct (IH w1) as (new & sent & Ht' & Hc' & Hra' & Htr' & Hok).
      destruct (read_blocks blocks tail w1) as [[rs|e] w2]; cbn [fst snd] in *.
      * exists ((first :: rest) ++ new), (S sent).
        rewrite Ht', Ht, <- app_assoc. split; [reflexivity|].
        split; [congruence|]. split.
        { rewrite forallb_app. cbn [forallb]. now rewrite Hra, Hra'. }
        split.
        { rewrite transmitted_app, Hfirst, Htr'. reflexivity. }
        intros replies [= <-].
        destruct (Hok rs eq_refl) as [-> Hlen]. cbn [length].
        split; congruence.
      * exists ((first :: rest) ++ new), (S sent).
        rewrite Ht', Ht, <- app_assoc. split; [reflexivity|].
        split; [congruence|]. split.
        { rewrite forallb_app. cbn [forallb]. now rewrite Hra, Hra'. }
        split.
        { rewrite transmitted_app, Hfirst, Htr'. reflexivity. }
        discriminate.
    + exists (first :: rest), 1%nat. split; [exact Ht|].
      split; [exact Hc|]. split; [exact Hra|]. split.
      { rewrite Hfirst. reflexivity. }
      discriminate.
Qed.

Lemma segment_blocks_bytes (adds : Z) :
  is_byte adds ->
  Forall is_byte
         (map (fun k => Z.shiftr adds 4 * 16 + Z.of_nat k) (seq 0 16)).
Proof.
  unfold is_byte. intros Ha. apply Forall_forall. intros block Hin.
  apply in_map_iff in Hin. destruct Hin as (k & <- & Hk).
  apply in_seq in Hk. rewrite Z.shiftr_div_pow2 by lia.
  change (2 ^ 4) with 16.
  assert (0 <= adds / 16 < 16)
    by (split; [apply Z.div_pos | apply Z.div_lt_upper_bound]; lia).
  lia.
Qed.

Lemma payload_length (replies : list (list Z)) :
  Forall (fun r => (9 <= length r)%nat) replies ->
  length (flat_map (fun r => slice r 1 9) replies) = (8 * length replies)%nat.
Proof.
  induction 1 as [|r replies Hr Hrs IH]; [reflexivity|].
  cbn [flat_map length]. rewrite length_app, IH. unfold slice.
  rewrite length_firstn, length_skipn. lia.
Qed.

(** The segment read is the sixteen block reads and the replies joined. *)
Lemma segment_read_as_blocks (adds : Z) (tail : list Z) (timeout : Z)
      (w : world) :
  is_byte adds ->
  _tt1_send_cmd_recv_rsp (0x10 :: adds :: tail) timeout w =
  (replies <- read_blocks
                (map (fun k => Z.shiftr adds 4 * 16 + Z.of_nat k) (seq 0 16))
                tail ;;
   ret (adds :: flat_map (fun r => slice r 1 9) replies)) w.
Proof.
  intros Ha. unfold _tt1_send_cmd_recv_rsp. cbn [tt1_calls].
  unfold tt1_body at 1. unfold bind at 1. cbn [lift getitem nth_error].
  cbn [existsb]. simpl (_ =? _). cbn [orb]. cbv iota.
  unfold bind at 1. cbn [lift getitem nth_error].
  rewrite range_step1.
  replace (Z.to_nat (Z.shiftr adds 4 * 16 + 16 - Z.shiftr adds 4 * 16))
    with 16%nat by lia.
  change (tt1_body (tt1_calls 0)) with (tt1_calls 1).
  rewrite (tt1_rseg_loop_blocks 0) by now apply segment_blocks_bytes.
  reflexivity.
Qed.

(** An address that is no byte has no block to read: [chr] refuses the
    first block number. *)
Lemma segment_read_no_byte (adds : Z) (tail : list Z) (timeout : Z)
      (w : world) :
  ~ is_byte adds ->
  _tt1_send_cmd_recv_rsp (0x10 :: adds :: tail) timeout w =
  (Raise ValueError, w).
Proof.
  unfold is_byte. intros Ha. unfold _tt1_send_cmd_recv_rsp. cbn [tt1_calls].
  unfold tt1_body at 1. unfold bind at 1. cbn [lift getitem nth_error].
  cbn [existsb]. simpl (_ =? _). cbn [orb]. cbv iota.
  unfold bind at 1. cbn [lift getitem nth_error].
  rewrite range_step1.
  replace (Z.to_nat (Z.shiftr adds 4 * 16 + 16 - Z.shiftr adds 4 * 16))
    with 16%nat by lia.
  cbn [seq map tt1_rseg_loop]. unfold bind at 1. unfold lift, chr.
  rewrite Z.add_0_r, Z.shiftr_div_pow2 by lia. change (2 ^ 4) with 16.
  destruct (Z.leb_spec 0 (adds / 16 * 16)) as [Hl|Hl];
    destruct (Z.ltb_spec (adds / 16 * 16) 256) as [Hu|Hu];
    try reflexivity.
  exfalso. apply Ha. clear - Hl Hu.
  Z.to_euclidean_division_equations. lia.
Qed.

(** C5: a command that starts with 0x10 is carried out as the reads of the
    sixteen blocks of the segment named by the high half of the address
    byte, each sent through the registers as command 0x02 with the block
    number and the rest of the command; the reply is the address byte and
    then the bytes 1 to 8 of the reply to each block.  The chip is asked
    for register accesses only, and the frames transmitted are those of
    the block reads started, one per block in order: all sixteen when the
    call returns. *)
Theorem tt1_segment_read (adds : Z) (tail : list Z) (timeout : Z) (w : world) :
  is_byte adds ->
  let blocks := map (fun k => Z.shiftr adds 4 * 16 + Z.of_nat k) (seq 0 16) in
  let run := _tt1_send_cmd_recv_rsp (0x10 :: adds :: tail) timeout w in
  run = (replies <- read_blocks blocks tail ;;
         ret (adds :: flat_map (fun r => slice r 1 9) replies)) w
  /\ exists new sent,
      trace (snd run) = trace w ++ new
      /\ forallb register_access new = true
      /\ transmitted new =
         map (fun block => add_crc_b (0x02 :: block :: tail))
             (firstn sent blocks)
      /\ forall rsp,
          fst run = Ok rsp ->
          sent = 16%nat
          /\ exists replies,
              fst (read_blocks blocks tail w) = Ok replies
              /\ length replies = 16%nat
              /\ rsp = adds :: flat_map (fun r => slice r 1 9) replies
              /\ (Forall (fun r => (9 <= length r)%nat) replies ->
                  length rsp = 129%nat).
Proof.
  intros Ha blocks run.
  assert (Hrun : run = (replies <- read_blocks blocks tail ;;
                        ret (adds :: flat_map (fun r => slice r 1 9) replies)) w)
    by now apply segment_read_as_blocks.
  split; [exact Hrun|].
  destruct (read_blocks_trace blocks tail w)
    as (new & sent & Ht & _ & Hra & Htr & Hok).
  exists new, sent. rewrite Hrun. unfold bind, ret.
  destruct (read_blocks blocks tail w) as [[replies|e] w1]; cbn [fst snd] in *.
  - do 3 (split; [assumption|]). intros rsp [= <-].
    destruct (Hok replies eq_refl) as [Hs Hl]. split; [exact Hs|].
    exists replies. repeat split; try assumption.
    intros Hlen. cbn [length]. rewrite payload_length by assumption.
    rewrite Hl. reflexivity.
  - do 3 (split; [assumption|]). discriminate.
Qed.

End SegmentRead.

(** A segment read on a chip whose FIFO holds, after every transmission,
    a reply of nine bytes and its checksum. *)
Lemma tt1_segment_read_witness :
  let w := World [] (fifo_chip [18; 3; 10; 28; 72; 176; 160; 193; 131; 8; 93;
                                238; 4]) in
  let run := @Device._tt1_send_cmd_recv_rsp iso_base
               [0x10; 0x12; 0; 0; 0; 0; 0; 0; 0; 0; 1; 2; 3; 4] 1 w in
  fst run = Ok (0x12 :: concat (repeat [1; 2; 3; 4; 5; 6; 7; 8] 16))
  /\ map (fun frame => firstn 2 frame) (transmitted (trace (snd run))) =
     map (fun k => [0x02; 0x10 + Z.of_nat k]) (seq 0 16)
  /\ forallb register_access (trace (snd run)) = true.
Proof.
  intros w run.
  assert (Ha : is_byte 0x12) by (unfold is_byte; lia).
  destruct (@tt1_segment_read iso_base 0x12 [0; 0; 0; 0; 0; 0; 0; 0; 1; 2; 3; 4]
              1 w Ha) as (_ & new & sent & Ht & Hra & Htr & Hok).
  assert (E : fst run =
              Ok (0x12 :: concat (repeat [1; 2; 3; 4; 5; 6; 7; 8] 16)))
    by (vm_compute; reflexivity).
  destruct (Hok _ E) as (Hs & _).
  split; [exact E|].
  change (trace (snd run)) with
    (trace (snd (@Device._tt1_send_cmd_recv_rsp iso_base
                   [0x10; 0x12; 0; 0; 0; 0; 0; 0; 0; 0; 1; 2; 3; 4] 1 w))).
  rewrite Ht. cbn [trace w app]. split; [|exact Hra].
  rewrite Htr, Hs. vm_compute. reflexivity.
Defined.

(** ** Device._tt1_send_cmd_recv_rsp: an empty FIFO *)

Section EmptyFifo.
Context `{Pn53x}.
Import Device.

Lemma split_after {A} (a new h tl : list A) :
  a ++ new = h ++ tl -> (length a <= length h)%nat ->
  exists h2, h = a ++ h2 /\ new = h2 ++ tl.
Proof.
  revert h. induction a as [|x a IH]; intros h E Hlen.
  - exists h. split; [reflexivity | exact E].
  - destruct h as [|y h]; [simpl in Hlen; lia|].
    cbn [app] in E. injection E as -> E.
    destruct (IH h E ltac:(simpl in Hlen; lia)) as (h2 & -> & ->).
    exists h2. split; reflexivity.
Qed.

Lemma split_before {A} (a new h : list A) (x : A) (tl : list A) :
  a ++ new = h ++ x :: tl -> (length h < length a)%nat ->
  exists tl1, a = h ++ x :: tl1.
Proof.
  revert a. induction h as [|y h IH]; intros a E Hlen.
  - destruct a as [|z a]; [simpl in Hlen; lia|].
    cbn [app] in E. injection E as -> E. exists a. reflexivity.
  - destruct a as [|z a]; [simpl in Hlen; lia|].
    cbn [app] in E. injection E as -> E.
    destruct (IH a E ltac:(simpl in Hlen; lia)) as (tl1 & ->).
    exists tl1. reflexivity.
Qed.

Lemma occurrence {A} (new h2 post : list A) (x : A) :
  new = h2 ++ x :: post ->
  nth_error new (length h2) = Some x
  /\ h2 = firstn (length h2) new
  /\ post = skipn (S (length h2)) new.
Proof.
  intros ->. split; [|split].
  - rewrite nth_error_app2, Nat.sub_diag by lia. reflexivity.
  - rewrite firstn_app, Nat.sub_diag, firstn_all. cbn [firstn].
    now rewrite app_nil_r.
  - rewrite skipn_app, skipn_all2 by lia.
    replace (S (length h2) - length h2)%nat with 1%nat by lia. reflexivity.
Qed.

Lemma repeat_fifo_data_not_level (n : nat) :
  repeat "CIU_FIFOData"%string n <> ["CIU_FIFOLevel"%string].
Proof. destruct n as [|[|n]]; discriminate. Qed.

(** The places of an event in a list of no more than seven. *)
Ltac locate E :=
  apply occurrence in E;
  let Hn := fresh "Hn" in
  let Hh := fresh "Hh" in
  let Hp := fresh "Hp" in
  destruct E as (Hn & Hh & Hp);
  match type of Hn with
  | nth_error _ ?n = _ =>
      let k := fresh "k" in
      remember n as k;
      destruct k as [|[|[|[|[|[|[|k]]]]]]];
      cbn [nth_error app] in Hn; try discriminate Hn;
      cbn [firstn skipn app] in Hh, Hp
  end.

(** In one transmission: when the chip answers a read of the fill level
    with zero, the transmission ends there with [TimeoutError]. *)
Lemma tt1_bitbang_zero_level (cmd_code : Z) (args : list Z) (w : world)
      (h post : list event) (more : list Z) :
  (length (trace w) <= length h)%nat ->
  trace (snd (tt1_bitbang (cmd_code :: args) w)) =
  h ++ ReadRegister ["CIU_FIFOLevel"%string] :: post ->
  chip w (h ++ [ReadRegister ["CIU_FIFOLevel"%string]]) = Ok (0 :: more) ->
  fst (tt1_bitbang (cmd_code :: args) w) = Raise TimeoutError /\ post = [].
Proof.
  intros Hlen. rewrite tt1_bitbang_cases. cbv zeta.
  unfold tt1_sent. cbn [hd].
  set (first := WriteRegister _).
  set (W := WriteRegister [("CIU_ManualRCV", 0x20)]%string).
  set (R := ReadRegister ["CIU_FIFOLevel"%string]).
  assert (Hs : exists sl, tt1_sleeps cmd_code = sl /\
                          (sl = [] \/ sl = [Sleep 6000] \/ sl = [Sleep 3000]
                           \/ sl = [Sleep 6000; Sleep 3000])).
  { eexists. split; [reflexivity|]. unfold tt1_sleeps.
    destruct (cmd_code =? 0x54), (cmd_code =? 0x1B); cbn [app]; tauto. }
  destruct Hs as (sl & -> & Hsl).
  assert (Hlist : forall new : list event,
             trace w ++ new = h ++ R :: post ->
             exists h2, h = trace w ++ h2 /\ new = h2 ++ R :: post).
  { intros new E. now apply split_after. }
  assert (Ht : forall t, (trace w ++ [first] ++ sl ++ [W]) ++ t =
                         trace w ++ first :: sl ++ W :: t).
  { intros t. rewrite <- !app_assoc. reflexivity. }
  destruct (chip w (trace w ++ [first])) as [r1|e1].
  2:{ cbn [snd trace]. intros E _. exfalso.
      destruct (Hlist _ E) as (h2 & _ & E2). locate E2. }
  destruct (chip w (trace w ++ [first] ++ sl ++ [W])) as [r2|e2].
  2:{ cbn [snd trace]. intros E _. exfalso.
      destruct (Hlist (first :: sl ++ [W])) as (h2 & _ & E2);
        [rewrite <- E; reflexivity|].
      destruct Hsl as [-> | [-> | [-> | ->]]]; locate E2. }
  rewrite Ht.
  destruct (chip w (trace w ++ first :: sl ++ [W; R])) as [lv|e3] eqn:E3.
  2:{ cbn [snd trace]. intros E Hz. exfalso.
      destruct (Hlist _ E) as (h2 & -> & E2).
      destruct Hsl as [-> | [-> | [-> | ->]]]; locate E2;
        subst h2; rewrite <- app_assoc in Hz; cbn [app] in Hz, E3;
        congruence. }
  destruct lv as [|level lv'].
  { cbn [snd trace]. intros E Hz. exfalso.
    destruct (Hlist _ E) as (h2 & -> & E2).
    destruct Hsl as [-> | [-> | [-> | ->]]]; locate E2;
      subst h2; rewrite <- app_assoc in Hz; cbn [app] in Hz, E3;
      congruence. }
  destruct (Z.eqb_spec level 0) as [->|Hnz].
  { cbn [fst snd trace]. intros E Hz.
    split; [reflexivity|].
    destruct (Hlist _ E) as (h2 & -> & E2).
    destruct Hsl as [-> | [-> | [-> | ->]]]; locate E2; exact Hp. }
  rewrite <- app_assoc. cbn [app]. rewrite <- app_assoc. cbn [app].
  set (R' := ReadRegister _).
  assert (Hfinal : trace w ++ first :: sl ++ [W; R; R'] =
                   h ++ R :: post ->
                   chip w (h ++ [R]) = Ok (0 :: more) -> False).
  { intros E Hz. destruct (Hlist _ E) as (h2 & -> & E2).
    destruct Hsl as [-> | [-> | [-> | ->]]]; locate E2.
    all: try (subst h2; rewrite <- app_assoc in Hz; cbn [app] in Hz, E3;
              congruence).
    all: unfold R', R in Hn; injection Hn as Hn;
      now apply repeat_fifo_data_not_level in Hn. }
  destruct (chip w (trace w ++ first :: sl ++ [W; R; R'])) as [fifo|e4];
    cbn [fst snd trace]; intros E Hz; exfalso; now apply Hfinal.
Qed.

(** The same for the block reads of a segment. *)
Lemma read_blocks_zero_level (blocks tail : list Z) (w : world)
      (h post : list event) (more : list Z) :
  (length (trace w) <= length h)%nat ->
  trace (snd (read_blocks blocks tail w)) =
  h ++ ReadRegister ["CIU_FIFOLevel"%string] :: post ->
  chip w (h ++ [ReadRegister ["CIU_FIFOLevel"%string]]) = Ok (0 :: more) ->
  fst (read_blocks blocks tail w) = Raise TimeoutError /\ post = [].
Proof.
  revert w. induction blocks as [|block blocks IH]; intros w Hlen E Hz.
  - exfalso. cbn in E. apply (f_equal (@length event)) in E.
    rewrite length_app in E. cbn [length] in E. lia.
  - assert (Hrun : read_blocks (block :: blocks) tail w =
                   match tt1_bitbang (0x02 :: block :: tail) w with
                   | (Ok r, w1) =>
                       match read_blocks blocks tail w1 with
                       | (Ok rs, w2) => (Ok (r :: rs), w2)
                       | (Raise e, w2) => (Raise e, w2)
                       end
                   | (Raise e, w1) => (Raise e, w1)
                   end) by reflexivity.
    rewrite Hrun in *. clear Hrun.
    pose proof (tt1_bitbang_zero_level 0x02 (block :: tail) w h) as Hone.
    destruct (tt1_bitbang_trace 0x02 (block :: tail) w)
      as (rest & Ht & Hc & _).
    cbv zeta in Ht, Hc.
    destruct (tt1_bitbang (0x02 :: block :: tail) w) as [[r|e] w1];
      cbn [fst snd] in *.
    + pose proof (IH w1) as IH1.
      destruct (read_blocks_trace blocks tail w1) as (new & _ & Ht' & _).
      rewrite Hc in IH1.
      destruct (Nat.le_gt_cases (length (trace w1)) (length h)) as [Hle|Hgt].
      * destruct (read_blocks blocks tail w1) as [[rs|e] w2];
          cbn [fst snd] in *; destruct (IH1 Hle E Hz) as [Hr Hp];
          [discriminate | split; assumption].
      * exfalso.
        assert (E' : trace w1 ++ new =
                     h ++ ReadRegister ["CIU_FIFOLevel"%string] :: post).
        { rewrite <- Ht'.
          destruct (read_blocks blocks tail w1) as [[rs|e] w2]; exact E. }
        destruct (split_before _ _ _ _ _ E' Hgt) as (post1 & E1).
        destruct (Hone post1 more Hlen E1 Hz) as [Hr _]. discriminate.
    + destruct (Hone post more Hlen E Hz) as [[= ->] Hp].
      split; [reflexivity | exact Hp].
Qed.

(** C3: in every call of the method, for every command and every chip:
    when a read of the fill level made in the call is answered with zero,
    the call raises [TimeoutError], so it returns no reply, and that read is
    the last the chip sees of it, so the FIFO is not read. *)
Theorem tt1_zero_fifo_level_timeout
        (data : list Z) (timeout : Z) (w : world)
        (h post : list event) (more : list Z) :
  (length (trace w) <= length h)%nat ->
  trace (snd (_tt1_send_cmd_recv_rsp data timeout w)) =
  h ++ ReadRegister ["CIU_FIFOLevel"%string] :: post ->
  chip w (h ++ [ReadRegister ["CIU_FIFOLevel"%string]]) = Ok (0 :: more) ->
  fst (_tt1_send_cmd_recv_rsp data timeout w) = Raise TimeoutError
  /\ post = [].
Proof.
  intros Hlen E Hz.
  assert (Hquiet : forall r, _tt1_send_cmd_recv_rsp data timeout w = (r, w) ->
                             False).
  { intros r Er. rewrite Er in E. cbn [snd] in E.
    apply (f_equal (@length event)) in E.
    rewrite length_app in E. cbn [length] in E. lia. }
  destruct data as [|cmd_code args]; [exfalso; now apply (Hquiet (Raise IndexError))|].
  destruct (existsb (Z.eqb cmd_code) [0x00; 0x01; 0x1A; 0x53; 0x72]) eqn:Efw.
  - exfalso. revert E.
    unfold _tt1_send_cmd_recv_rsp. cbn [tt1_calls]. unfold tt1_body at 1.
    unfold bind at 1. cbn [lift getitem nth_error]. rewrite Efw.
    unfold in_data_exchange, request. cbn [snd trace]. intros E.
    destruct (split_after _ _ _ _ E Hlen) as (h2 & _ & E2).
    destruct h2 as [|? [|? ?]]; discriminate.
  - destruct (Z.eqb_spec cmd_code 0x10) as [->|Hseg].
    + destruct args as [|adds tail];
        [exfalso; now apply (Hquiet (Raise IndexError))|].
      assert (Hdec : is_byte adds \/ ~ is_byte adds) by (unfold is_byte; lia).
      destruct Hdec as [Ha|Ha].
      * rewrite segment_read_as_blocks in * by assumption.
        unfold bind, ret in *.
        pose proof (read_blocks_zero_level
                      (map (fun k => Z.shiftr adds 4 * 16 + Z.of_nat k)
                           (seq 0 16)) tail w h post more Hlen) as Hb.
        destruct (read_blocks _ tail w) as [[replies|e] w1];
          cbn [fst snd] in *; destruct (Hb E Hz) as [Hr Hp];
          [discriminate
          | injection Hr as ->; split; [reflexivity | assumption]].
      * exfalso. apply (Hquiet (Raise ValueError)).
        now apply segment_read_no_byte.
    + assert (Hc : ~ In cmd_code [0x00; 0x01; 0x1A; 0x53; 0x72; 0x10]).
      { intros Hin. cbn [existsb] in Efw. cbn [In] in Hin.
        repeat match type of Efw with
               | context [?a =? ?b] => destruct (Z.eqb_spec a b)
               end; cbn in Efw; try discriminate; intuition congruence. }
      rewrite tt1_dispatch_bypass in * by assumption.
      now apply (tt1_bitbang_zero_level cmd_code args w h post more).
Qed.

End EmptyFifo.

(** READ8 on a chip whose FIFO stays empty. *)
Lemma tt1_zero_fifo_level_timeout_witness :
  let w := World [] (fifo_chip []) in
  @Device._tt1_send_cmd_recv_rsp iso_base [0x02; 0x05; 0x77] 1 w =
  (Raise TimeoutError,
   World [WriteRegister
            [("CIU_FIFOData", 0x02); ("CIU_BitFraming", 0x07);
             ("CIU_Command", 0x04); ("CIU_BitFraming", 0x00);
             ("CIU_ManualRCV", 0x30);
             ("CIU_FIFOData", 0x05); ("CIU_Command", 0x04);
             ("CIU_Command", 0x07);
             ("CIU_FIFOData", 0x77); ("CIU_Command", 0x04);
             ("CIU_Command", 0x07);
             ("CIU_FIFOData", 244); ("CIU_Command", 0x04);
             ("CIU_Command", 0x07);
             ("CIU_FIFOData", 10); ("CIU_Command", 0x04);
             ("CIU_Command", 0x07);
             ("CIU_Command", 0x08)]%string;
          WriteRegister [("CIU_ManualRCV", 0x20)]%string;
          ReadRegister ["CIU_FIFOLevel"%string]]
         (fifo_chip [])).
Proof.
  intros w.
  set (h := [WriteRegister
               [("CIU_FIFOData", 0x02); ("CIU_BitFraming", 0x07);
                ("CIU_Command", 0x04); ("CIU_BitFraming", 0x00);
                ("CIU_ManualRCV", 0x30);
                ("CIU_FIFOData", 0x05); ("CIU_Command", 0x04);
                ("CIU_Command", 0x07);
                ("CIU_FIFOData", 0x77); ("CIU_Command", 0x04);
                ("CIU_Command", 0x07);
                ("CIU_FIFOData", 244); ("CIU_Command", 0x04);
                ("CIU_Command", 0x07);
                ("CIU_FIFOData", 10); ("CIU_Command", 0x04);
                ("CIU_Command", 0x07);
                ("CIU_Command", 0x08)]%string;
             WriteRegister [("CIU_ManualRCV", 0x20)]%string]).
  assert (Hlen : (length (trace w) <= length h)%nat) by (simpl; lia).
  assert (E : trace (snd (@Device._tt1_send_cmd_recv_rsp iso_base
                            [0x02; 0x05; 0x77] 1 w)) =
              h ++ ReadRegister ["CIU_FIFOLevel"%string] :: [])
    by (vm_compute; reflexivity).
  assert (Hz : chip w (h ++ [ReadRegister ["CIU_FIFOLevel"%string]]) =
               Ok [0]) by reflexivity.
  destruct (@tt1_zero_fifo_level_timeout iso_base [0x02; 0x05; 0x77] 1 w
              h [] [] Hlen E Hz) as [Hr _].
  destruct (@Device._tt1_send_cmd_recv_rsp iso_base [0x02; 0x05; 0x77] 1 w)
    as [r w'] eqn:Erun.
  cbn [fst snd] in *. subst r. f_equal.
  destruct w' as [t c]. cbn [trace] in E. subst t. f_equal.
  apply (f_equal snd) in Erun. apply (f_equal chip) in Erun.
  cbn [snd chip] in Erun. rewrite <- Erun. vm_compute. reflexivity.
Defined.


(** ** Device._tt1_send_cmd_recv_rsp: the reply in the FIFO *)

Section Digits.
Import Device.

Lemma rev_format_08b (octet : Z) :
  rev (format_08b octet) = map bit_char (bits_lsb octet).
Proof. reflexivity. Qed.

Lemma joined_digits (fifo : list Z) :
  flat_map (fun octet => rev (format_08b octet)) fifo =
  map bit_char (flat_map bits_lsb fifo).
Proof.
  induction fifo as [|octet fifo IH]; [reflexivity|].
  cbn [flat_map]. now rewrite map_app, IH, rev_format_08b.
Qed.

Lemma int2_from_digits (bits : list bool) (acc : Z) :
  int2_from acc (map bit_char bits) =
  Ok (fold_left (fun a b => 2 * a + Z.b2z b) bits acc).
Proof.
  revert acc. induction bits as [|b bits IH]; intros acc; [reflexivity|].
  cbn [map int2_from fold_left]. destruct b; cbn; apply IH.
Qed.

Lemma value_msb_rev (bits : list bool) :
  value_msb (rev bits) = value_lsb bits.
Proof.
  unfold value_msb. induction bits as [|b bits IH]; [reflexivity|].
  cbn [rev value_lsb]. rewrite fold_left_app, IH. cbn [fold_left]. lia.
Qed.

(** Reading a reversed slice of digits as a binary number. *)
Lemma int2_rev_digits (bits : list bool) :
  bits <> [] -> int2 (rev (map bit_char bits)) = Ok (value_lsb bits).
Proof.
  intros Hne. rewrite <- map_rev. unfold int2.
  destruct (rev bits) as [|b bs] eqn:E.
  - exfalso. apply Hne. apply (f_equal (@rev bool)) in E.
    now rewrite rev_involutive in E.
  - cbn [map].
    change (bit_char b :: map bit_char bs) with (map bit_char (b :: bs)).
    rewrite int2_from_digits, <- E. fold (value_msb (rev bits)).
    now rewrite value_msb_rev.
Qed.

Lemma comprehension_ok {A B} (f : A -> result B) (g : A -> B) (xs : list A) :
  (forall x, In x xs -> f x = Ok (g x)) ->
  comprehension f xs = Ok (map g xs).
Proof.
  induction xs as [|x xs IH]; intros Hf; [reflexivity|].
  cbn [comprehension map]. rewrite Hf by now left. cbn [rbind].
  rewrite IH by (intros y Hy; apply Hf; now right). reflexivity.
Qed.

Lemma range_nines (n : nat) :
  range 0 (Z.of_nat n - 8) 9 =
  map (fun k => 9 * Z.of_nat k) (seq 0 (n / 9)).
Proof.
  unfold range. replace (Z.of_nat n - 8 - 0 + 9 - 1) with (Z.of_nat n) by lia.
  replace (Z.to_nat (Z.of_nat n / 9)) with (n / 9)%nat
    by (change 9 with (Z.of_nat 9); now rewrite <- Nat2Z.inj_div, Nat2Z.id).
  apply map_ext. intros k. lia.
Qed.

Lemma slice_map {A B} (f : A -> B) (l : list A) (i j : nat) :
  slice (map f l) i j = map f (slice l i j).
Proof. unfold slice. now rewrite skipn_map, firstn_map. Qed.

Lemma length_slice {A} (l : list A) (i j : nat) :
  (j <= length l)%nat -> length (slice l i j) = (j - i)%nat.
Proof.
  intros Hj. unfold slice. rewrite length_firstn, length_skipn. lia.
Qed.

(** The reconstruction never raises, and is the reconstruction on bits of
    the octets written with their lowest bit first. *)
Lemma tt1_unpack_bits (fifo : list Z) :
  tt1_unpack fifo = Ok (unpack_bits (flat_map bits_lsb fifo)).
Proof.
  unfold tt1_unpack, unpack_bits. rewrite joined_digits.
  set (bits := flat_map bits_lsb fifo).
  unfold len. rewrite length_map, range_nines.
  rewrite (comprehension_ok
             _ (fun i => value_lsb (slice bits (Z.to_nat i) (Z.to_nat (i + 8))))).
  - rewrite map_map. f_equal. apply map_ext. intros k.
    replace (Z.to_nat (9 * Z.of_nat k)) with (9 * k)%nat by lia.
    replace (Z.to_nat (9 * Z.of_nat k + 8)) with (9 * k + 8)%nat by lia.
    reflexivity.
  - intros i Hi.
    apply in_map_iff in Hi. destruct Hi as (k & <- & Hk).
    apply in_seq in Hk. rewrite slice_map. apply int2_rev_digits.
    intros E. apply (f_equal (@length bool)) in E.
    assert (Hdiv : (9 * (length bits / 9) <= length bits)%nat)
      by (apply Nat.Div0.mul_div_le).
    rewrite length_slice in E by lia. cbn [length] in E. lia.
Qed.

End Digits.

Section Bits.

Lemma unpack_bits_short (bits : list bool) :
  (length bits < 9)%nat -> unpack_bits bits = [].
Proof.
  intros Hlen. unfold unpack_bits. now rewrite Nat.div_small.
Qed.

Lemma slice_app_run {A} (run rest : list A) (i j : nat) :
  slice (run ++ rest) (length run + i) (length run + j) = slice rest i j.
Proof.
  unfold slice. rewrite skipn_app, skipn_all2 by lia. cbn [app].
  f_equal; [lia | f_equal; lia].
Qed.

(** A full run in front gives one byte, and the rest goes on alike. *)
Lemma unpack_bits_run (run rest : list bool) :
  length run = 9%nat ->
  unpack_bits (run ++ rest) = value_lsb (firstn 8 run) :: unpack_bits rest.
Proof.
  intros Hrun. unfold unpack_bits. rewrite length_app, Hrun.
  replace ((9 + length rest) / 9)%nat with (S (length rest / 9)).
  2:{ replace (9 + length rest)%nat with (1 * 9 + length rest)%nat by lia.
      rewrite Nat.div_add_l by lia. reflexivity. }
  cbn [seq map]. f_equal.
  - unfold slice. cbn [Nat.mul skipn Nat.add Nat.sub].
    rewrite firstn_app, Hrun. cbn [Nat.sub firstn]. now rewrite app_nil_r.
  - rewrite <- seq_shift, map_map. apply map_ext. intros k.
    replace (9 * S k)%nat with (length run + 9 * k)%nat by lia.
    replace (length run + 9 * k + 8)%nat with (length run + (9 * k + 8))%nat
      by lia.
    now rewrite slice_app_run.
Qed.

Lemma value_lsb_testbits (n : nat) (z : Z) :
  0 <= z < 2 ^ Z.of_nat n ->
  value_lsb (map (fun i => Z.testbit z (Z.of_nat i)) (seq 0 n)) = z.
Proof.
  revert z. induction n as [|n IH]; intros z Hz.
  - cbn in *. lia.
  - cbn [seq map value_lsb]. rewrite <- seq_shift, map_map.
    rewrite (map_ext _ (fun i => Z.testbit (Z.div2 z) (Z.of_nat i))).
    + rewrite IH.
      * change (Z.of_nat 0) with 0. rewrite Z.bit0_odd.
        rewrite (Z.div2_odd z) at 3. lia.
      * rewrite Z.div2_div. rewrite Nat2Z.inj_succ, Z.pow_succ_r in Hz by lia.
        split; [apply Z.div_pos; lia | apply Z.div_lt_upper_bound; lia].
    + intros i. rewrite Z.div2_spec, Z.shiftr_spec by lia. f_equal. lia.
Qed.

Lemma value_lsb_bits_lsb (octet : Z) :
  is_byte octet -> value_lsb (bits_lsb octet) = octet.
Proof. intros Ho. now apply (value_lsb_testbits 8). Qed.

Lemma value_lsb_range (bits : list bool) :
  0 <= value_lsb bits < 2 ^ Z.of_nat (length bits).
Proof.
  induction bits as [|b bits IH]; [cbn; lia|].
  cbn [value_lsb length]. rewrite Nat2Z.inj_succ, Z.pow_succ_r by lia.
  destruct b; cbn [Z.b2z]; lia.
Qed.

Lemma testbit_value_lsb (bits : list bool) (i : nat) :
  Z.testbit (value_lsb bits) (Z.of_nat i) = nth i bits false.
Proof.
  revert i. induction bits as [|b bits IH]; intros i.
  - cbn [value_lsb]. rewrite Z.testbit_0_l. now destruct i.
  - cbn [value_lsb]. destruct i as [|i].
    + change (Z.of_nat 0) with 0. rewrite Z.add_comm, Z.testbit_0_r.
      reflexivity.
    + rewrite Nat2Z.inj_succ, Z.add_comm, Z.testbit_succ_r by lia.
      cbn [nth]. apply IH.
Qed.

(** The bits of an octet of the FIFO are the bits it was made of, with
    zeros above. *)
Lemma bits_lsb_value_lsb (bits : list bool) :
  (length bits <= 8)%nat ->
  bits_lsb (value_lsb bits) = bits ++ repeat false (8 - length bits).
Proof.
  intros Hlen. unfold bits_lsb.
  rewrite (map_ext _ (fun i => nth i bits false))
    by (intros i; apply testbit_value_lsb).
  do 9 (destruct bits as [|? bits]; [reflexivity|]).
  cbn [length] in Hlen. lia.
Qed.

End Bits.

Section Packing.

Lemma fifo_octets_nil (fuel : nat) : fifo_octets fuel [] = [].
Proof. now destruct fuel. Qed.

(** The octets of the FIFO, written bit by bit, are the bits received and
    fewer than eight bits of padding. *)
Lemma fifo_octets_bits (fuel : nat) (bits : list bool) :
  (length bits <= fuel)%nat ->
  exists pad,
    flat_map bits_lsb (fifo_octets fuel bits) = bits ++ pad
    /\ (length pad < 8)%nat.
Proof.
  revert bits. induction fuel as [|fuel IH]; intros bits Hlen.
  - destruct bits; [|cbn in Hlen; lia]. exists []. cbn. split; [reflexivity|lia].
  - destruct bits as [|b bits].
    { exists []. cbn. split; [reflexivity|lia]. }
    set (all := b :: bits) in *. cbn [fifo_octets].
    change (match all with [] => [] | _ :: _ =>
              value_lsb (firstn 8 all) :: fifo_octets fuel (skipn 8 all) end)
      with (value_lsb (firstn 8 all) :: fifo_octets fuel (skipn 8 all)).
    cbn [flat_map].
    rewrite bits_lsb_value_lsb by (rewrite length_firstn; lia).
    destruct (Nat.le_gt_cases 8 (length all)) as [Hfull|Hpart].
    + destruct (IH (skipn 8 all)) as (pad & Hpad & Hlt).
      { rewrite length_skipn. unfold all in *. cbn [length] in *. lia. }
      exists pad. split; [|exact Hlt].
      rewrite Hpad, length_firstn.
      replace (8 - Nat.min 8 (length all))%nat with 0%nat by lia.
      cbn [repeat]. rewrite app_nil_r, app_assoc, firstn_skipn. reflexivity.
    + exists (repeat false (8 - length all)).
      rewrite skipn_all2, fifo_octets_nil by lia.
      rewrite firstn_all2 by lia. cbn [flat_map]. rewrite app_nil_r.
      split; [reflexivity|]. rewrite repeat_length.
      unfold all. cbn [length]. lia.
Qed.

Lemma length_bits_lsb (octet : Z) : length (bits_lsb octet) = 8%nat.
Proof. reflexivity. Qed.

(** The reconstruction gives back the bytes of the frame, whatever the
    parity bits and the padding. *)
Lemma unpack_wire (frame : list (Z * bool)) (pad : list bool) :
  Forall is_byte (map fst frame) -> (length pad < 9)%nat ->
  unpack_bits (wire_bits frame ++ pad) = map fst frame.
Proof.
  intros Hb Hpad. induction frame as [|[octet parity] frame IH].
  - cbn. now apply unpack_bits_short.
  - cbn [map fst] in Hb. inversion Hb as [|? ? Ho Hrest]; subst.
    cbn [wire_bits flat_map map fst]. rewrite <- app_assoc.
    rewrite unpack_bits_run by (rewrite length_app; reflexivity).
    change (firstn 8 (bits_lsb octet ++ [parity])) with (bits_lsb octet).
    rewrite value_lsb_bits_lsb by assumption.
    f_equal. now apply IH.
Qed.

(** The round trip: what the driver reconstructs from the FIFO is the
    frame that was received. *)
Lemma tt1_unpack_fifo_pack (frame : list (Z * bool)) :
  Forall is_byte (map fst frame) ->
  Device.tt1_unpack (fifo_pack frame) = Ok (map fst frame).
Proof.
  intros Hb. rewrite tt1_unpack_bits. unfold fifo_pack.
  destruct (fifo_octets_bits (length (wire_bits frame)) (wire_bits frame))
    as (pad & -> & Hpad); [lia|].
  rewrite unpack_wire by (assumption || lia). reflexivity.
Qed.

End Packing.

Section Checksum.
Context `{Pn53x}.

Lemma crc_bytes_are_bytes (data : list Z) : Forall is_byte (crc_bytes data).
Proof.
  unfold crc_bytes, is_byte. repeat constructor.
  - apply Z.land_nonneg. lia.
  - change 255 with (Z.ones 8). rewrite Z.land_ones by lia.
    apply Z.mod_pos_bound. lia.
  - apply Z.land_nonneg. lia.
  - change 255 with (Z.ones 8). rewrite Z.land_ones by lia.
    apply Z.mod_pos_bound. lia.
Qed.

Lemma list_eqb_eq (a b : list Z) : list_eqb a b = true <-> a = b.
Proof.
  unfold list_eqb. destruct (list_eq_dec Z.eq_dec a b); split;
    congruence.
Qed.

(** The check compares the last two bytes with the checksum of the bytes
    before them. *)
Lemma check_crc_b_app2 (data : list Z) (x y : Z) :
  check_crc_b (data ++ [x; y]) = list_eqb [x; y] (crc_bytes data).
Proof.
  unfold check_crc_b, last2, drop_last2. rewrite length_app. cbn [length].
  replace (length data + 2 - 2)%nat with (length data) by lia.
  rewrite skipn_app, skipn_all, Nat.sub_diag. cbn [skipn app].
  rewrite firstn_app, firstn_all, Nat.sub_diag. cbn [firstn].
  now rewrite app_nil_r.
Qed.

Lemma check_crc_b_add_crc_b (data : list Z) :
  check_crc_b (add_crc_b data) = true.
Proof.
  unfold add_crc_b. unfold crc_bytes at 1. rewrite check_crc_b_app2.
  apply list_eqb_eq. reflexivity.
Qed.

Lemma drop_last2_add_crc_b (data : list Z) :
  drop_last2 (add_crc_b data) = data.
Proof.
  unfold drop_last2, add_crc_b. rewrite length_app. cbn [length crc_bytes].
  replace (length data + 2 - 2)%nat with (length data) by lia.
  rewrite firstn_app, firstn_all, Nat.sub_diag. cbn [firstn].
  now rewrite app_nil_r.
Qed.

End Checksum.

Section Regroup.

(** The low eight bits of a reversed run of nine, read as a number, are
    the value of its first eight bits. *)
Lemma low8_of_run (run : list bool) :
  length run = 9%nat ->
  Z.land (value_msb (rev run)) 255 = value_lsb (firstn 8 run).
Proof.
  intros Hlen. rewrite value_msb_rev.
  rewrite <- (firstn_skipn 8 run) at 1.
  assert (Hlast : exists b, skipn 8 run = [b]).
  { do 9 (destruct run as [|? run]; [discriminate|]).
    destruct run; [|discriminate]. eexists. reflexivity. }
  destruct Hlast as (b & ->).
  assert (Hsplit : forall l1 l2,
             value_lsb (l1 ++ l2) =
             value_lsb l1 + 2 ^ Z.of_nat (length l1) * value_lsb l2).
  { induction l1 as [|x l1 IH]; intros l2.
    - cbn [app value_lsb length Z.of_nat]. rewrite Z.pow_0_r. lia.
    - cbn [app value_lsb length]. rewrite IH, Nat2Z.inj_succ, Z.pow_succ_r by lia.
      lia. }
  rewrite Hsplit. pose proof (value_lsb_range (firstn 8 run)) as Hr.
  rewrite length_firstn, Hlen in *. change (Nat.min 8 9) with 8%nat in *.
  change 255 with (Z.ones 8). rewrite Z.land_ones by lia.
  change (Z.of_nat 8) with 8 in *.
  rewrite Z.mul_comm, Z.mod_add by lia. apply Z.mod_small. exact Hr.
Qed.

Lemma runs9_unpack (fuel : nat) (bits : list bool) :
  (length bits / 9 <= fuel)%nat ->
  map (fun run => Z.land (value_msb (rev run)) 255) (runs9 fuel bits) =
  unpack_bits bits.
Proof.
  revert bits. induction fuel as [|fuel IH]; intros bits Hfuel.
  - cbn [runs9 map]. symmetry. apply unpack_bits_short.
    apply Nat.div_small_iff; lia.
  - cbn [runs9]. destruct (Nat.leb_spec 9 (length bits)) as [Hfull|Hpart].
    + cbn [map]. rewrite <- (firstn_skipn 9 bits) at 3.
      assert (Hrun : length (firstn 9 bits) = 9%nat)
        by (rewrite length_firstn; lia).
      rewrite unpack_bits_run, low8_of_run by assumption. f_equal.
      apply IH. rewrite length_skipn.
      assert (length bits = 1 * 9 + (length bits - 9))%nat as E by lia.
      rewrite E, Nat.div_add_l in Hfuel by lia. lia.
    + symmetry. now apply unpack_bits_short.
Qed.

(** The driver's reconstruction is the regrouping in runs of nine, when
    the octets are written with their lowest bit first. *)
Lemma tt1_unpack_regroup (fifo : list Z) :
  Device.tt1_unpack fifo = Ok (regroup_unpack fifo).
Proof.
  rewrite tt1_unpack_bits. unfold regroup_unpack.
  rewrite runs9_unpack; [reflexivity|].
  apply Nat.Div0.div_le_upper_bound.
  pose proof (Nat.Div0.mul_div_le (length (flat_map bits_lsb fifo)) 9). nia.
Qed.

(** The natural-order reconstruction reads the bit-reversed octets as
    lines 323-324 read the octets themselves: the two differ by the order
    of the bits in each octet and by nothing else. *)
Lemma bits_msb_reverse_bits (octet : Z) :
  bits_msb (reverse_bits octet) = bits_lsb octet.
Proof.
  unfold bits_msb, reverse_bits.
  rewrite <- (rev_involutive (bits_lsb octet)) at 1.
  rewrite value_msb_rev, bits_lsb_value_lsb
    by (rewrite length_rev, length_bits_lsb; lia).
  rewrite length_rev, length_bits_lsb. cbn [Nat.sub repeat].
  now rewrite app_nil_r, rev_involutive.
Qed.

Lemma natural_unpack_reversed (fifo : list Z) :
  natural_unpack (map reverse_bits fifo) = regroup_unpack fifo.
Proof.
  unfold natural_unpack, regroup_unpack.
  assert (Hbits : flat_map bits_msb (map reverse_bits fifo) =
                  flat_map bits_lsb fifo).
  { induction fifo as [|octet fifo IH]; [reflexivity|].
    cbn [map flat_map]. now rewrite IH, bits_msb_reverse_bits. }
  now rewrite Hbits.
Qed.

End Regroup.

Section Corruption.

Lemma testbit_flip (octet : Z) (p i : nat) :
  Z.testbit (Z.lxor octet (Z.shiftl 1 (Z.of_nat p))) (Z.of_nat i) =
  xorb (Z.testbit octet (Z.of_nat i)) (p =? i)%nat.
Proof.
  rewrite Z.lxor_spec, Z.shiftl_1_l, Z.pow2_bits_eqb by lia.
  f_equal. destruct (Nat.eqb_spec p i), (Z.eqb_spec (Z.of_nat p) (Z.of_nat i));
    try reflexivity; lia.
Qed.

Lemma bits_lsb_flip (octet : Z) (p : nat) :
  (p < 8)%nat ->
  bits_lsb (Z.lxor octet (Z.shiftl 1 (Z.of_nat p))) =
  flip_nth p (bits_lsb octet).
Proof.
  intros Hp. unfold bits_lsb.
  rewrite (map_ext _ (fun i => xorb (Z.testbit octet (Z.of_nat i)) (p =? i)%nat))
    by (intros i; apply testbit_flip).
  do 8 (destruct p as [|p];
        [cbn [seq map flip_nth Nat.eqb];
         rewrite ?xorb_false_r, ?xorb_true_r; reflexivity|]).
  lia.
Qed.

Lemma flip_nth_app_l (pos : nat) (a b : list bool) :
  (pos < length a)%nat -> flip_nth pos (a ++ b) = flip_nth pos a ++ b.
Proof.
  revert pos. induction a as [|x a IH]; intros pos Hpos;
    [cbn in Hpos; lia|].
  destruct pos as [|pos]; [reflexivity|].
  cbn [app flip_nth]. rewrite IH by (cbn in Hpos; lia). reflexivity.
Qed.

Lemma flip_nth_app_r (pos : nat) (a b : list bool) :
  flip_nth (length a + pos) (a ++ b) = a ++ flip_nth pos b.
Proof.
  induction a as [|x a IH]; [reflexivity|].
  cbn [length Nat.add app flip_nth]. now rewrite IH.
Qed.

Lemma length_flip_nth (pos : nat) (bits : list bool) :
  length (flip_nth pos bits) = length bits.
Proof.
  revert pos. induction bits as [|b bits IH]; intros pos; [reflexivity|].
  destruct pos; cbn [flip_nth length]; [reflexivity | now rewrite IH].
Qed.

(** A bit of the FIFO inverted is a bit of the stream inverted. *)
Lemma flip_bit_bits (fifo : list Z) (pos : nat) :
  flat_map bits_lsb (flip_bit fifo pos) =
  flip_nth pos (flat_map bits_lsb fifo).
Proof.
  revert pos. induction fifo as [|octet fifo IH]; intros pos; [reflexivity|].
  cbn [flip_bit flat_map]. destruct (Nat.ltb_spec pos 8) as [Hlt|Hge].
  - cbn [flat_map]. rewrite bits_lsb_flip by assumption.
    now rewrite flip_nth_app_l by (rewrite length_bits_lsb; lia).
  - cbn [flat_map]. rewrite IH.
    replace pos with (length (bits_lsb octet) + (pos - 8))%nat at 2
      by (rewrite length_bits_lsb; lia).
    now rewrite flip_nth_app_r.
Qed.

Lemma nth_flip_nth (pos : nat) (bits : list bool) :
  (pos < length bits)%nat ->
  nth pos (flip_nth pos bits) false = negb (nth pos bits false).
Proof.
  revert pos. induction bits as [|b bits IH]; intros pos Hpos;
    [cbn in Hpos; lia|].
  destruct pos as [|pos]; [reflexivity|].
  cbn [flip_nth nth]. apply IH. cbn in Hpos. lia.
Qed.

(** An inverted bit changes the value. *)
Lemma value_lsb_flip_nth (pos : nat) (bits : list bool) :
  (pos < length bits)%nat ->
  value_lsb (flip_nth pos bits) <> value_lsb bits.
Proof.
  intros Hpos E.
  apply (f_equal (fun z => Z.testbit z (Z.of_nat pos))) in E.
  rewrite !testbit_value_lsb, nth_flip_nth in E by assumption.
  now destruct (nth pos bits false).
Qed.

Lemma firstn_run {A} (a b : list A) (n : nat) :
  length a = n -> firstn n (a ++ b) = a.
Proof.
  intros <-. rewrite firstn_app, firstn_all, Nat.sub_diag. cbn [firstn].
  apply app_nil_r.
Qed.

(** A data bit of byte [j] inverted on the way changes that byte of the
    reconstruction and no other. *)
Lemma unpack_wire_flip (frame : list (Z * bool)) (pad : list bool) (j i : nat) :
  Forall is_byte (map fst frame) -> (length pad < 9)%nat ->
  (j < length frame)%nat -> (i < 8)%nat ->
  exists octet',
    unpack_bits (flip_nth (9 * j + i) (wire_bits frame ++ pad)) =
    firstn j (map fst frame) ++ octet' :: skipn (S j) (map fst frame)
    /\ octet' <> nth j (map fst frame) 0.
Proof.
  intros Hb Hpad. revert j.
  induction frame as [|[octet parity] frame IH]; intros j Hj Hi;
    [cbn in Hj; lia|].
  cbn [map fst] in Hb. inversion Hb as [|? ? Ho Hrest]; subst.
  cbn [wire_bits flat_map map fst]. rewrite <- app_assoc.
  fold (wire_bits frame).
  destruct j as [|j].
  - exists (value_lsb (flip_nth i (bits_lsb octet))).
    rewrite Nat.mul_0_r, Nat.add_0_l.
    rewrite flip_nth_app_l by (rewrite length_app, length_bits_lsb; cbn; lia).
    rewrite flip_nth_app_l by (rewrite length_bits_lsb; lia).
    rewrite unpack_bits_run
      by (rewrite length_app, length_flip_nth, length_bits_lsb; reflexivity).
    rewrite firstn_run
      by (rewrite length_flip_nth, length_bits_lsb; reflexivity).
    cbn [firstn skipn app nth].
    rewrite unpack_wire by assumption. split; [reflexivity|].
    rewrite <- (value_lsb_bits_lsb octet) at 2 by assumption.
    apply value_lsb_flip_nth. rewrite length_bits_lsb. exact Hi.
  - destruct (IH Hrest j) as (octet' & Hflip & Hne);
      [cbn in Hj; lia | exact Hi |].
    exists octet'.
    replace (9 * S j + i)%nat
      with (length (bits_lsb octet ++ [parity]) + (9 * j + i))%nat
      by (rewrite length_app, length_bits_lsb; cbn [length]; lia).
    rewrite flip_nth_app_r.
    rewrite unpack_bits_run by (rewrite length_app; reflexivity).
    change (firstn 8 (bits_lsb octet ++ [parity])) with (bits_lsb octet).
    rewrite value_lsb_bits_lsb, Hflip by assumption.
    cbn [firstn skipn app nth]. split; [reflexivity | exact Hne].
Qed.

(** A parity bit inverted on the way changes nothing: the reconstruction
    drops the ninth bit of every run. *)
Lemma unpack_wire_flip_parity (frame : list (Z * bool)) (pad : list bool)
      (j : nat) :
  Forall is_byte (map fst frame) -> (length pad < 9)%nat ->
  (j < length frame)%nat ->
  unpack_bits (flip_nth (parity_bit_pos j) (wire_bits frame ++ pad)) =
  map fst frame.
Proof.
  intros Hb Hpad. unfold parity_bit_pos. revert j.
  induction frame as [|[octet parity] frame IH]; intros j Hj;
    [cbn in Hj; lia|].
  cbn [map fst] in Hb. inversion Hb as [|? ? Ho Hrest]; subst.
  cbn [wire_bits flat_map map fst]. rewrite <- app_assoc.
  fold (wire_bits frame).
  destruct j as [|j].
  - rewrite Nat.mul_0_r, Nat.add_0_l.
    change (flip_nth 8 ((bits_lsb octet ++ [parity]) ++ wire_bits frame ++ pad))
      with ((bits_lsb octet ++ [negb parity]) ++ wire_bits frame ++ pad).
    rewrite unpack_bits_run by (rewrite length_app; reflexivity).
    change (firstn 8 (bits_lsb octet ++ [negb parity])) with (bits_lsb octet).
    rewrite value_lsb_bits_lsb, unpack_wire by assumption. reflexivity.
  - replace (9 * S j + 8)%nat
      with (length (bits_lsb octet ++ [parity]) + (9 * j + 8))%nat
      by (rewrite length_app, length_bits_lsb; cbn [length]; lia).
    rewrite flip_nth_app_r.
    rewrite unpack_bits_run by (rewrite length_app; reflexivity).
    change (firstn 8 (bits_lsb octet ++ [parity])) with (bits_lsb octet).
    rewrite value_lsb_bits_lsb, IH by (assumption || (cbn in Hj; lia)).
    reflexivity.
Qed.

End Corruption.

Section Receive.
Context `{Pn53x}.
Import Device.

Lemma map_fst_combine {A B} (a : list A) (b : list B) :
  length b = length a -> map fst (combine a b) = a.
Proof.
  revert b. induction a as [|x a IH]; intros b Hlen; [reflexivity|].
  destruct b as [|y b]; [discriminate|].
  cbn [combine map fst]. f_equal. apply IH. now injection Hlen.
Qed.

Lemma add_crc_b_bytes (data : list Z) :
  Forall is_byte data -> Forall is_byte (add_crc_b data).
Proof.
  intros Hd. unfold add_crc_b. apply Forall_app. split;
    [assumption | apply crc_bytes_are_bytes].
Qed.

(** A frame with one byte of its checksum changed fails the check. *)
Lemma check_crc_b_damaged (data : list Z) (j : nat) (octet' : Z) :
  j = length data \/ j = S (length data) ->
  octet' <> nth j (add_crc_b data) 0 ->
  check_crc_b (firstn j (add_crc_b data) ++
               octet' :: skipn (S j) (add_crc_b data)) = false.
Proof.
  unfold add_crc_b. unfold crc_bytes at 1 2 3.
  set (c0 := Z.land (crc_16 data) 255).
  set (c1 := Z.land (Z.shiftr (crc_16 data) 8) 255).
  intros [-> | ->] Hne.
  - rewrite app_nth2, Nat.sub_diag in Hne by lia. cbn [nth] in Hne.
    rewrite firstn_app, firstn_all, Nat.sub_diag. cbn [firstn].
    rewrite app_nil_r, skipn_app, skipn_all2 by lia.
    replace (S (length data) - length data)%nat with 1%nat by lia.
    cbn [skipn app]. rewrite check_crc_b_app2.
    destruct (list_eqb [octet'; c1] (crc_bytes data)) eqn:E; [|reflexivity].
    apply list_eqb_eq in E. unfold crc_bytes in E. fold c0 c1 in E.
    congruence.
  - rewrite app_nth2 in Hne by lia.
    replace (S (length data) - length data)%nat with 1%nat in Hne by lia.
    cbn [nth] in Hne.
    rewrite firstn_app, firstn_all2 by lia.
    replace (S (length data) - length data)%nat with 1%nat by lia.
    rewrite skipn_all2 by (rewrite length_app; cbn [length]; lia).
    cbn [firstn]. rewrite <- app_assoc. cbn [app].
    rewrite check_crc_b_app2.
    destruct (list_eqb [c0; octet'] (crc_bytes data)) eqn:E; [|reflexivity].
    apply list_eqb_eq in E. unfold crc_bytes in E. fold c0 c1 in E.
    congruence.
Qed.

(** What the method returns when the chip goes through the transmission
    and has something in its FIFO. *)
Lemma tt1_bypass_reply (cmd_code : Z) (args : list Z) (timeout : Z)
      (w : world) (level : Z) (fifo : list Z) :
  ~ In cmd_code [0x00; 0x01; 0x1A; 0x53; 0x72; 0x10] ->
  level <> 0 -> level <> 1 ->
  delivers w (cmd_code :: args) level fifo ->
  fst (_tt1_send_cmd_recv_rsp (cmd_code :: args) timeout w) =
  (d <~ tt1_unpack fifo ;;
   if negb (check_crc_b d)
   then Raise (TransmissionError "crc_b check error")
   else Ok (drop_last2 d)).
Proof.
  intros Hc Hl Hl1 Hd. rewrite tt1_dispatch_bypass by assumption.
  rewrite (tt1_bitbang_run cmd_code args w level fifo Hd Hl1).
  destruct (Z.eqb_spec level 0); [contradiction | reflexivity].
Qed.

(** C1, amended: a reply of data bytes and their checksum, received with a
    parity bit after each byte and stored in the FIFO with the first
    received bit in the lowest bit of each octet, is reconstructed exactly
    by lines 323-324, which write each octet as its 8-bit binary string
    reversed (lowest bit first), concatenate, regroup into runs of nine,
    reverse each run and keep its low eight bits; the checksum verifies
    and the method returns the data bytes.  With any one of the sixteen
    bits of the checksum inverted in the FIFO the verification fails and
    the method raises [TransmissionError]. *)
Theorem tt1_receive_roundtrip (data : list Z) (parity : list bool) :
  Forall is_byte data ->
  length parity = length (add_crc_b data) ->
  let fifo := fifo_pack (combine (add_crc_b data) parity) in
  tt1_unpack fifo = Ok (add_crc_b data)
  /\ regroup_unpack fifo = add_crc_b data
  /\ check_crc_b (add_crc_b data) = true
  /\ (forall cmd_code args timeout w level,
         ~ In cmd_code [0x00; 0x01; 0x1A; 0x53; 0x72; 0x10] ->
         level <> 0 -> level <> 1 ->
         delivers w (cmd_code :: args) level fifo ->
         fst (_tt1_send_cmd_recv_rsp (cmd_code :: args) timeout w) = Ok data)
  /\ (forall k, (k < 16)%nat ->
         let corrupted := flip_bit fifo (crc_bit_pos (length data) k) in
         (exists damaged,
             tt1_unpack corrupted = Ok damaged
             /\ check_crc_b damaged = false)
         /\ forall cmd_code args timeout w level,
             ~ In cmd_code [0x00; 0x01; 0x1A; 0x53; 0x72; 0x10] ->
             level <> 0 -> level <> 1 ->
             delivers w (cmd_code :: args) level corrupted ->
             fst (_tt1_send_cmd_recv_rsp (cmd_code :: args) timeout w) =
             Raise (TransmissionError "crc_b check error")).
Proof.
  intros Hdata Hpar fifo.
  set (frame := combine (add_crc_b data) parity) in *.
  assert (Hfst : map fst frame = add_crc_b data)
    by now apply map_fst_combine.
  assert (Hbytes : Forall is_byte (map fst frame))
    by (rewrite Hfst; now apply add_crc_b_bytes).
  assert (Hunpack : tt1_unpack fifo = Ok (add_crc_b data))
    by (unfold fifo; now rewrite tt1_unpack_fifo_pack, Hfst).
  split; [exact Hunpack|]. split.
  { rewrite tt1_unpack_regroup in Hunpack. now injection Hunpack. }
  split; [apply check_crc_b_add_crc_b|]. split.
  { intros cmd_code args timeout w level Hc Hl Hl1 Hd.
    rewrite (tt1_bypass_reply cmd_code args timeout w level fifo) by assumption.
    rewrite Hunpack. cbn [rbind].
    now rewrite check_crc_b_add_crc_b, drop_last2_add_crc_b. }
  intros k Hk corrupted.
  assert (Hdamaged : exists damaged,
             tt1_unpack corrupted = Ok damaged
             /\ check_crc_b damaged = false).
  { unfold corrupted, fifo, fifo_pack. rewrite tt1_unpack_bits, flip_bit_bits.
    destruct (fifo_octets_bits (length (wire_bits frame)) (wire_bits frame))
      as (pad & -> & Hpad); [lia|].
    assert (Hq : (k / 8 < 2)%nat)
      by (apply Nat.Div0.div_lt_upper_bound; lia).
    assert (Hr : (k mod 8 < 8)%nat) by (apply Nat.mod_upper_bound; lia).
    assert (Hlen : length frame = (length data + 2)%nat).
    { unfold frame. rewrite length_combine, Hpar, Nat.min_id.
      unfold add_crc_b. rewrite length_app. reflexivity. }
    destruct (unpack_wire_flip frame pad (length data + k / 8) (k mod 8))
      as (octet' & Hflip & Hne); try assumption; try lia.
    unfold crc_bit_pos. rewrite Hflip, Hfst in *.
    eexists. split; [reflexivity|].
    apply check_crc_b_damaged; [lia | exact Hne]. }
  split; [exact Hdamaged|].
  intros cmd_code args timeout w level Hc Hl Hl1 Hd.
  destruct Hdamaged as (damaged & Hun & Hcheck).
  rewrite (tt1_bypass_reply cmd_code args timeout w level corrupted)
    by assumption.
  rewrite Hun. cbn [rbind]. now rewrite Hcheck.
Qed.

(** The parity bits are no part of what is verified: with the parity bit
    of any byte inverted in the FIFO the reconstruction is the same. *)
Lemma tt1_unpack_ignores_parity (data : list Z) (parity : list bool) (j : nat) :
  Forall is_byte data ->
  length parity = length (add_crc_b data) ->
  (j < length (add_crc_b data))%nat ->
  tt1_unpack (flip_bit (fifo_pack (combine (add_crc_b data) parity))
                       (parity_bit_pos j)) =
  Ok (add_crc_b data).
Proof.
  intros Hdata Hpar Hj.
  set (frame := combine (add_crc_b data) parity).
  assert (Hfst : map fst frame = add_crc_b data)
    by now apply map_fst_combine.
  unfold fifo_pack. rewrite tt1_unpack_bits, flip_bit_bits.
  destruct (fifo_octets_bits (length (wire_bits frame)) (wire_bits frame))
    as (pad & -> & Hpad); [lia|].
  rewrite unpack_wire_flip_parity, Hfst; try reflexivity; try lia.
  - rewrite Hfst. now apply add_crc_b_bytes.
  - unfold frame. rewrite length_combine, Hpar, Nat.min_id. exact Hj.
Qed.

End Receive.

(** A reply of nine bytes with all parity bits set, and the same with bit 3
    of its checksum inverted. *)
Lemma tt1_receive_roundtrip_witness :
  let data := [0x12; 1; 2; 3; 4; 5; 6; 7; 8] in
  let fifo := [18; 3; 10; 28; 72; 176; 160; 193; 131; 8; 93; 238; 4] in
  let cmd := [0x02; 0x12; 0; 0; 0; 0; 0; 0; 0; 0; 1; 2; 3; 4] in
  fifo_pack (combine (@add_crc_b iso_base data) (repeat true 11)) = fifo
  /\ Device.tt1_unpack fifo = Ok (data ++ [46; 59])
  /\ fst (@Device._tt1_send_cmd_recv_rsp iso_base cmd 1
            (World [] (fifo_chip fifo))) = Ok data
  /\ fst (@Device._tt1_send_cmd_recv_rsp iso_base cmd 1
            (World [] (fifo_chip (flip_bit fifo (crc_bit_pos 9 3))))) =
     Raise (TransmissionError "crc_b check error").
Proof.
  intros data fifo cmd.
  assert (Hbytes : Forall is_byte data)
    by (repeat constructor; unfold is_byte; lia).
  assert (Hlen : length (repeat true 11) = length (@add_crc_b iso_base data))
    by reflexivity.
  destruct (@tt1_receive_roundtrip iso_base data (repeat true 11) Hbytes Hlen)
    as (Hu & _ & _ & Hrun & Hbad).
  assert (Hc : ~ In 0x02 [0x00; 0x01; 0x1A; 0x53; 0x72; 0x10])
    by (simpl; intuition discriminate).
  assert (Hl : 13 <> 0) by discriminate.
  assert (Hl1 : 13 <> 1) by discriminate.
  split; [vm_compute; reflexivity|]. split; [exact Hu|]. split.
  - apply (Hrun 0x02 (tl cmd) 1 (World [] (fifo_chip fifo)) 13 Hc Hl Hl1).
    repeat split; try (exists []); vm_compute; reflexivity.
  - destruct (Hbad 3%nat ltac:(lia)) as (_ & Hraise).
    apply (Hraise 0x02 (tl cmd) 1
                  (World [] (fifo_chip (flip_bit fifo (crc_bit_pos 9 3))))
                  13 Hc Hl Hl1).
    repeat split; try (exists []); vm_compute; reflexivity.
Defined.

(** C1 as worded: on the bit-reversed packing of a reply of nine bytes
    and their checksum, the reconstruction with each octet expanded in
    natural order recovers the bytes, the driver's lines 323-324 do not and
    the method raises [TransmissionError]; on the packing the driver does
    recover the reply from, the natural-order reconstruction does not. *)
Lemma tt1_receive_natural_order_counterexample :
  let data := [0x12; 1; 2; 3; 4; 5; 6; 7; 8] in
  let frame := combine (@add_crc_b iso_base data) (repeat true 11) in
  let cmd := [0x02; 0x12; 0; 0; 0; 0; 0; 0; 0; 0; 1; 2; 3; 4] in
  natural_unpack (fifo_pack_reversed frame) = @add_crc_b iso_base data
  /\ Device.tt1_unpack (fifo_pack_reversed frame) <>
     Ok (@add_crc_b iso_base data)
  /\ fst (@Device._tt1_send_cmd_recv_rsp iso_base cmd 1
            (World [] (fifo_chip (fifo_pack_reversed frame)))) =
     Raise (TransmissionError "crc_b check error")
  /\ Device.tt1_unpack (fifo_pack frame) = Ok (@add_crc_b iso_base data)
  /\ natural_unpack (fifo_pack frame) <> @add_crc_b iso_base data.
Proof.
  intros data frame cmd.
  split; [vm_compute; reflexivity|].
  split; [vm_compute; discriminate|].
  split; [vm_compute; reflexivity|].
  split; [vm_compute; reflexivity|].
  vm_compute; discriminate.
Qed.


(** ** Chipset: what the commands send *)

Section ChipsetCommands.
Context `{Pn53x}.
Import Chipset.

Lemma index_some (x : Z) (t : list Z) :
  In x t -> exists i, index x t = Some i.
Proof.
  intros Hin. destruct (index x t) as [i|] eqn:E; [now exists i|].
  exfalso. now apply (index_none x t).
Qed.

Lemma str_index_nth_error (x : string) (t : list string) (i : nat) :
  str_index x t = Some i -> nth_error t i = Some x.
Proof.
  revert i. induction t as [|y t IH]; intros i; simpl; [discriminate|].
  destruct (String.eqb_spec y x) as [->|Hne].
  - intros [= <-]. reflexivity.
  - destruct (str_index x t) as [j|]; [|discriminate].
    intros [= <-]. simpl. now apply IH.
Qed.

Lemma str_index_some (x : string) (t : list string) :
  In x t -> exists i, str_index x t = Some i.
Proof.
  induction t as [|y t IH]; simpl; [tauto|].
  destruct (String.eqb_spec y x) as [->|Hne]; [eauto|].
  intros [E|Hin]; [congruence|].
  destruct (IH Hin) as (i & ->). eauto.
Qed.

Lemma str_index_none (x : string) (t : list string) :
  str_index x t = None -> ~ In x t.
Proof.
  induction t as [|y t IH]; simpl; [tauto|].
  destruct (String.eqb_spec y x) as [->|Hne]; [discriminate|].
  destruct (str_index x t); [discriminate|].
  intros _ [E|E]; [congruence | now apply IH].
Qed.

Lemma bytearray_bytes (ints : list Z) :
  Forall is_byte ints -> bytearray ints = Ok ints.
Proof.
  intros Hb. unfold bytearray.
  replace (forallb _ ints) with true; [reflexivity|].
  symmetry. apply forallb_forall. intros i Hi.
  rewrite Forall_forall in Hb. destruct (Hb i Hi) as [Hl Hu].
  apply Z.leb_le in Hl. apply Z.ltb_lt in Hu. now rewrite Hl, Hu.
Qed.

Lemma bytearray_not_bytes (ints : list Z) :
  ~ Forall is_byte ints -> bytearray ints = Raise ValueError.
Proof.
  intros Hb. unfold bytearray.
  destruct (forallb _ ints) eqn:E; [|reflexivity].
  exfalso. apply Hb. apply Forall_forall. intros i Hi.
  rewrite forallb_forall in E. specialize (E i Hi).
  apply andb_true_iff in E. destruct E as [Hl Hu].
  apply Z.leb_le in Hl. apply Z.ltb_lt in Hu. split; assumption.
Qed.

(** X1: a mode name that is none of the four, or a timeout that is no
    byte, makes [sam_configuration] raise [ValueError], and the chip has
    seen nothing. *)
Theorem sam_configuration_rejects
        (mode : string) (timeout : Z) (irq : bool) (w : world) :
  ~ In mode sam_modes \/ ~ is_byte timeout ->
  sam_configuration mode timeout irq w = (Raise ValueError, w).
Proof.
  intros Hbad. unfold sam_configuration.
  destruct (str_index mode sam_modes) as [i|] eqn:E; [|reflexivity].
  destruct Hbad as [Hm|Ht].
  - exfalso. apply Hm. apply str_index_nth_error in E.
    now apply nth_error_In in E.
  - rewrite bytearray_not_bytes; [reflexivity|].
    intros Hb. apply Ht. inversion Hb as [|? ? _ Hb']. now inversion Hb'.
Qed.

(** X2: for one of the four mode names and a byte timeout,
    [sam_configuration] sends one command 0x14 whose first payload byte is
    the 1-based position of the name, so the byte tells the mode; the
    timeout and the flag follow; the reply is dropped and an exception of
    the chip is passed on. *)
Theorem sam_configuration_sends
        (mode : string) (timeout : Z) (irq : bool) (w : world) :
  In mode sam_modes -> is_byte timeout ->
  exists i,
    nth_error sam_modes i = Some mode
    /\ 1 <= Z.of_nat i + 1 <= 4
    /\ let t := trace w ++ [Command 0x14 [Z.of_nat i + 1; timeout; Z.b2z irq]
                                    (Some 100)] in
       sam_configuration mode timeout irq w =
       (match chip w t with Ok _ => Ok tt | Raise e => Raise e end,
        World t (chip w)).
Proof.
  intros Hm Ht. destruct (str_index_some _ _ Hm) as (i & E).
  pose proof (str_index_nth_error _ _ _ E) as Hn.
  assert (Hi : (i < 4)%nat).
  { change 4%nat with (length sam_modes). apply nth_error_Some. congruence. }
  exists i. split; [exact Hn|]. split; [lia|].
  cbv zeta. unfold sam_configuration. rewrite E.
  rewrite bytearray_bytes.
  - unfold bind, lift, command, request, ret. cbn [trace chip].
    destruct (chip w _); reflexivity.
  - apply Forall_forall. intros x [<-|[<-|[<-|[]]]];
      [unfold is_byte; lia | exact Ht
      | destruct irq; unfold is_byte; cbn; lia].
Qed.

(** X3: for a rate of the table, [set_serial_baudrate] writes the ACK
    frame exactly when the chip has answered the command, and after it;
    when the command raises, nothing more is written. *)
Theorem set_serial_baudrate_ack (baudrate : Z) (w : world) :
  In baudrate br ->
  exists i,
    nth_error br i = Some baudrate
    /\ let t := trace w ++ [Command 0x10 [Z.of_nat i] (Some 100)] in
       set_serial_baudrate baudrate w =
       match chip w t with
       | Raise e => (Raise e, World t (chip w))
       | Ok _ =>
           (match chip w (t ++ [WriteFrame ACK]) with
            | Ok _ => Ok tt
            | Raise e => Raise e
            end,
            World (t ++ [WriteFrame ACK]) (chip w))
       end.
Proof.
  intros Hin. destruct (index_some _ _ Hin) as (i & E).
  pose proof (index_nth_error _ _ _ E) as Hn.
  assert (Hi : (i < 9)%nat).
  { change 9%nat with (length br). apply nth_error_Some. congruence. }
  exists i. split; [exact Hn|].
  cbv zeta. unfold set_serial_baudrate. rewrite E.
  rewrite chr_byte by (unfold is_byte; lia).
  unfold bind, lift, command, write_frame, request, ret. cbn [trace chip].
  destruct (chip w (trace w ++ _)); [|reflexivity].
  unfold bind. cbn [trace chip]. destruct (chip w _); reflexivity.
Qed.

(** X4: [power_down] sends one command 0x16 and nothing else; it returns
    when the reply starts with a zero status, raises a chipset error that
    carries the whole reply when the status is not zero, and raises
    [IndexError] on an empty reply. *)
Theorem power_down_status
        (wakeup_enable : list string) (generate_irq : bool) (w : world) :
  let t := trace w ++ [Command 0x16 [wakeup_set wakeup_enable;
                                     Z.b2z generate_irq] (Some 100)] in
  power_down wakeup_enable generate_irq w =
  (match chip w t with
   | Raise e => Raise e
   | Ok [] => Raise IndexError
   | Ok (status :: rest) =>
       if status =? 0 then Ok tt else Raise (ChipsetError (status :: rest))
   end,
   World t (chip w)).
Proof.
  cbv zeta. unfold power_down. rewrite bytearray_bytes.
  - unfold bind, lift, command, request, getitem, chipset_error, raise, ret.
    cbn [trace chip nth_error].
    destruct (chip w _) as [[|status rest]|e]; try reflexivity.
    cbn [nth_error]. destruct (status =? 0); reflexivity.
  - apply Forall_forall. intros x [<-|[<-|[]]];
      [apply wakeup_set_range
      | destruct generate_irq; unfold is_byte; cbn; lia].
Qed.

End ChipsetCommands.

Section TargetAndPoll.
Context `{Pn53x}.
Import Chipset.

(** X5: with more than fifteen target types [in_auto_poll] fails its
    assertion and the chip has seen nothing. *)
Theorem in_auto_poll_too_many_types
        (poll_nr period : Z) (types : list Z) (w : world) :
  (15 < length types)%nat ->
  in_auto_poll poll_nr period types w = (Raise AssertionError, w).
Proof.
  intros Hlen. unfold in_auto_poll, len.
  destruct (Z.leb_spec (Z.of_nat (length types)) 15); [lia | reflexivity].
Qed.

(** X6: with at most fifteen types, all arguments bytes, [in_auto_poll]
    sends one command 0x60 with the poll number, the period and the types
    as payload and the timeout [poll_nr * len(types) * period * 150 + 100];
    that is all the chip sees of the call, whatever becomes of the reply. *)
Theorem in_auto_poll_request
        (poll_nr period : Z) (types : list Z) (w : world) :
  (length types <= 15)%nat ->
  is_byte poll_nr -> is_byte period -> Forall is_byte types ->
  snd (in_auto_poll poll_nr period types w) =
  World (trace w ++
         [Command 0x60 (poll_nr :: period :: types)
                  (Some (poll_nr * Z.of_nat (length types) * period * 150
                         + 100))])
        (chip w).
Proof.
  intros Hlen Hp Hq Ht. unfold in_auto_poll, len.
  destruct (Z.leb_spec (Z.of_nat (length types)) 15); [|lia].
  cbn [negb]. rewrite (chr_byte _ Hp), (chr_byte _ Hq), (bytearray_bytes _ Ht).
  unfold bind, lift, command, request. cbn [trace chip app].
  destruct (chip w _); reflexivity.
Qed.

(** X7: a mode below 8, blocks of 6, 18 and 10 bytes and trailers shorter
    than 256 bytes make [tg_init_as_target] send one command 0x8C: the
    mode, the three blocks, then each trailer behind its length byte, 37
    bytes and the trailers in all; what the chip answers is returned as it
    is. *)
Theorem tg_init_as_target_payload
        (mode : Z) (mifare_params felica_params nfcid3t : list Z)
        (general_bytes historical_bytes : list Z) (timeout : option Z)
        (w : world) :
  0 <= mode < 8 ->
  length mifare_params = 6%nat -> length felica_params = 18%nat ->
  length nfcid3t = 10%nat ->
  (length general_bytes < 256)%nat -> (length historical_bytes < 256)%nat ->
  let payload :=
    mode :: mifare_params ++ felica_params ++ nfcid3t ++
    Z.of_nat (length general_bytes) :: general_bytes ++
    Z.of_nat (length historical_bytes) :: historical_bytes in
  let t := trace w ++ [Command 0x8c payload timeout] in
  length payload =
  (37 + length general_bytes + length historical_bytes)%nat
  /\ tg_init_as_target mode mifare_params felica_params nfcid3t
                       general_bytes historical_bytes timeout w =
     (chip w t, World t (chip w)).
Proof.
  intros Hm Ha Hf Hn Hg Hh payload t. split.
  - unfold payload. cbn [length]. rewrite !length_app. cbn [length].
    rewrite !length_app. cbn [length]. lia.
  - unfold tg_init_as_target, len. rewrite Ha, Hf, Hn. cbn [negb Z.of_nat].
    replace (Z.land mode 0xF8) with 0.
    + cbn. rewrite !chr_byte by (unfold is_byte; lia).
      unfold bind, lift, command, request. cbn [trace chip app].
      reflexivity.
    + assert (mode = 0 \/ mode = 1 \/ mode = 2 \/ mode = 3 \/ mode = 4 \/
              mode = 5 \/ mode = 6 \/ mode = 7) as Hcases by lia.
      intuition (subst; reflexivity).
Qed.

(** X8: a trailer of 256 bytes or more passes the assertions of
    [tg_init_as_target] and fails at its length byte: [ValueError], and the
    chip has seen nothing. *)
Theorem tg_init_as_target_long_trailer
        (mode : Z) (mifare_params felica_params nfcid3t : list Z)
        (general_bytes historical_bytes : list Z) (timeout : option Z)
        (w : world) :
  0 <= mode < 8 ->
  length mifare_params = 6%nat -> length felica_params = 18%nat ->
  length nfcid3t = 10%nat ->
  (256 <= length general_bytes)%nat \/ (256 <= length historical_bytes)%nat ->
  tg_init_as_target mode mifare_params felica_params nfcid3t
                    general_bytes historical_bytes timeout w =
  (Raise ValueError, w).
Proof.
  intros Hm Ha Hf Hn Hlong. unfold tg_init_as_target, len.
  rewrite Ha, Hf, Hn. cbn [negb Z.of_nat].
  replace (Z.land mode 0xF8) with 0.
  - cbn. rewrite (chr_byte mode) by (unfold is_byte; lia).
    unfold chr.
    destruct (Z.leb_spec 0 (Z.of_nat (length general_bytes)));
      destruct (Z.ltb_spec (Z.of_nat (length general_bytes)) 256);
      cbn [andb]; try reflexivity.
    destruct (Z.leb_spec 0 (Z.of_nat (length historical_bytes)));
      destruct (Z.ltb_spec (Z.of_nat (length historical_bytes)) 256);
      cbn [andb]; try reflexivity.
    lia.
  - assert (mode = 0 \/ mode = 1 \/ mode = 2 \/ mode = 3 \/ mode = 4 \/
            mode = 5 \/ mode = 6 \/ mode = 7) as Hcases by lia.
    intuition (subst; reflexivity).
Qed.

(** X9: [_init_as_target] takes the identifier from the first eight bytes
    of the 18-byte block and two zero bytes, so the identifier check cannot
    fail: a mode below 8 with blocks of 6 and 18 bytes is sent as command
    0x8C with empty trailers. *)
Theorem init_as_target_identifier
        (mode : Z) (tta_params ttf_params : list Z) (timeout : option Z)
        (w : world) :
  0 <= mode < 8 ->
  length tta_params = 6%nat -> length ttf_params = 18%nat ->
  let t := trace w ++
           [Command 0x8c (mode :: tta_params ++ ttf_params ++
                          firstn 8 ttf_params ++ [0; 0] ++ [0; 0]) timeout] in
  Device._init_as_target mode tta_params ttf_params timeout w =
  (chip w t, World t (chip w)).
Proof.
  intros Hm Ha Hf t. unfold Device._init_as_target, tg_init_as_target, len.
  assert (Hn : length (slice ttf_params 0 8 ++ [0; 0]) = 10%nat).
  { unfold slice. cbn [skipn Nat.sub]. rewrite length_app, length_firstn, Hf.
    reflexivity. }
  rewrite Ha, Hf, Hn. cbn [negb Z.of_nat].
  replace (Z.land mode 0xF8) with 0.
  - cbn. rewrite !chr_byte by (unfold is_byte; lia).
    unfold bind, lift, command, request. cbn [trace chip app].
    unfold t, slice. cbn [skipn Nat.sub app]. rewrite <- !app_assoc.
    reflexivity.
  - assert (mode = 0 \/ mode = 1 \/ mode = 2 \/ mode = 3 \/ mode = 4 \/
            mode = 5 \/ mode = 6 \/ mode = 7) as Hcases by lia.
    intuition (subst; reflexivity).
Qed.

End TargetAndPoll.

Section Catalog.
Context `{Pn53x}.
Import Chipset.

Lemma new_events_app (w w' : world) (l : list event) :
  trace w' = trace w ++ l -> new_events w w' = l.
Proof.
  intros E. unfold new_events. rewrite E, skipn_app, skipn_all, Nat.sub_diag.
  reflexivity.
Qed.

(** The commands that a call has sent all have the opcode that the
    catalog lists under [name]. *)
Ltac named_only :=
  cbn [snd trace chip];
  first
    [ apply new_events_app; symmetry; apply app_nil_r
    | apply new_events_app; reflexivity
    | apply new_events_app; rewrite <- app_assoc; reflexivity ].

Ltac run_command :=
  unfold write_frame, command, chipset_error;
  unfold bind, lift, request, ret, raise;
  cbn [trace chip];
  repeat (match goal with
          | |- context [match chip ?w ?t with _ => _ end] =>
              destruct (chip w t) as [[|? ?]|?]
          | |- context [if ?b then _ else _] => destruct b
          | |- context [match ?r with Ok _ => _ | Raise _ => _ end] =>
              destruct r
          end; cbn [trace chip]).

(** X10: every command that a method of the chipset sends carries the
    opcode that [CMD] lists under the method's name, for all arguments and
    every chip. *)
Theorem opcodes_match_catalog :
  (forall baudrate w,
      Forall (fun c => cmd_name CMD c = Some "SetSerialBaudrate"%string)
             (opcodes (new_events w (snd (set_serial_baudrate baudrate w)))))
  /\ (forall mode timeout irq w,
         Forall (fun c => cmd_name CMD c = Some "SAMConfiguration"%string)
                (opcodes (new_events w
                            (snd (sam_configuration mode timeout irq w)))))
  /\ (forall wakeup_enable generate_irq w,
         Forall (fun c => cmd_name CMD c = Some "PowerDown"%string)
                (opcodes (new_events w
                            (snd (power_down wakeup_enable generate_irq w)))))
  /\ (forall poll_nr period types w,
         Forall (fun c => cmd_name CMD c = Some "InAutoPoll"%string)
                (opcodes (new_events w
                            (snd (in_auto_poll poll_nr period types w)))))
  /\ (forall mode mifare felica nfcid3t general historical timeout w,
         Forall (fun c => cmd_name CMD c = Some "TgInitAsTarget"%string)
                (opcodes (new_events w
                            (snd (tg_init_as_target mode mifare felica nfcid3t
                                                    general historical
                                                    timeout w)))))
  /\ (forall data w,
         Forall (fun c => cmd_name CMD c = Some "ReadRegister"%string)
                (opcodes (new_events w (snd (_read_register data w)))))
  /\ (forall data w,
         Forall (fun c => cmd_name CMD c = Some "WriteRegister"%string)
                (opcodes (new_events w (snd (_write_register data w))))).
Proof.
  assert (Hsent : forall (name : string) (w w' : world) (l : list event),
             new_events w w' = l ->
             forallb (fun c => match cmd_name CMD c with
                               | Some n => String.eqb n name
                               | None => false
                               end) (opcodes l) = true ->
             Forall (fun c => cmd_name CMD c = Some name)
                    (opcodes (new_events w w'))).
  { intros name w w' l -> Hall. apply Forall_forall. intros c Hc.
    rewrite forallb_forall in Hall. specialize (Hall c Hc).
    destruct (cmd_name CMD c) as [n|]; [|discriminate].
    apply String.eqb_eq in Hall. now subst. }
  repeat split.
  - intros baudrate w. unfold set_serial_baudrate.
    destruct (index baudrate br) as [i|].
    + destruct (chr (Z.of_nat i)) as [payload|e] eqn:E.
      * run_command;
          (eapply Hsent; [named_only | reflexivity]).
      * run_command; (eapply Hsent; [named_only | reflexivity]).
    + run_command; (eapply Hsent; [named_only | reflexivity]).
  - intros mode timeout irq w. unfold sam_configuration.
    destruct (str_index mode sam_modes) as [i|].
    + destruct (bytearray _) as [payload|e];
        run_command; (eapply Hsent; [named_only | reflexivity]).
    + run_command; (eapply Hsent; [named_only | reflexivity]).
  - intros wakeup_enable generate_irq w. rewrite power_down_status.
    eapply Hsent; [named_only | reflexivity].
  - intros poll_nr period types w. unfold in_auto_poll.
    destruct (negb _).
    + run_command; (eapply Hsent; [named_only | reflexivity]).
    + destruct (chr poll_nr), (chr period), (bytearray types);
        run_command; (eapply Hsent; [named_only | reflexivity]).
  - intros mode mifare felica nfcid3t general historical timeout w.
    unfold tg_init_as_target.
    destruct (negb (Z.land mode 0xF8 =? 0)), (negb (len mifare =? 6)),
      (negb (len felica =? 18)), (negb (len nfcid3t =? 10));
      run_command; (eapply Hsent; [named_only | reflexivity]).
  - intros data w. unfold _read_register.
    run_command; (eapply Hsent; [named_only | reflexivity]).
  - intros data w. unfold _write_register.
    run_command; (eapply Hsent; [named_only | reflexivity]).
Qed.

End Catalog.

(** ** Device._tt1_send_cmd_recv_rsp: the other paths and bounds *)

Section Tt1Paths.
Context `{Pn53x}.
Import Device.

(** X11: a command that the firmware carries out goes to the chip as one
    data exchange with the bytes as they are, without checksum; no register
    is touched and what the exchange returns or raises is the result. *)
Theorem tt1_firmware_exchange
        (cmd_code : Z) (args : list Z) (timeout : Z) (w : world) :
  In cmd_code [0x00; 0x01; 0x1A; 0x53; 0x72] ->
  let t := trace w ++ [InDataExchange (cmd_code :: args) timeout] in
  _tt1_send_cmd_recv_rsp (cmd_code :: args) timeout w =
  (chip w t, World t (chip w)).
Proof.
  intros Hin t. unfold _tt1_send_cmd_recv_rsp. cbn [tt1_calls].
  unfold tt1_body at 1. unfold bind at 1. cbn [lift getitem nth_error].
  replace (existsb (Z.eqb cmd_code) [0x00; 0x01; 0x1A; 0x53; 0x72]) with true.
  - reflexivity.
  - symmetry. apply existsb_exists. exists cmd_code.
    split; [exact Hin | apply Z.eqb_refl].
Qed.

(** A command without bytes, and a segment read without its address
    byte, raise [IndexError]; the chip has seen nothing. *)
Lemma tt1_missing_bytes (timeout : Z) (w : world) :
  _tt1_send_cmd_recv_rsp [] timeout w = (Raise IndexError, w)
  /\ _tt1_send_cmd_recv_rsp [0x10] timeout w = (Raise IndexError, w).
Proof. split; reflexivity. Qed.

Lemma length_fifo_bits (fifo : list Z) :
  length (flat_map bits_lsb fifo) = (8 * length fifo)%nat.
Proof.
  induction fifo as [|octet fifo IH]; [reflexivity|].
  cbn [flat_map length]. rewrite length_app, IH, length_bits_lsb. lia.
Qed.

(** X12: when the chip reports a fill level other than one and answers
    the read of the FIFO with a sequence of [n] bytes, the reconstruction of
    lines 323-324 does not raise: it makes [8 * n / 9] bytes, each in the
    range of a byte, the bits of a last partial run being dropped, and the
    method returns them without the last two or raises
    [TransmissionError], as their checksum decides. *)
Theorem tt1_unpack_total
        (cmd_code : Z) (args : list Z) (timeout : Z) (w : world)
        (level : Z) (fifo : list Z) :
  ~ In cmd_code [0x00; 0x01; 0x1A; 0x53; 0x72; 0x10] ->
  level <> 0 -> level <> 1 ->
  Forall is_byte fifo ->
  delivers w (cmd_code :: args) level fifo ->
  exists bytes,
    tt1_unpack fifo = Ok bytes
    /\ length bytes = (8 * length fifo / 9)%nat
    /\ Forall is_byte bytes
    /\ fst (_tt1_send_cmd_recv_rsp (cmd_code :: args) timeout w) =
       if check_crc_b bytes then Ok (drop_last2 bytes)
       else Raise (TransmissionError "crc_b check error").
Proof.
  intros Hc Hl Hl1 _ Hd.
  exists (unpack_bits (flat_map bits_lsb fifo)).
  split; [apply tt1_unpack_bits|].
  assert (Hrun : fst (_tt1_send_cmd_recv_rsp (cmd_code :: args) timeout w) =
                 if check_crc_b (unpack_bits (flat_map bits_lsb fifo))
                 then Ok (drop_last2 (unpack_bits (flat_map bits_lsb fifo)))
                 else Raise (TransmissionError "crc_b check error")).
  { rewrite (tt1_bypass_reply cmd_code args timeout w level fifo)
      by assumption.
    rewrite tt1_unpack_bits. cbn [rbind].
    now destruct (check_crc_b (unpack_bits (flat_map bits_lsb fifo))). }
  split; [|split; [|exact Hrun]]; clear Hrun; unfold unpack_bits.
  { now rewrite length_map, length_seq, length_fifo_bits. }
  apply Forall_forall. intros b Hb. apply in_map_iff in Hb.
  destruct Hb as (k & <- & _).
  pose proof (value_lsb_range (slice (flat_map bits_lsb fifo) (9 * k)
                                     (9 * k + 8))) as Hr.
  assert (Hlen : (length (slice (flat_map bits_lsb fifo) (9 * k) (9 * k + 8))
                  <= 8)%nat).
  { unfold slice. rewrite length_firstn. lia. }
  unfold is_byte. split; [lia|].
  eapply Z.lt_le_trans; [apply Hr|].
  change 256 with (2 ^ 8). apply Z.pow_le_mono_r; lia.
Qed.

Lemma check_crc_b_frame (d : list Z) :
  check_crc_b d = true -> d = add_crc_b (drop_last2 d).
Proof.
  unfold check_crc_b, add_crc_b. intros E. apply list_eqb_eq in E.
  rewrite <- E. unfold drop_last2, last2. symmetry. apply firstn_skipn.
Qed.

(** X19: a fill level of one stops the method: line 322 then reads one
    register, which gives an integer, and line 323 cannot iterate over
    it. *)
Theorem tt1_single_octet_type_error
        (cmd_code : Z) (args : list Z) (timeout : Z) (w : world)
        (octet : Z) (more : list Z) :
  ~ In cmd_code [0x00; 0x01; 0x1A; 0x53; 0x72; 0x10] ->
  delivers w (cmd_code :: args) 1 (octet :: more) ->
  fst (_tt1_send_cmd_recv_rsp (cmd_code :: args) timeout w) = Raise TypeError.
Proof.
  intros Hc (H1 & H2 & (more' & H3) & H4).
  rewrite tt1_dispatch_bypass by assumption.
  rewrite tt1_bitbang_cases. cbv zeta. cbn [hd] in H1.
  destruct (chip w (trace w ++ _)); [|discriminate].
  destruct (chip w (tt1_sent w (cmd_code :: args))); [|discriminate].
  rewrite H3. change (1 =? 0) with false. cbv iota.
  rewrite <- app_assoc. cbn [app]. rewrite H4. reflexivity.
Qed.

(** X13: what the register path returns was in the FIFO with a checksum
    that verifies: when the call returns [rsp], the last thing the chip
    was asked is the read of the FIFO, and the octets it gave reconstruct
    to [rsp] followed by the checksum of [rsp]. *)
Theorem tt1_bypass_sound
        (cmd_code : Z) (args : list Z) (timeout : Z) (w : world)
        (rsp : list Z) :
  ~ In cmd_code [0x00; 0x01; 0x1A; 0x53; 0x72; 0x10] ->
  fst (_tt1_send_cmd_recv_rsp (cmd_code :: args) timeout w) = Ok rsp ->
  exists level fifo,
    level <> 0
    /\ trace (snd (_tt1_send_cmd_recv_rsp (cmd_code :: args) timeout w)) =
       tt1_sent w (cmd_code :: args) ++
       [ReadRegister ["CIU_FIFOLevel"%string];
        ReadRegister (repeat "CIU_FIFOData"%string (Z.to_nat level))]
    /\ chip w (trace (snd (_tt1_send_cmd_recv_rsp (cmd_code :: args)
                                                  timeout w))) = Ok fifo
    /\ tt1_unpack fifo = Ok (add_crc_b rsp).
Proof.
  intros Hc. rewrite tt1_dispatch_bypass by assumption.
  rewrite tt1_bitbang_cases. cbv zeta.
  destruct (chip w (trace w ++ _)) as [r1|e1]; [|discriminate].
  destruct (chip w (tt1_sent w (cmd_code :: args))) as [r2|e2];
    [|discriminate].
  destruct (chip w (tt1_sent w (cmd_code :: args) ++ _))
    as [[|level more]|e3]; try discriminate.
  destruct (Z.eqb_spec level 0) as [->|Hl]; [discriminate|].
  destruct (chip w ((tt1_sent w (cmd_code :: args) ++ _) ++ _))
    as [fifo|e4] eqn:E4; [|discriminate].
  cbn [fst snd trace]. intros Hr. exists level, fifo.
  split; [exact Hl|]. rewrite <- app_assoc. cbn [app].
  rewrite <- app_assoc in E4. cbn [app] in E4.
  split; [reflexivity|]. split; [exact E4|].
  destruct (fifo_sequence level fifo) as [octets|e] eqn:Eseq; [|discriminate].
  apply fifo_sequence_ok in Eseq. destruct Eseq as (_ & ->).
  cbn [rbind] in Hr.
  destruct (tt1_unpack fifo) as [d|e5]; [|discriminate].
  cbn [rbind] in Hr. destruct (check_crc_b d) eqn:Ecrc; [|discriminate].
  cbn [negb] in Hr. injection Hr as <-. f_equal.
  now apply check_crc_b_frame.
Qed.

(** X14: one command through the registers costs the chip at most four
    requests, however long the command: the batch of writes that transmits
    it, three writes for each byte of command and checksum and three more,
    the parity write and two reads. *)
Theorem tt1_bypass_requests
        (cmd_code : Z) (args : list Z) (timeout : Z) (w : world) :
  ~ In cmd_code [0x00; 0x01; 0x1A; 0x53; 0x72; 0x10] ->
  exists regs rest,
    new_events w (snd (_tt1_send_cmd_recv_rsp (cmd_code :: args) timeout w))
    = WriteRegister regs :: rest
    /\ length regs = (3 * length (cmd_code :: args) + 9)%nat
    /\ (length (requests (WriteRegister regs :: rest)) <= 4)%nat.
Proof.
  intros Hc. rewrite tt1_dispatch_bypass by assumption.
  exists (tt1_register_write (add_crc_b (cmd_code :: args)) cmd_code).
  assert (Hregs : length (tt1_register_write (add_crc_b (cmd_code :: args))
                                             cmd_code) =
                  (3 * length (cmd_code :: args) + 9)%nat).
  { unfold add_crc_b. cbn [app]. rewrite tt1_register_write_bytes.
    rewrite !length_app. cbn [length].
    assert (Hflat : forall l : list Z,
               length (flat_map (fun octet =>
                                   [("CIU_FIFOData"%string, octet);
                                    ("CIU_Command"%string, 0x04);
                                    ("CIU_Command"%string, 0x07)]) l) =
               (3 * length l)%nat).
    { induction l as [|x l IH]; [reflexivity|].
      cbn [flat_map length app]. rewrite IH. lia. }
    rewrite Hflat, length_app. cbn [length crc_bytes]. lia. }
  rewrite tt1_bitbang_cases. cbv zeta. unfold tt1_sent. cbn [hd].
  set (first := WriteRegister _).
  set (W := WriteRegister [("CIU_ManualRCV", 0x20)]%string).
  set (R := ReadRegister ["CIU_FIFOLevel"%string]).
  assert (Hs : forall more : list event,
             (length (requests more) <= 2)%nat ->
             (length (requests (first :: tt1_sleeps cmd_code ++ W :: more))
              <= 4)%nat).
  { intros more Hm. unfold tt1_sleeps, requests in *.
    destruct (cmd_code =? 0x54), (cmd_code =? 0x1B); cbn in *; lia. }
  destruct (chip w (trace w ++ [first])) as [r1|e1].
  2:{ exists []. cbn [snd]. split; [|split; [exact Hregs | cbn; lia]].
      now apply new_events_app. }
  destruct (chip w (trace w ++ [first] ++ tt1_sleeps cmd_code ++ [W]))
    as [r2|e2].
  2:{ exists (tt1_sleeps cmd_code ++ [W]). cbn [snd].
      split; [|split; [exact Hregs | apply Hs; cbn; lia]].
      now apply new_events_app. }
  assert (Hnew : forall more c,
             new_events w
               (World ((trace w ++ [first] ++ tt1_sleeps cmd_code ++ [W])
                         ++ more) c) =
             first :: tt1_sleeps cmd_code ++ W :: more).
  { intros more c. apply new_events_app. cbn [trace].
    rewrite <- !app_assoc. reflexivity. }
  destruct (chip w ((trace w ++ [first] ++ tt1_sleeps cmd_code ++ [W]) ++ [R]))
    as [[|level more]|e3];
    try (exists (tt1_sleeps cmd_code ++ [W; R]); cbn [snd];
         rewrite Hnew;
         split; [reflexivity | split; [exact Hregs | apply Hs; cbn; lia]]).
  destruct (level =? 0);
    try (exists (tt1_sleeps cmd_code ++ [W; R]); cbn [snd];
         rewrite Hnew;
         split; [reflexivity | split; [exact Hregs | apply Hs; cbn; lia]]).
  set (R' := ReadRegister _).
  exists (tt1_sleeps cmd_code ++ [W; R; R']).
  destruct (chip w (((trace w ++ [first] ++ tt1_sleeps cmd_code ++ [W])
                       ++ [R]) ++ [R'])); cbn [snd];
    rewrite <- (app_assoc _ [R] [R']); cbn [app]; rewrite Hnew;
    (split; [reflexivity | split; [exact Hregs | apply Hs; cbn; lia]]).
Qed.

End Tt1Paths.

Section SegmentBounds.
Context `{Pn53x}.
Import Device.

Lemma payload_at_most (replies : list (list Z)) :
  (length (flat_map (fun r => slice r 1 9) replies) <= 8 * length replies)%nat.
Proof.
  induction replies as [|r replies IH]; [cbn; lia|].
  cbn [flat_map length]. rewrite length_app. unfold slice at 1.
  rewrite length_firstn. lia.
Qed.

(** X15: a segment read that returns gives the address byte of the
    command first and at most 128 bytes after it, whatever the replies to
    the block reads were. *)
Theorem segment_read_size
        (adds : Z) (tail : list Z) (timeout : Z) (w : world) (rsp : list Z) :
  is_byte adds ->
  fst (_tt1_send_cmd_recv_rsp (0x10 :: adds :: tail) timeout w) = Ok rsp ->
  hd_error rsp = Some adds /\ (1 <= length rsp <= 129)%nat.
Proof.
  intros Ha. rewrite segment_read_as_blocks by assumption.
  unfold bind, ret.
  destruct (read_blocks_trace
              (map (fun k => Z.shiftr adds 4 * 16 + Z.of_nat k) (seq 0 16))
              tail w) as (new & sent & _ & _ & _ & _ & Hok).
  destruct (read_blocks _ tail w) as [[replies|e] w1]; cbn [fst];
    [|discriminate].
  intros [= <-]. destruct (Hok replies eq_refl) as [_ Hlen].
  split; [reflexivity|]. cbn [length].
  pose proof (payload_at_most replies) as Hp.
  rewrite Hlen in Hp. cbn [length map seq] in Hp. lia.
Qed.

(** X16: only the high half of the address byte chooses what a segment
    read reads: two address bytes with the same high half give the same
    chip accesses and the same bytes after the first, which is the address
    byte itself. *)
Theorem segment_read_low_half
        (adds adds' : Z) (tail : list Z) (timeout : Z) (w : world) :
  is_byte adds -> is_byte adds' ->
  Z.shiftr adds 4 = Z.shiftr adds' 4 ->
  exists (payload : result (list Z)) (w' : world),
    _tt1_send_cmd_recv_rsp (0x10 :: adds :: tail) timeout w =
    (p <~ payload ;; Ok (adds :: p), w')
    /\ _tt1_send_cmd_recv_rsp (0x10 :: adds' :: tail) timeout w =
       (p <~ payload ;; Ok (adds' :: p), w').
Proof.
  intros Ha Ha' Hhigh. rewrite !segment_read_as_blocks by assumption.
  rewrite <- Hhigh. unfold bind, ret.
  destruct (read_blocks _ tail w) as [[replies|e] w1].
  - exists (Ok (flat_map (fun r => slice r 1 9) replies)), w1.
    split; reflexivity.
  - exists (Raise e), w1. split; reflexivity.
Qed.

End SegmentBounds.

(** ** Device.old_sense_dep: the reply of a passive target *)

Section OldSenseDep.
Import Device.

Lemma nth_setitem_same (l : list Z) (i : nat) (v : Z) :
  (i < length l)%nat -> nth i (setitem l i v) 0 = v.
Proof.
  revert i. induction l as [|x l IH]; intros i Hi; [cbn in Hi; lia|].
  destruct i as [|i]; [reflexivity|]. cbn [setitem nth]. apply IH.
  cbn in Hi. lia.
Qed.

Lemma nth_setitem_other (l : list Z) (i j : nat) (v : Z) :
  i <> j -> nth j (setitem l i v) 0 = nth j l 0.
Proof.
  revert i j. induction l as [|x l IH]; intros i j Hne;
    [now destruct i|].
  destruct i as [|i], j as [|j]; cbn [setitem nth]; try reflexivity;
    [lia | apply IH; lia].
Qed.

Lemma length_setitem (l : list Z) (i : nat) (v : Z) :
  length (setitem l i v) = length l.
Proof.
  revert i. induction l as [|x l IH]; intros i; [now destruct i|].
  destruct i; cbn [setitem length]; [reflexivity | now rewrite IH].
Qed.

Lemma lr_bits_patched (b : Z) :
  Z.land (Z.lor (Z.land b 0xCF) 0x20) 0x30 = 0x20
  /\ Z.land (Z.lor (Z.land b 0xCF) 0x20) 0xCF = Z.land b 0xCF.
Proof.
  split.
  - rewrite Z.land_lor_distr_l, <- Z.land_assoc.
    change (Z.land 0xCF 0x30) with 0. change (Z.land 0x20 0x30) with 0x20.
    now rewrite Z.land_0_r.
  - rewrite Z.land_lor_distr_l, <- Z.land_assoc.
    change (Z.land 0xCF 0xCF) with 0xCF. change (Z.land 0x20 0xCF) with 0.
    now rewrite Z.lor_0_r.
Qed.

(** A byte has no bit above its eight. *)
Lemma byte_high_bits (b k : Z) :
  is_byte b -> 8 <= k -> Z.testbit b k = false.
Proof.
  intros [Hlo Hhi] Hk. destruct (Z.eq_dec b 0) as [->|Hne].
  - apply Z.testbit_0_l.
  - apply Z.bits_above_log2; [exact Hlo|].
    assert (Z.log2 b < 8); [|lia].
    apply Z.log2_lt_pow2; [lia|]. exact Hhi.
Qed.

Lemma bit_cases (k : Z) :
  0 <= k ->
  k = 0 \/ k = 1 \/ k = 2 \/ k = 3 \/ k = 4 \/ k = 5 \/ k = 6 \/ k = 7
  \/ 8 <= k.
Proof. lia. Qed.

(** The test of line 257: both bits of 0x30 are set. *)
Lemma lr_both_set (b : Z) :
  Z.land b 0x30 = 0x30 <->
  Z.testbit b 4 = true /\ Z.testbit b 5 = true.
Proof.
  split.
  - intros E.
    pose proof (f_equal (fun z => Z.testbit z 4) E) as E4.
    pose proof (f_equal (fun z => Z.testbit z 5) E) as E5.
    cbv beta in E4, E5. rewrite Z.land_spec in E4, E5.
    change (Z.testbit 0x30 4) with true in E4.
    change (Z.testbit 0x30 5) with true in E5.
    rewrite andb_true_r in E4, E5. now split.
  - intros [H4 H5]. apply Z.bits_inj'. intros k Hk.
    rewrite Z.land_spec.
    destruct (bit_cases k Hk)
      as [->|[->|[->|[->|[->|[->|[->|[->|Hhigh]]]]]]]];
      rewrite ?H4, ?H5;
      try (repeat match goal with
                  | |- context [Z.testbit b ?n] =>
                      generalize (Z.testbit b n); intros []
                  end; reflexivity).
    assert (Hc : Z.testbit 0x30 k = false)
      by (apply Z.bits_above_log2; [lia | change (Z.log2 0x30) with 5; lia]).
    rewrite Hc. apply andb_false_r.
Qed.

(** The patch of line 258 on a byte that has both bits: bit 4 is cleared
    and every other bit is as it was. *)
Lemma lr_patched_bits (b k : Z) :
  is_byte b -> 0 <= k ->
  Z.testbit b 4 = true -> Z.testbit b 5 = true ->
  Z.testbit (Z.lor (Z.land b 0xCF) 0x20) k =
  if k =? 4 then false else Z.testbit b k.
Proof.
  intros Hb Hk H4 H5. rewrite Z.lor_spec, Z.land_spec.
  destruct (bit_cases k Hk)
    as [->|[->|[->|[->|[->|[->|[->|[->|Hhigh]]]]]]]];
    rewrite ?H4, ?H5;
    try (repeat match goal with
                | |- context [Z.testbit b ?n] =>
                    generalize (Z.testbit b n); intros []
                end; reflexivity).
  rewrite (byte_high_bits b k Hb Hhigh).
  assert (Hc : Z.testbit 0x20 k = false)
    by (apply Z.bits_above_log2; [lia | change (Z.log2 0x20) with 5; lia]).
  rewrite Hc. destruct (Z.eqb_spec k 4); [lia | reflexivity].
Qed.

(** X17: at 106 kbps the response taken from a reply is the reply behind
    its first two bytes with one bit patched: bit 4 of byte 16 is cleared
    when bits 4 and 5 were both set, and is kept otherwise; bit 5 and every
    other bit of the byte are kept, so the byte never has both bits of 0x30
    set, and no other byte is changed.  A reply too short to have that byte
    is an [IndexError].  The target returned always has the bit rate of
    [self.target]. *)
Theorem old_sense_dep_reply_length_reduction
        (self_bitrate : Z) (tg : dep_target) (data : list Z) :
  bitrate tg = 106 ->
  Forall is_byte data ->
  match old_sense_dep_reply self_bitrate tg data with
  | Raise e => e = IndexError /\ (length data <= 18)%nat
  | Ok tg' =>
      (18 < length data)%nat
      /\ bitrate tg' = self_bitrate
      /\ atr_req tg' = atr_req tg
      /\ length (atr_res tg') = (length data - 2)%nat
      /\ Z.land (nth 16 (atr_res tg') 0) 0x30 <> 0x30
      /\ Z.land (nth 16 (atr_res tg') 0) 0xCF =
         Z.land (nth 18 data 0) 0xCF
      /\ (forall k, 0 <= k ->
             Z.testbit (nth 16 (atr_res tg') 0) k =
             if k =? 4
             then Z.testbit (nth 18 data 0) 4
                  && negb (Z.testbit (nth 18 data 0) 5)
             else Z.testbit (nth 18 data 0) k)
      /\ forall i, i <> 16%nat ->
                   nth i (atr_res tg') 0 = nth (2 + i) data 0
  end.
Proof.
  intros Hbr Hbytes. unfold old_sense_dep_reply. rewrite Hbr, Z.eqb_refl.
  assert (Hrate : (if negb (106 =? self_bitrate) then self_bitrate else 106)
                  = self_bitrate).
  { destruct (Z.eqb_spec 106 self_bitrate); cbn; congruence. }
  assert (Hnth : forall i, nth i (skipn 2 data) 0 = nth (2 + i) data 0).
  { intros i. apply nth_skipn. }
  unfold getitem.
  destruct (nth_error (skipn 2 data) 16) as [b|] eqn:E.
  - assert (Hlen : (16 < length (skipn 2 data))%nat)
      by (apply nth_error_Some; congruence).
    assert (Hb : nth 16 (skipn 2 data) 0 = b)
      by now apply nth_error_nth.
    assert (Hbyte : is_byte b).
    { apply nth_error_In in E.
      assert (Hin : In b data)
        by (rewrite <- (firstn_skipn 2 data); apply in_or_app; now right).
      revert Hin. now apply Forall_forall. }
    rewrite length_skipn in Hlen. cbn [rbind].
    destruct (Z.eqb_spec (Z.land b 0x30) 0x30) as [Hlr|Hlr];
      cbn [rbind bitrate atr_req atr_res]; rewrite Hrate.
    + split; [lia|]. split; [reflexivity|]. split; [reflexivity|].
      rewrite length_setitem, length_skipn. split; [reflexivity|].
      rewrite nth_setitem_same by (rewrite length_skipn; lia).
      destruct (lr_bits_patched b) as [H30 HCF]. rewrite H30, HCF.
      split; [discriminate|].
      split; [change 18%nat with (2 + 16)%nat; now rewrite <- Hnth, Hb|].
      split.
      * intros k Hk. change 18%nat with (2 + 16)%nat. rewrite <- Hnth, Hb.
        apply lr_both_set in Hlr. destruct Hlr as [H4 H5].
        rewrite lr_patched_bits, H4, H5 by assumption. reflexivity.
      * intros i Hi. rewrite nth_setitem_other by congruence. apply Hnth.
    + split; [lia|]. split; [reflexivity|]. split; [reflexivity|].
      rewrite length_skipn. split; [reflexivity|]. rewrite Hb.
      split; [exact Hlr|].
      split; [change 18%nat with (2 + 16)%nat; now rewrite <- Hnth, Hb|].
      split.
      * intros k Hk. change 18%nat with (2 + 16)%nat. rewrite <- Hnth, Hb.
        destruct (Z.eqb_spec k 4) as [->|_]; [|reflexivity].
        destruct (Z.testbit b 4) eqn:H4; [|reflexivity].
        destruct (Z.testbit b 5) eqn:H5; [|reflexivity].
        exfalso. apply Hlr, lr_both_set. now split.
      * intros i _. apply Hnth.
  - cbn [rbind]. split; [reflexivity|].
    apply nth_error_None in E. rewrite length_skipn in E. lia.
Qed.

(** X18: at any other bit rate the response is the reply behind its first
    byte, unchanged and of any length, and the target returned has the bit
    rate of [self.target]. *)
Theorem old_sense_dep_reply_other_rates
        (self_bitrate : Z) (tg : dep_target) (data : list Z) :
  bitrate tg <> 106 ->
  old_sense_dep_reply self_bitrate tg data =
  Ok (DepTarget self_bitrate (atr_req tg) (skipn 1 data)).
Proof.
  intros Hbr. unfold old_sense_dep_reply.
  destruct (Z.eqb_spec (bitrate tg) 106); [contradiction|].
  cbn [rbind]. f_equal. f_equal.
  destruct (Z.eqb_spec (bitrate tg) self_bitrate); cbn; congruence.
Qed.

End OldSenseDep.

(** ** The theorems above at concrete inputs *)

(** An unknown mode name, and a timeout of 256. *)
Lemma sam_configuration_rejects_witness :
  Chipset.sam_configuration "secure" 0 false (World [] (reply_chip [])) =
  (Raise ValueError, World [] (reply_chip []))
  /\ Chipset.sam_configuration "normal" 256 false (World [] (reply_chip [])) =
     (Raise ValueError, World [] (reply_chip [])).
Proof.
  split; apply sam_configuration_rejects.
  - left. simpl. intuition discriminate.
  - right. unfold is_byte. lia.
Defined.

(** The mode "wired" with no timeout. *)
Lemma sam_configuration_sends_witness :
  exists i,
    nth_error Chipset.sam_modes i = Some "wired"%string
    /\ Chipset.sam_configuration "wired" 0 false (World [] (reply_chip [])) =
       (Ok tt,
        World [Command 0x14 [Z.of_nat i + 1; 0; 0] (Some 100)]
              (reply_chip [])).
Proof.
  assert (Hin : In "wired"%string Chipset.sam_modes) by (simpl; tauto).
  assert (Hb : is_byte 0) by (unfold is_byte; lia).
  destruct (sam_configuration_sends "wired" 0 false
              (World [] (reply_chip [])) Hin Hb) as (i & Hn & _ & Hrun).
  exists i. split; [exact Hn | exact Hrun].
Defined.

(** The rate that [Device.__init__] asks for. *)
Lemma set_serial_baudrate_ack_witness :
  exists i,
    nth_error Chipset.br i = Some 921600
    /\ @Chipset.set_serial_baudrate iso_base 921600
         (World [] (reply_chip [])) =
       (Ok tt,
        World [Command 0x10 [Z.of_nat i] (Some 100);
               WriteFrame [0x00; 0x00; 0xFF; 0x00; 0xFF; 0x00]]
              (reply_chip [])).
Proof.
  assert (Hin : In 921600 Chipset.br) by (simpl; tauto).
  destruct (@set_serial_baudrate_ack iso_base 921600
              (World [] (reply_chip [])) Hin) as (i & Hn & Hrun).
  exists i. split; [exact Hn | exact Hrun].
Defined.

(** Sixteen types. *)
Lemma in_auto_poll_too_many_types_witness :
  Chipset.in_auto_poll 1 1 (repeat 0x10 16) (World [] (reply_chip [])) =
  (Raise AssertionError, World [] (reply_chip [])).
Proof.
  apply in_auto_poll_too_many_types. simpl. lia.
Defined.

(** Two polls of two types with period 3. *)
Lemma in_auto_poll_request_witness :
  snd (Chipset.in_auto_poll 2 3 [0x10; 0x20] (World [] (reply_chip [0]))) =
  World [Command 0x60 [2; 3; 0x10; 0x20] (Some 1900)] (reply_chip [0]).
Proof.
  apply (in_auto_poll_request 2 3 [0x10; 0x20] (World [] (reply_chip [0]))).
  - simpl. lia.
  - unfold is_byte. lia.
  - unfold is_byte. lia.
  - repeat constructor; unfold is_byte; lia.
Defined.

(** General bytes of two and historical bytes of one byte. *)
Lemma tg_init_as_target_payload_witness :
  Chipset.tg_init_as_target 1 (repeat 0xA 6) (repeat 0xB 18) (repeat 0xC 10)
                            [0x46; 0x66] [0x80] None
                            (World [] (reply_chip [0])) =
  (Ok [0],
   World [Command 0x8c
            (1 :: repeat 0xA 6 ++ repeat 0xB 18 ++ repeat 0xC 10 ++
             [2; 0x46; 0x66] ++ [1; 0x80]) None]
         (reply_chip [0])).
Proof.
  apply (tg_init_as_target_payload 1 (repeat 0xA 6) (repeat 0xB 18)
           (repeat 0xC 10) [0x46; 0x66] [0x80] None
           (World [] (reply_chip [0])));
    try reflexivity; simpl; lia.
Defined.

(** General bytes of 256 bytes. *)
Lemma tg_init_as_target_long_trailer_witness :
  Chipset.tg_init_as_target 1 (repeat 0 6) (repeat 0 18) (repeat 0 10)
                            (repeat 0 256) [] None
                            (World [] (reply_chip [0])) =
  (Raise ValueError, World [] (reply_chip [0])).
Proof.
  apply tg_init_as_target_long_trailer; try reflexivity; try lia.
  left. rewrite repeat_length. lia.
Defined.

(** A Type F block that starts with 01 FE. *)
Lemma init_as_target_identifier_witness :
  Device._init_as_target 2 (repeat 0xA 6) ([0x01; 0xFE] ++ repeat 0xB 16) None
                         (World [] (reply_chip [0])) =
  (Ok [0],
   World [Command 0x8c
            (2 :: repeat 0xA 6 ++ ([0x01; 0xFE] ++ repeat 0xB 16) ++
             ([0x01; 0xFE] ++ repeat 0xB 6) ++ [0; 0] ++ [0; 0]) None]
         (reply_chip [0])).
Proof.
  apply (init_as_target_identifier 2 (repeat 0xA 6)
           ([0x01; 0xFE] ++ repeat 0xB 16) None (World [] (reply_chip [0])));
    try reflexivity; lia.
Defined.

(** WRITE-NE, which the firmware knows. *)
Lemma tt1_firmware_exchange_witness :
  @Device._tt1_send_cmd_recv_rsp iso_base [0x1A; 0x08; 0x55] 1
    (World [] (reply_chip [0x08; 0x55])) =
  (Ok [0x08; 0x55],
   World [InDataExchange [0x1A; 0x08; 0x55] 1] (reply_chip [0x08; 0x55])).
Proof.
  apply (@tt1_firmware_exchange iso_base 0x1A [0x08; 0x55] 1
           (World [] (reply_chip [0x08; 0x55]))).
  simpl. tauto.
Defined.

(** READ8 of block 0x12 on a chip whose FIFO holds the reply and its
    checksum. *)
Lemma tt1_bypass_sound_witness :
  exists level fifo,
    level <> 0
    /\ Device.tt1_unpack fifo =
       Ok (@add_crc_b iso_base [0x12; 1; 2; 3; 4; 5; 6; 7; 8]).
Proof.
  assert (Hc : ~ In 0x02 [0x00; 0x01; 0x1A; 0x53; 0x72; 0x10])
    by (simpl; intuition discriminate).
  assert (Hrun : fst (@Device._tt1_send_cmd_recv_rsp iso_base
                        [0x02; 0x12; 0; 0; 0; 0; 0; 0; 0; 0; 1; 2; 3; 4] 1
                        (World [] (fifo_chip [18; 3; 10; 28; 72; 176; 160;
                                              193; 131; 8; 93; 238; 4]))) =
                 Ok [0x12; 1; 2; 3; 4; 5; 6; 7; 8])
    by (vm_compute; reflexivity).
  destruct (@tt1_bypass_sound iso_base 0x02
              [0x12; 0; 0; 0; 0; 0; 0; 0; 0; 1; 2; 3; 4] 1
              (World [] (fifo_chip [18; 3; 10; 28; 72; 176; 160; 193; 131; 8;
                                    93; 238; 4]))
              [0x12; 1; 2; 3; 4; 5; 6; 7; 8] Hc Hrun)
    as (level & fifo & Hl & _ & _ & Hu).
  exists level, fifo. split; assumption.
Defined.

(** WRITE-NE8 with two argument bytes. *)
Lemma tt1_bypass_requests_witness :
  exists regs rest,
    new_events (World [] (fifo_chip []))
      (snd (@Device._tt1_send_cmd_recv_rsp iso_base [0x1B; 0x05; 0x77] 1
              (World [] (fifo_chip []))))
    = WriteRegister regs :: rest
    /\ length regs = 18%nat
    /\ (length (requests (WriteRegister regs :: rest)) <= 4)%nat.
Proof.
  apply (@tt1_bypass_requests iso_base 0x1B [0x05; 0x77] 1
           (World [] (fifo_chip []))).
  simpl. intuition discriminate.
Defined.

(** The segment 1 read on a chip whose FIFO holds a reply of nine bytes. *)
Lemma segment_read_size_witness :
  let rsp := 0x12 :: concat (repeat [1; 2; 3; 4; 5; 6; 7; 8] 16) in
  hd_error rsp = Some 0x12 /\ (1 <= length rsp <= 129)%nat.
Proof.
  intros rsp.
  assert (Ha : is_byte 0x12) by (unfold is_byte; lia).
  assert (Hrun : fst (@Device._tt1_send_cmd_recv_rsp iso_base
                        [0x10; 0x12; 0; 0; 0; 0; 0; 0; 0; 0; 1; 2; 3; 4] 1
                        (World [] (fifo_chip [18; 3; 10; 28; 72; 176; 160;
                                              193; 131; 8; 93; 238; 4]))) =
                 Ok rsp)
    by (vm_compute; reflexivity).
  exact (@segment_read_size iso_base 0x12
           [0; 0; 0; 0; 0; 0; 0; 0; 1; 2; 3; 4] 1
           (World [] (fifo_chip [18; 3; 10; 28; 72; 176; 160; 193; 131; 8;
                                 93; 238; 4])) rsp Ha Hrun).
Defined.

(** The address bytes 0x12 and 0x1F, both of segment 1. *)
Lemma segment_read_low_half_witness :
  exists (payload : result (list Z)) (w' : world),
    @Device._tt1_send_cmd_recv_rsp iso_base [0x10; 0x12; 0; 0] 1
      (World [] (fifo_chip [])) =
    (p <~ payload ;; Ok (0x12 :: p), w')
    /\ @Device._tt1_send_cmd_recv_rsp iso_base [0x10; 0x1F; 0; 0] 1
         (World [] (fifo_chip [])) =
       (p <~ payload ;; Ok (0x1F :: p), w').
Proof.
  apply (@segment_read_low_half iso_base 0x12 0x1F [0; 0] 1
           (World [] (fifo_chip []))).
  - unfold is_byte. lia.
  - unfold is_byte. lia.
  - reflexivity.
Defined.

(** A reply of twenty bytes with 0x32 in its byte 18, which becomes 0x22,
    and one with 0x10 there, which stays. *)
Lemma old_sense_dep_reply_length_reduction_witness :
  Device.old_sense_dep_reply 106 (Device.DepTarget 106 [] [])
    (repeat 0 18 ++ [0x32; 0x07]) =
  Ok (Device.DepTarget 106 [] (repeat 0 16 ++ [0x22; 0x07]))
  /\ Device.old_sense_dep_reply 106 (Device.DepTarget 106 [] [])
       (repeat 0 18 ++ [0x10; 0x07]) =
     Ok (Device.DepTarget 106 [] (repeat 0 16 ++ [0x10; 0x07]))
  /\ match Device.old_sense_dep_reply 106 (Device.DepTarget 106 [] [])
             (repeat 0 18 ++ [0x32; 0x07]) with
     | Raise e => e = IndexError /\ (20 <= 18)%nat
     | Ok tg' =>
         (18 < 20)%nat
         /\ Device.bitrate tg' = 106
         /\ Device.atr_req tg' = []
         /\ length (Device.atr_res tg') = 18%nat
         /\ Z.land (nth 16 (Device.atr_res tg') 0) 0x30 <> 0x30
         /\ Z.land (nth 16 (Device.atr_res tg') 0) 0xCF = Z.land 0x32 0xCF
         /\ (forall k, 0 <= k ->
                Z.testbit (nth 16 (Device.atr_res tg') 0) k =
                if k =? 4
                then Z.testbit 0x32 4 && negb (Z.testbit 0x32 5)
                else Z.testbit 0x32 k)
         /\ forall i, i <> 16%nat ->
                      nth i (Device.atr_res tg') 0 =
                      nth (2 + i) (repeat 0 18 ++ [0x32; 0x07]) 0
     end.
Proof.
  split; [reflexivity|]. split; [reflexivity|].
  assert (Hbytes : Forall is_byte (repeat 0 18 ++ [0x32; 0x07])).
  { apply Forall_forall. intros x Hx. apply in_app_or in Hx.
    destruct Hx as [Hx|[<-|[<-|[]]]]; unfold is_byte; try lia.
    apply repeat_spec in Hx. lia. }
  exact (old_sense_dep_reply_length_reduction
           106 (Device.DepTarget 106 [] []) (repeat 0 18 ++ [0x32; 0x07])
           eq_refl Hbytes).
Defined.

(** A reply at 212 kbps when the reader's target runs at 424. *)
Lemma old_sense_dep_reply_other_rates_witness :
  Device.old_sense_dep_reply 424 (Device.DepTarget 212 [0xD4] [])
                             [0x12; 0xD5; 0x01] =
  Ok (Device.DepTarget 424 [0xD4] [0xD5; 0x01]).
Proof.
  apply (old_sense_dep_reply_other_rates
           424 (Device.DepTarget 212 [0xD4] []) [0x12; 0xD5; 0x01]).
  discriminate.
Defined.

(** Thirteen octets from the FIFO: eleven bytes come out of them. *)
Lemma tt1_unpack_total_witness :
  let fifo := [18; 3; 10; 28; 72; 176; 160; 193; 131; 8; 93; 238; 4] in
  let cmd := [0x02; 0x12; 0; 0; 0; 0; 0; 0; 0; 0; 1; 2; 3; 4] in
  exists bytes,
    Device.tt1_unpack fifo = Ok bytes
    /\ length bytes = 11%nat
    /\ Forall is_byte bytes
    /\ fst (@Device._tt1_send_cmd_recv_rsp iso_base cmd 1
              (World [] (fifo_chip fifo))) =
       if @check_crc_b iso_base bytes then Ok (drop_last2 bytes)
       else Raise (TransmissionError "crc_b check error").
Proof.
  intros fifo cmd.
  assert (Hc : ~ In 0x02 [0x00; 0x01; 0x1A; 0x53; 0x72; 0x10])
    by (simpl; intuition discriminate).
  assert (Hl : 13 <> 0) by discriminate.
  assert (Hl1 : 13 <> 1) by discriminate.
  assert (Hbytes : Forall is_byte fifo)
    by (repeat constructor; unfold is_byte; lia).
  assert (Hd : @delivers iso_base (World [] (fifo_chip fifo)) cmd 13 fifo)
    by (repeat split; try (exists []); vm_compute; reflexivity).
  exact (@tt1_unpack_total iso_base 0x02 (tl cmd) 1
           (World [] (fifo_chip fifo)) 13 fifo Hc Hl Hl1 Hbytes Hd).
Defined.

(** A chip with one octet in its FIFO. *)
Lemma tt1_single_octet_type_error_witness :
  fst (@Device._tt1_send_cmd_recv_rsp iso_base [0x78; 0; 0; 0; 0; 0; 0] 1
         (World [] (fifo_chip [0x5A]))) = Raise TypeError.
Proof.
  apply (@tt1_single_octet_type_error iso_base 0x78 [0; 0; 0; 0; 0; 0] 1
           (World [] (fifo_chip [0x5A])) 0x5A []).
  - simpl. intuition discriminate.
  - repeat split; try (exists []); vm_compute; reflexivity.
Defined.
